(** * Service Weaver stub layer: codec, generated stubs, transaction cache

    A shallow embedding of the generated stub code of
    [examples/onlineboutique/currencyservice] and
    [examples/onlineboutique/productcatalogservice] and of the
    transaction-history cache update of [examples/bankofanthos], together
    with the properties their design document states about them.

    Go values are modelled as follows.
    - [int], [int32], sizes and counters: [Z].
    - [[]byte]: [list byte].  [string]: [string].
    - a slice [[]T] that may be [nil]: [option (list T)], [None] for [nil].
    - [error]: the inductive [error], [nil] being [None : option error].
    - a function that may panic and that mutates what it is given: the
      monad [M S A := S -> Res A * S], whose state survives a panic, as a
      Go frame does while its deferred functions run. *)

From Stdlib Require Import ZArith List String Ascii Lia.
From Stdlib.Strings Require Import Byte.
From stdpp Require Import gmap strings.
Import ListNotations.

Local Open Scope Z_scope.

(** ** Panics and the state monad of a Go function body *)

(** The value carried by [panic(v)]. *)
Inductive fault : Type := Fault (msg : string).

Inductive Res (A : Type) : Type :=
| Ret (a : A)
| Panicked (f : fault).
Arguments Ret {A} a.
Arguments Panicked {A} f.

Definition M (S A : Type) : Type := S -> Res A * S.

Definition ret {S A} (a : A) : M S A := fun s => (Ret a, s).

Definition bind {S A B} (m : M S A) (k : A -> M S B) : M S B :=
  fun s =>
    match m s with
    | (Ret a, s') => k a s'
    | (Panicked f, s') => (Panicked f, s')
    end.

Definition panic {S A} (f : fault) : M S A := fun s => (Panicked f, s).
Definition gets {S A} (g : S -> A) : M S A := fun s => (Ret (g s), s).
Definition modify {S} (u : S -> S) : M S unit := fun s => (Ret tt, u s).

(** Runs [m] on a part of the state, selected by [get] and written back by
    [set] whether [m] returns or panics. *)
Definition zoom {S T A} (get : S -> T) (set : T -> S -> S) (m : M T A) : M S A :=
  fun s => let '(r, t) := m (get s) in (r, set t s).

Declare Scope go_scope.
Delimit Scope go_scope with go.
Notation "x <- m ;; k" := (bind m (fun x => k))
  (at level 20, m at level 99, k at level 200, format "x  <-  m  ;;  '/' k") : go_scope.
Notation "' p <- m ;; k" := (bind m (fun x => match x with p => k end))
  (at level 20, p pattern, m at level 99, k at level 200,
   format "' p  <-  m  ;;  '/' k") : go_scope.
Notation "m ;; k" := (bind m (fun _ => k))
  (at level 100, k at level 200, right associativity, format "m  ;;  '/' k") : go_scope.
Local Open Scope go_scope.

(** ** Errors *)

(** [errorString] is what [errors.New] builds, [remoteCallError] is the
    sentinel [weaver.RemoteCallError], [joinError] is what [errors.Join]
    builds. *)
#[local] Unset Elimination Schemes.
Inductive error : Type :=
| errorString (s : string)
| remoteCallError
| joinError (errs : list error).
#[local] Set Elimination Schemes.

(** Induction on errors, with the hypothesis on every error a join wraps. *)
Fixpoint error_ind (P : error -> Prop)
    (Hs : forall s, P (errorString s))
    (Hr : P remoteCallError)
    (Hj : forall es, Forall P es -> P (joinError es))
    (e : error) : P e :=
  match e with
  | errorString s => Hs s
  | remoteCallError => Hr
  | joinError es =>
      Hj es ((fix all (l : list error) : Forall P l :=
                match l with
                | [] => @List.Forall_nil _ P
                | x :: l' => @List.Forall_cons _ P x l' (error_ind P Hs Hr Hj x) (all l')
                end) es)
  end.

Fixpoint error_eqb (a b : error) : bool :=
  match a, b with
  | errorString s, errorString t => String.eqb s t
  | remoteCallError, remoteCallError => true
  | joinError xs, joinError ys =>
      (fix all2 (xs ys : list error) : bool :=
         match xs, ys with
         | [], [] => true
         | x :: xs', y :: ys' => error_eqb x y && all2 xs' ys'
         | _, _ => false
         end) xs ys
  | _, _ => false
  end.

Module weaver.
(** Modelled from the spec: the sentinel [weaver.RemoteCallError] is not
    among the sources.  Section 4.4 step 7 names it the "remote call
    failed" marker. *)
Definition RemoteCallError : error := remoteCallError.
(** Modelled from the spec: the message of the sentinel. *)
Definition RemoteCallError_text : string := "remote call failed".
End weaver.

Module errors.
(** [errors.Join(errs...)]: the nil errors are dropped; the result is nil
    when nothing is left. *)
Definition Join (errs : list (option error)) : option error :=
  match omap id errs with
  | [] => None
  | es => Some (joinError es)
  end.

(** [Unwrap() []error] of a joined error; nothing for the others. *)
Definition Unwrap (e : error) : list error :=
  match e with
  | joinError es => es
  | _ => []
  end.

(** [errors.Is] on non-nil errors: the error itself or, through a join,
    one of the errors it wraps. *)
Fixpoint Is (e target : error) : bool :=
  error_eqb e target ||
  match e with
  | joinError es => existsb (fun e' => Is e' target) es
  | _ => false
  end.
End errors.

(** [err.Error()]: the message; a join shows its parts one per line. *)
Fixpoint Error (e : error) : string :=
  match e with
  | errorString s => s
  | remoteCallError => weaver.RemoteCallError_text
  | joinError es =>
      (fix lines (es : list error) : string :=
         match es with
         | [] => EmptyString
         | [x] => Error x
         | x :: es' => Error x +:+ String "010" (lines es')
         end) es
  end.

(** ** The binary codec (package [codegen]) *)

Definition byte_of_Z (z : Z) : byte :=
  match Byte.of_N (Z.to_N (z mod 256)) with
  | Some b => b
  | None => x00
  end.

Definition Z_of_byte (b : byte) : Z := Z.of_N (Byte.to_N b).

(** [len(s)] of a Go string and of a Go slice. *)
Definition len_string (s : string) : Z := Z.of_nat (String.length s).
Definition len {A} (l : list A) : Z := Z.of_nat (List.length l).

Definition MaxInt32 : Z := 2147483647.

Module codegen.

(** Modelled from the spec: package [runtime/codegen] (the encoder, the
    decoder and [CatchPanics]) is not among the sources.  Section 6 fixes
    the wire format: a length is four signed bytes, [-1] being reserved; a
    string is its length followed by its bytes; an error is a presence
    byte followed, when present, by its message.  Section 6 leaves the
    byte order to the implementation; little-endian is taken here.
    The spec gives a length four signed bytes and says nothing of a length
    they cannot hold; the encoder raises a fault there, so that no
    property rests on bytes invented for such a length. *)
Record Encoder : Type := mkEncoder { Data : list byte }.

(** Modelled from the spec: [codegen.NewEncoder()], an encoder that holds
    nothing yet. *)
Definition NewEncoder : Encoder := mkEncoder [].

(** A method of the encoder: it runs on the encoder and may raise a fault. *)
Definition Enc (A : Type) : Type := M Encoder A.

(** Modelled from the spec: a write appends to the buffer (section 4.1). *)
Definition write (bs : list byte) : Enc unit :=
  modify (fun e => mkEncoder (Data e ++ bs)).

(** Modelled from the spec: the four bytes of a signed length (section 6),
    least significant first, in two's complement. *)
Definition bytes_Int32 (z : Z) : list byte :=
  [byte_of_Z z; byte_of_Z (Z.shiftr z 8); byte_of_Z (Z.shiftr z 16);
   byte_of_Z (Z.shiftr z 24)].

(** Modelled from the spec: the signed integer four such bytes stand for. *)
Definition Int32_of_bytes (b0 b1 b2 b3 : byte) : Z :=
  let u := Z_of_byte b0 + 2 ^ 8 * Z_of_byte b1 + 2 ^ 16 * Z_of_byte b2
           + 2 ^ 24 * Z_of_byte b3 in
  if u <? 2 ^ 31 then u else u - 2 ^ 32.

(** Modelled from the spec: a string is its length followed by its bytes
    (section 6). *)
Definition bytes_String (s : string) : list byte :=
  bytes_Int32 (len_string s) ++ list_byte_of_string s.

(** Modelled from the spec: an error is a presence byte followed, when it
    is present, by its message (sections 4.1 and 6). *)
Definition bytes_Error (err : option error) : list byte :=
  match err with
  | None => [x00]
  | Some e => x01 :: bytes_String (Error e)
  end.

(** Modelled from the spec: [enc.Len(l)] writes the length header, [-1]
    included; a length the header cannot hold is a fault. *)
Definition enc_Len (l : Z) : Enc unit :=
  if (l <? -1) || (MaxInt32 <? l)
  then panic (Fault "encoder: length does not fit four bytes")
  else write (bytes_Int32 l).

(** Modelled from the spec: [enc.String(s)] writes the length of [s], then
    its bytes. *)
Definition enc_String (s : string) : Enc unit :=
  enc_Len (len_string s) ;;
  write (list_byte_of_string s).

(** Modelled from the spec: [enc.Error(err)] writes the presence flag, then
    the message of the error when there is one. *)
Definition enc_Error (err : option error) : Enc unit :=
  match err with
  | None => write [x00]
  | Some e => write [x01] ;; enc_String (Error e)
  end.

(** Modelled from the spec: the decoder of package [codegen] (section
    4.1).  It is built from a byte buffer; a read that lacks bytes sets a
    terminal error, which stays set, and every read after it yields a zero
    value without a fault. *)
Record Decoder : Type := mkDecoder { rest : list byte; failed : option error }.

(** Modelled from the spec: [codegen.NewDecoder(data)]. *)
Definition NewDecoder (data : list byte) : Decoder := mkDecoder data None.

(** A method of the decoder. *)
Definition Dec (A : Type) : Type := M Decoder A.

(** Modelled from the spec: the terminal error of a decoder. *)
Definition decodeError : error := errorString "decoder: unable to read".

(** Modelled from the spec: a failed read sets the terminal error. *)
Definition fail : Dec unit :=
  modify (fun d => mkDecoder (rest d) (Some decodeError)).

(** Modelled from the spec: a read takes [n] bytes off the buffer, or
    nothing once the decoder has failed or when fewer are left, never
    reading past the end (section 3). *)
Definition Read (n : nat) : Dec (option (list byte)) :=
  fun d =>
    match failed d with
    | Some _ => (Ret None, d)
    | None =>
        if (List.length (rest d) <? n)%nat
        then (Ret None, mkDecoder (rest d) (Some decodeError))
        else (Ret (Some (take n (rest d))), mkDecoder (drop n (rest d)) None)
    end.

(** Modelled from the spec: the read dual to [bytes_Int32]; zero when the
    bytes are lacking. *)
Definition dec_Int32 : Dec Z :=
  bs <- Read 4 ;;
  match bs with
  | Some [b0; b1; b2; b3] => ret (Int32_of_bytes b0 b1 b2 b3)
  | _ => ret 0
  end.

(** Modelled from the spec: [dec.Len()] reads a length header. *)
Definition dec_Len : Dec Z := dec_Int32.

(** Modelled from the spec: [dec.String()] reads a length, then that many
    bytes; the length [-1] stands for an absent string (section 6). *)
Definition dec_String : Dec string :=
  n <- dec_Len ;;
  if n =? -1 then ret EmptyString
  else if n <? -1 then fail ;; ret EmptyString
  else
    bs <- Read (Z.to_nat n) ;;
    match bs with
    | Some bs => ret (string_of_list_byte bs)
    | None => ret EmptyString
    end.

(** Modelled from the spec: [dec.Error()] reads the trailing error slot of
    a reply (section 4.4 step 8), and gives the terminal error of the
    decoder when a read has failed (step 9). *)
Definition dec_Error : Dec (option error) :=
  flag <- Read 1 ;;
  match flag with
  | Some [b] =>
      if Z_of_byte b =? 0 then gets failed
      else
        msg <- dec_String ;;
        f <- gets failed ;;
        match f with
        | Some e => ret (Some e)
        | None => ret (Some (errorString msg))
        end
  | _ => gets failed
  end.

(** Modelled from the spec: [codegen.CatchPanics(recover())] (section 4.4
    step 10) turns the runtime fault [recover()] gave, one raised while
    data is encoded or decoded or by the remote dispatch, into an error;
    when nothing was recovered it returns nil.  The panics it does not
    convert are those of the implementation behind a server stub (section
    4.5 step 1, section 7): [server_deferred] sets them apart before it
    comes here. *)
Definition CatchPanics (r : option fault) : option error :=
  match r with
  | None => None
  | Some (Fault msg) => Some (errorString msg)
  end.

End codegen.

(** ** Generated sequence codec

    [serviceweaver_enc_slice_string_4af10117] and
    [serviceweaver_dec_slice_string_4af10117] are generated, with the same
    text, in both packages. *)

Import codegen.

Fixpoint enc_strings (arg : list string) : Enc unit :=
  match arg with
  | [] => ret tt
  | s :: arg' => enc_String s ;; enc_strings arg'
  end.

Definition serviceweaver_enc_slice_string_4af10117 (arg : option (list string)) : Enc unit :=
  match arg with
  | None => enc_Len (-1)
  | Some arg =>
      enc_Len (len arg) ;;
      (* for i := 0; i < len(arg); i++ { enc.String(arg[i]) } *)
      enc_strings arg
  end.

(** [make([]T, n)]: a negative length is a run-time panic. *)
Definition make {S A} (zero : A) (n : Z) : M S (list A) :=
  if n <? 0 then panic (Fault "makeslice: len out of range")
  else ret (replicate (Z.to_nat n) zero).

(** [for ; i < n; i++ { res[i] = dec.String() }], [todo] being [n - i]. *)
Fixpoint dec_strings (todo : nat) (i : nat) (res : list string) : Dec (list string) :=
  match todo with
  | O => ret res
  | S todo' =>
      s <- dec_String ;;
      dec_strings todo' (S i) (<[i := s]> res)
  end.

Definition serviceweaver_dec_slice_string_4af10117 : Dec (option (list string)) :=
  n <- dec_Len ;;
  if n =? -1 then ret None
  else
    res <- make EmptyString n ;;
    res <- dec_strings (Z.to_nat n) 0 res ;;
    ret (Some res).


(** [codegen.AutoMarshal]: a type that serializes itself into an encoder
    and fills itself from a decoder.  [WeaverUnmarshal] has a pointer
    receiver: it runs on the value it assigns and on the decoder, and what
    it assigned before a panic stays assigned. *)
Class AutoMarshal (T : Type) : Type := {
  zero : T;
  WeaverMarshal : T -> Enc unit;
  WeaverUnmarshal : M (T * Decoder) unit
}.

(** ** Contexts, spans and metrics *)

Inductive SpanKind : Type := SpanKindInternal | SpanKindClient | SpanKindServer.

(** A span is the one found in the caller's context, whose span context is
    valid or not, or one that a tracer started for a call. *)
Inductive Span : Type :=
| inherited (valid : bool)
| started (name : string) (kind : SpanKind).

(** [span.SpanContext().IsValid()] *)
Definition IsValid (span : Span) : bool :=
  match span with
  | inherited valid => valid
  | started _ _ => true
  end.

(** [context.Context], as far as the stubs look into it. *)
Record Context : Type := mkContext { SpanFromContext : Span }.

(** What a call does to its collaborators, in order: the operations of the
    tracing contract (section 6), each with the span it is applied to, and
    the invocations of the transport that returned, with whether they
    returned an error. *)
Inductive Event : Type :=
| evStart (name : string) (kind : SpanKind)
| evRecordError (span : Span) (err : error)
| evSetStatusError (span : Span) (description : string)
| evEnd (span : Span)
| evRun (method : Z) (args : list byte) (shardKey : Z) (failed : bool).

(** Modelled from the spec: [codegen.MethodMetrics] (section 4.6), the
    instruments of a method: a call counter, an error counter, a latency
    distribution and the two size distributions; a distribution is the
    list of its samples. *)
Record MethodMetrics : Type := mkMethodMetrics {
  Count : Z;
  ErrorCount : Z;
  Latency : list Z;
  BytesRequest : list Z;
  BytesReply : list Z
}.

Definition noMetrics : MethodMetrics := mkMethodMetrics 0 0 [] [] [].

(** A counter takes [Add(delta)], a distribution takes [Put(v)]. *)
Definition add_Count (delta : Z) (m : MethodMetrics) : MethodMetrics :=
  mkMethodMetrics (Count m + delta) (ErrorCount m) (Latency m) (BytesRequest m) (BytesReply m).
Definition add_ErrorCount (delta : Z) (m : MethodMetrics) : MethodMetrics :=
  mkMethodMetrics (Count m) (ErrorCount m + delta) (Latency m) (BytesRequest m) (BytesReply m).
Definition put_Latency (v : Z) (m : MethodMetrics) : MethodMetrics :=
  mkMethodMetrics (Count m) (ErrorCount m) (Latency m ++ [v]) (BytesRequest m) (BytesReply m).
Definition put_BytesRequest (v : Z) (m : MethodMetrics) : MethodMetrics :=
  mkMethodMetrics (Count m) (ErrorCount m) (Latency m) (BytesRequest m ++ [v]) (BytesReply m).
Definition put_BytesReply (v : Z) (m : MethodMetrics) : MethodMetrics :=
  mkMethodMetrics (Count m) (ErrorCount m) (Latency m) (BytesRequest m) (BytesReply m ++ [v]).

(** Modelled from the spec: [codegen.MethodLabels], the key of the
    instruments of a method (section 4.6). *)
Record MethodLabels : Type := mkMethodLabels {
  Caller : string;
  Component : string;
  Method : string
}.

#[global] Instance MethodLabels_eq_dec : EqDecision MethodLabels.
Proof. solve_decision. Defined.

(** Modelled from the spec: [codegen.MethodMetricsFor(labels)] gives the
    instruments of a method, made once and shared by all the calls through
    a stub (section 3).  The pointer it returns is modelled by the labels;
    the instruments themselves live in the world. *)
Definition MethodMetricsFor (labels : MethodLabels) : MethodLabels := labels.

Section Runtime.

(** The state of the collaborators the stub layer does not own: the
    transport and its peers, the component implementation, the clock. *)
Context {Ext : Type}.

(** [time.Now()], in microseconds. *)
Variable clock : Ext -> Z.

Record World : Type := mkWorld {
  ext : Ext;
  metrics : MethodLabels -> MethodMetrics;
  trace : list Event
}.

Definition external {A} (m : M Ext A) : M World A :=
  zoom ext (fun x w => mkWorld x (metrics w) (trace w)) m.

Definition emit (ev : Event) : M World unit :=
  modify (fun w => mkWorld (ext w) (metrics w) (trace w ++ [ev])).

Definition instrument (p : MethodLabels) (f : MethodMetrics -> MethodMetrics) : M World unit :=
  modify (fun w =>
    mkWorld (ext w)
            (fun q => if decide (p = q) then f (metrics w q) else metrics w q)
            (trace w)).

(** [p.Count.Add(delta)] and the like. *)
Definition Count_Add (p : MethodLabels) (delta : Z) : M World unit :=
  instrument p (add_Count delta).
Definition ErrorCount_Add (p : MethodLabels) (delta : Z) : M World unit :=
  instrument p (add_ErrorCount delta).
Definition Latency_Put (p : MethodLabels) (v : Z) : M World unit :=
  instrument p (put_Latency v).
Definition BytesRequest_Put (p : MethodLabels) (v : Z) : M World unit :=
  instrument p (put_BytesRequest v).
Definition BytesReply_Put (p : MethodLabels) (v : Z) : M World unit :=
  instrument p (put_BytesReply v).

Definition time_Now : M World Z := gets (fun w => clock (ext w)).

(** [time.Since(start).Microseconds()] *)
Definition time_Since (start : Z) : M World Z :=
  gets (fun w => clock (ext w) - start).

(** [tracer.Start(ctx, name, trace.WithSpanKind(kind))]: the new context
    and the span it carries. *)
Definition tracer_Start (ctx : Context) (name : string) (kind : SpanKind)
  : M World (Context * Span) :=
  emit (evStart name kind) ;;
  ret (mkContext (started name kind), started name kind).

Definition span_RecordError (span : Span) (err : error) : M World unit :=
  emit (evRecordError span err).
Definition span_SetStatus_Error (span : Span) (description : string) : M World unit :=
  emit (evSetStatusError span description).
Definition span_End (span : Span) : M World unit :=
  emit (evEnd span).

(** [err != nil] *)
Definition is_error (e : option error) : bool :=
  match e with
  | Some _ => true
  | None => false
  end.

(** Modelled from the spec: [codegen.Stub], the transport a client stub
    calls through (section 6); its [Run] may change the state of the
    collaborators, return a reply or an error, or panic. *)
Record Stub : Type := mkStub {
  Run : Context -> Z -> list byte -> Z -> M Ext (list byte * option error)
}.

(** [s.stub.Run(ctx, method, args, shardKey)], with its invocation logged
    once it has returned. *)
Definition stub_Run (stub : Stub) (ctx : Context) (method : Z) (args : list byte)
    (shardKey : Z) : M World (list byte * option error) :=
  out <- external (Run stub ctx method args shardKey) ;;
  emit (evRun method args shardKey (is_error (snd out))) ;;
  ret out.

(** *** Function frames and deferred functions

    [vars] holds the named results and the locals that a deferred
    function reads or that outlive a panic; [inflight] is the panic
    being propagated while the deferred function runs. *)
Record Frame (F W : Type) : Type := mkFrame {
  vars : F;
  world : W;
  inflight : option fault
}.
Arguments mkFrame {F W} _ _ _.
Arguments vars {F W} _.
Arguments world {F W} _.
Arguments inflight {F W} _.

Definition in_world {F W A} (m : M W A) : M (Frame F W) A :=
  zoom world (fun w fr => mkFrame (vars fr) w (inflight fr)) m.

Definition in_vars {F W A} (m : M F A) : M (Frame F W) A :=
  zoom vars (fun v fr => mkFrame v (world fr) (inflight fr)) m.

(** [recover()]: the panic in flight, which it stops. *)
Definition recover {F W} : M (Frame F W) (option fault) :=
  fun fr => (Ret (inflight fr), mkFrame (vars fr) (world fr) None).

(** A function with named results [init] that defers [deferred] and
    then runs [body]: the deferred function runs when the body has
    returned or panicked, and the named results are returned unless a
    panic is still in flight. *)
Definition func {F W R} (init : F) (deferred body : M (Frame F W) unit)
    (results : F -> R) : M W R :=
  fun w =>
    let '(r, fr) := body (mkFrame init w None) in
    let fr :=
      match r with
      | Ret _ => fr
      | Panicked f => mkFrame (vars fr) (world fr) (Some f)
      end in
    let '(r', fr') := deferred fr in
    match r', inflight fr' with
    | Panicked f', _ => (Panicked f', world fr')
    | Ret _, Some f => (Panicked f, world fr')
    | Ret _, None => (Ret (results (vars fr')), world fr')
    end.

(** [enc := codegen.NewEncoder(); ...]: the encoder after [m]. *)
Definition encode {S} (m : Enc unit) : M S Encoder :=
  fun s =>
    match m NewEncoder with
    | (Ret _, enc) => (Ret enc, s)
    | (Panicked f, _) => (Panicked f, s)
    end.

(** [dec := codegen.NewDecoder(data); ...]: what [m] reads. *)
Definition decode {S A} (data : list byte) (m : Dec A) : M S A :=
  fun s =>
    match m (NewDecoder data) with
    | (Ret a, _) => (Ret a, s)
    | (Panicked f, _) => (Panicked f, s)
    end.

(** [var a T; (&a).WeaverUnmarshal(dec)], giving [a]. *)
Definition unmarshal_var {T} `{AutoMarshal T} : Dec T :=
  fun d =>
    match WeaverUnmarshal (zero, d) with
    | (Ret _, (a, d')) => (Ret a, d')
    | (Panicked f, (_, d')) => (Panicked f, d')
    end.

(** *** Named results *)

(** The named results [(r0 R, err error)] of a local-stub method. *)
Record Results (R : Type) : Type := mkResults {
  lr0 : R;
  lerr : option error
}.
Arguments mkResults {R} _ _.
Arguments lr0 {R} _.
Arguments lerr {R} _.

(** The named results [(r0 R, err error)] of a client-stub method, with
    the decoder [dec] that fills them. *)
Record Named (R : Type) : Type := mkNamed {
  r0 : R;
  err : option error;
  dec : Decoder
}.
Arguments mkNamed {R} _ _ _.
Arguments r0 {R} _.
Arguments err {R} _.
Arguments dec {R} _.

Definition set_r0 {R} (v : R) : M (Named R) unit :=
  modify (fun n => mkNamed v (err n) (dec n)).
Definition set_err {R} (e : option error) : M (Named R) unit :=
  modify (fun n => mkNamed (r0 n) e (dec n)).
Definition set_dec {R} (d : Decoder) : M (Named R) unit :=
  modify (fun n => mkNamed (r0 n) (err n) d).

(** A decoder read on the local [dec]. *)
Definition on_dec {R A} (m : Dec A) : M (Named R) A :=
  zoom dec (fun d n => mkNamed (r0 n) (err n) d) m.

(** [(&r0).WeaverUnmarshal(dec)] *)
Definition unmarshal_r0 {R} `{AutoMarshal R} : M (Named R) unit :=
  zoom (fun n => (r0 n, dec n)) (fun p n => mkNamed (fst p) (err n) (snd p))
       WeaverUnmarshal.

(** The named results [(res []byte, err error)] of a server-stub
    handler.  Modelled from the spec: [escaped] tells that the panic in
    flight left the call of the implementation.  In the program the value
    recovered tells it, and [codegen.CatchPanics], which is not among the
    sources, looks at that value; a [fault] keeps the message only, so the
    frame of the handler keeps where the panic came from (section 4.5
    step 1). *)
Record Reply : Type := mkReply {
  res : list byte;
  rerr : option error;
  escaped : bool
}.

(** *** Deferred functions of the generated stubs

    The generator writes the same deferred function into every method
    of a kind of stub; only the metrics it updates differ. *)

(** Deferred by a local-stub method, once it has started a span. *)
Definition local_deferred {R} (span : Span) : M (Frame (Results R) World) unit :=
  e <- in_vars (gets lerr) ;;
  match e with
  | Some e =>
      in_world (span_RecordError span e) ;;
      in_world (span_SetStatus_Error span (Error e))
  | None => ret tt
  end ;;
  in_world (span_End span).

(** Deferred by a client-stub method. *)
Definition client_deferred {R} (methodMetrics : MethodLabels) (span : Span) (start : Z)
    : M (Frame (Named R) World) unit :=
  (* Catch and return any panics detected during encoding/decoding/rpc. *)
  e <- in_vars (gets err) ;;
  match e with
  | None =>
      r <- recover ;;
      in_vars (set_err (CatchPanics r)) ;;
      match CatchPanics r with
      | Some e => in_vars (set_err (errors.Join [Some weaver.RemoteCallError; Some e]))
      | None => ret tt
      end
  | Some _ => ret tt
  end ;;
  e <- in_vars (gets err) ;;
  match e with
  | Some e =>
      in_world (span_RecordError span e) ;;
      in_world (span_SetStatus_Error span (Error e)) ;;
      in_world (ErrorCount_Add methodMetrics 1)
  | None => ret tt
  end ;;
  in_world (span_End span) ;;
  d <- in_world (time_Since start) ;;
  in_world (Latency_Put methodMetrics d).

(** [s.impl.Method(ctx, ...)] in a server-stub handler: the call of the
    real implementation.  Modelled from the spec: a panic that leaves the
    call is marked as one of the business logic, which the guard of the
    handler does not cover (section 4.5 step 1, section 9).  The comment
    the generator writes before the call expects the deferred function to
    recover such a panic; that is up to [codegen.CatchPanics], which is
    not among the sources. *)
Definition business {A} (m : M Ext A) : M (Frame Reply Ext) A :=
  fun fr =>
    match m (world fr) with
    | (Ret a, x) => (Ret a, mkFrame (vars fr) x (inflight fr))
    | (Panicked f, x) =>
        (Panicked f,
         mkFrame (mkReply (res (vars fr)) (rerr (vars fr)) true) x (inflight fr))
    end.

(** [codegen.CatchPanics(recover())] in a server-stub handler.  Modelled
    from the spec: the faults raised while the arguments are decoded or
    the results encoded become the error of the handler; a panic of the
    implementation is not converted and goes on (section 4.5 step 1,
    section 7). *)
Definition server_CatchPanics (r : option fault) : M (Frame Reply Ext) (option error) :=
  e <- in_vars (gets escaped) ;;
  match r with
  | Some f => if e then panic f else ret (CatchPanics r)
  | None => ret (CatchPanics r)
  end.

(** Deferred by a server-stub handler. *)
Definition server_deferred : M (Frame Reply Ext) unit :=
  (* Catch and return any panics detected during encoding/decoding/rpc. *)
  e <- in_vars (gets rerr) ;;
  match e with
  | None =>
      r <- recover ;;
      e <- server_CatchPanics r ;;
      in_vars (modify (fun v => mkReply (res v) e (escaped v)))
  | Some _ => ret tt
  end.

(** [span := trace.SpanFromContext(ctx); if span.SpanContext().IsValid()
    { ctx, span = tracer.Start(ctx, name, kind) }]: the context and the
    span the method goes on with. *)
Definition child_span (ctx : Context) (name : string) (kind : SpanKind)
    : M World (Context * Span) :=
  let span := SpanFromContext ctx in
  if IsValid span then tracer_Start ctx name kind else ret (ctx, span).

End Runtime.

Arguments World : clear implicits.
Arguments Stub : clear implicits.
Arguments mkFrame {F W} _ _ _.
Arguments vars {F W} _.
Arguments world {F W} _.
Arguments inflight {F W} _.
Arguments mkResults {R} _ _.
Arguments lr0 {R} _.
Arguments lerr {R} _.
Arguments mkNamed {R} _ _ _.
Arguments r0 {R} _.
Arguments err {R} _.
Arguments dec {R} _.

(** ** Package [currencyservice] (generated stubs) *)

Module currencyservice.
Section Stubs.

(** [money.T] is declared in another package; it enters as a type that
    marshals itself. *)
Context {money_T : Type} `{AutoMarshal money_T}.
Context {Ext : Type}.
Variable clock : Ext -> Z.

(** The component interface [T]; an implementation runs in the state of
    the collaborators and may panic. *)
Record T : Type := mkT {
  Convert : Context -> money_T -> string -> M Ext (money_T * option error);
  GetSupportedCurrencies : Context -> M Ext (option (list string) * option error)
}.

Definition component : string :=
  "github.com/ServiceWeaver/weaver/examples/onlineboutique/currencyservice/T".

(** The names of the methods of [T]. *)
Definition methods : list string := ["Convert"; "GetSupportedCurrencies"]%string.

(** *** Local stub implementations *)

Record t_local_stub : Type := mk_local_stub { local_impl : T }.

(** [return s.impl.Convert(ctx, a0, a1)] *)
Definition t_local_stub_Convert_body (s : t_local_stub) (ctx : Context)
    (a0 : money_T) (a1 : string) : M (Frame (Results money_T) (World Ext)) unit :=
  '(r0, err) <- in_world (external (Convert (local_impl s) ctx a0 a1)) ;;
  in_vars (modify (fun _ => mkResults r0 err)).

Definition t_local_stub_Convert (s : t_local_stub) (ctx : Context)
    (a0 : money_T) (a1 : string) : M (World Ext) (money_T * option error) :=
  let span := SpanFromContext ctx in
  if IsValid span then
    (* Create a child span for this method. *)
    '(ctx, span) <- tracer_Start ctx "currencyservice.T.Convert" SpanKindInternal ;;
    func (mkResults zero None)
      (local_deferred span)
      (t_local_stub_Convert_body s ctx a0 a1)
      (fun v => (lr0 v, lerr v))
  else
    func (mkResults zero None)
      (ret tt)
      (t_local_stub_Convert_body s ctx a0 a1)
      (fun v => (lr0 v, lerr v)).

(** [return s.impl.GetSupportedCurrencies(ctx)] *)
Definition t_local_stub_GetSupportedCurrencies_body (s : t_local_stub) (ctx : Context)
    : M (Frame (Results (option (list string))) (World Ext)) unit :=
  '(r0, err) <- in_world (external (GetSupportedCurrencies (local_impl s) ctx)) ;;
  in_vars (modify (fun _ => mkResults r0 err)).

Definition t_local_stub_GetSupportedCurrencies (s : t_local_stub) (ctx : Context)
    : M (World Ext) (option (list string) * option error) :=
  let span := SpanFromContext ctx in
  if IsValid span then
    (* Create a child span for this method. *)
    '(ctx, span) <- tracer_Start ctx "currencyservice.T.GetSupportedCurrencies" SpanKindInternal ;;
    func (mkResults None None)
      (local_deferred span)
      (t_local_stub_GetSupportedCurrencies_body s ctx)
      (fun v => (lr0 v, lerr v))
  else
    func (mkResults None None)
      (ret tt)
      (t_local_stub_GetSupportedCurrencies_body s ctx)
      (fun v => (lr0 v, lerr v)).

(** *** Client stub implementations *)

Record t_client_stub : Type := mk_client_stub {
  stub : Stub Ext;
  convertMetrics : MethodLabels;
  getSupportedCurrenciesMetrics : MethodLabels
}.

(** [ClientStubFn] of the registration. *)
Definition ClientStubFn (stub : Stub Ext) (caller : string) : t_client_stub :=
  mk_client_stub stub
    (MethodMetricsFor (mkMethodLabels caller component "Convert"))
    (MethodMetricsFor (mkMethodLabels caller component "GetSupportedCurrencies")).

(** The statements of [t_client_stub.Convert] after its [defer]. *)
Definition t_client_stub_Convert_body (s : t_client_stub) (ctx : Context)
    (a0 : money_T) (a1 : string) : M (Frame (Named money_T) (World Ext)) unit :=
  (* Encode arguments. *)
  enc <- encode (WeaverMarshal a0 ;; enc_String a1) ;;
  let shardKey := 0 in
  (* Call the remote method. *)
  in_world (BytesRequest_Put (convertMetrics s) (len (Data enc))) ;;
  '(results, e) <- in_world (stub_Run (stub s) ctx 0 (Data enc) shardKey) ;;
  in_vars (set_err e) ;;
  match e with
  | Some e =>
      in_vars (set_err (errors.Join [Some weaver.RemoteCallError; Some e]))
  | None =>
      in_world (BytesReply_Put (convertMetrics s) (len results)) ;;
      (* Decode the results. *)
      in_vars (set_dec (NewDecoder results)) ;;
      in_vars unmarshal_r0 ;;
      e <- in_vars (on_dec dec_Error) ;;
      in_vars (set_err e)
  end.

Definition t_client_stub_Convert (s : t_client_stub) (ctx : Context)
    (a0 : money_T) (a1 : string) : M (World Ext) (money_T * option error) :=
  (* Update metrics. *)
  start <- time_Now clock ;;
  Count_Add (convertMetrics s) 1 ;;
  '(ctx, span) <- child_span ctx "currencyservice.T.Convert" SpanKindClient ;;
  func (mkNamed zero None (NewDecoder []))
    (client_deferred clock (convertMetrics s) span start)
    (t_client_stub_Convert_body s ctx a0 a1)
    (fun v => (r0 v, err v)).

(** The statements of [t_client_stub.GetSupportedCurrencies] after its
    [defer]. *)
Definition t_client_stub_GetSupportedCurrencies_body (s : t_client_stub) (ctx : Context)
    : M (Frame (Named (option (list string))) (World Ext)) unit :=
  let shardKey := 0 in
  (* Call the remote method. *)
  in_world (BytesRequest_Put (getSupportedCurrenciesMetrics s) 0) ;;
  '(results, e) <- in_world (stub_Run (stub s) ctx 1 [] shardKey) ;;
  in_vars (set_err e) ;;
  match e with
  | Some e =>
      in_vars (set_err (errors.Join [Some weaver.RemoteCallError; Some e]))
  | None =>
      in_world (BytesReply_Put (getSupportedCurrenciesMetrics s) (len results)) ;;
      (* Decode the results. *)
      in_vars (set_dec (NewDecoder results)) ;;
      v <- in_vars (on_dec serviceweaver_dec_slice_string_4af10117) ;;
      in_vars (set_r0 v) ;;
      e <- in_vars (on_dec dec_Error) ;;
      in_vars (set_err e)
  end.

Definition t_client_stub_GetSupportedCurrencies (s : t_client_stub) (ctx : Context)
    : M (World Ext) (option (list string) * option error) :=
  (* Update metrics. *)
  start <- time_Now clock ;;
  Count_Add (getSupportedCurrenciesMetrics s) 1 ;;
  '(ctx, span) <- child_span ctx "currencyservice.T.GetSupportedCurrencies" SpanKindClient ;;
  func (mkNamed None None (NewDecoder []))
    (client_deferred clock (getSupportedCurrenciesMetrics s) span start)
    (t_client_stub_GetSupportedCurrencies_body s ctx)
    (fun v => (r0 v, err v)).

(** *** Server stub implementations *)

Record t_server_stub : Type := mk_server_stub { impl : T }.

Definition handler : Type := Context -> list byte -> M Ext (list byte * option error).

(** The statements of [t_server_stub.convert] after its [defer]. *)
Definition t_server_stub_convert_body (s : t_server_stub) (ctx : Context)
    (args : list byte) : M (Frame Reply Ext) unit :=
  (* Decode arguments. *)
  '(a0, a1) <- decode args (a0 <- unmarshal_var ;;
                            a1 <- dec_String ;;
                            ret (a0, a1)) ;;
  (* Call the local method. *)
  '(r0, appErr) <- business (Convert (impl s) ctx a0 a1) ;;
  (* Encode the results. *)
  enc <- encode (WeaverMarshal r0 ;; enc_Error appErr) ;;
  in_vars (modify (fun _ => mkReply (Data enc) None false)).

Definition t_server_stub_convert (s : t_server_stub) : handler :=
  fun ctx args =>
    func (mkReply [] None false)
      server_deferred
      (t_server_stub_convert_body s ctx args)
      (fun v => (res v, rerr v)).

(** The statements of [t_server_stub.getSupportedCurrencies] after its
    [defer]. *)
Definition t_server_stub_getSupportedCurrencies_body (s : t_server_stub) (ctx : Context)
    (args : list byte) : M (Frame Reply Ext) unit :=
  (* Call the local method. *)
  '(r0, appErr) <- business (GetSupportedCurrencies (impl s) ctx) ;;
  (* Encode the results. *)
  enc <- encode (serviceweaver_enc_slice_string_4af10117 r0 ;; enc_Error appErr) ;;
  in_vars (modify (fun _ => mkReply (Data enc) None false)).

Definition t_server_stub_getSupportedCurrencies (s : t_server_stub) : handler :=
  fun ctx args =>
    func (mkReply [] None false)
      server_deferred
      (t_server_stub_getSupportedCurrencies_body s ctx args)
      (fun v => (res v, rerr v)).

(** [GetStubFn] implements the [stub.Server] interface. *)
Definition t_server_stub_GetStubFn (s : t_server_stub) (method : string) : option handler :=
  if String.eqb method "Convert" then Some (t_server_stub_convert s)
  else if String.eqb method "GetSupportedCurrencies"
  then Some (t_server_stub_getSupportedCurrencies s)
  else None.

End Stubs.
End currencyservice.

(** ** Package [productcatalogservice] (generated stubs) *)

Module productcatalogservice.
Section Stubs.

(** The type of [Product.PriceUSD], [money.T], is declared in another
    package; it enters as a type that marshals itself. *)
Context {money_T : Type} `{AutoMarshal money_T}.
Context {Ext : Type}.
Variable clock : Ext -> Z.

Record Product : Type := mkProduct {
  ID : string;
  Name : string;
  Description : string;
  Picture : string;
  PriceUSD : money_T;
  Categories : option (list string)
}.

Definition Product_zero : Product :=
  mkProduct EmptyString EmptyString EmptyString EmptyString zero None.

Definition component : string :=
  "github.com/ServiceWeaver/weaver/examples/onlineboutique/productcatalogservice/T".

(** The component interface [T], as the stubs call it; an implementation
    runs in the state of the collaborators and may panic. *)
Record T : Type := mkT {
  GetProduct : Context -> string -> M Ext (Product * option error);
  ListProducts : Context -> M Ext (option (list Product) * option error);
  SearchProducts : Context -> string -> M Ext (option (list Product) * option error)
}.

(** The names of the methods of [T]. *)
Definition methods : list string := ["GetProduct"; "ListProducts"; "SearchProducts"]%string.

(** *** AutoMarshal implementations *)

(** [func (x *Product) WeaverMarshal(enc)], [None] being the nil receiver. *)
Definition Product_WeaverMarshal (x : option Product) : Enc unit :=
  match x with
  | None => panic (Fault "Product.WeaverMarshal: nil receiver")
  | Some x =>
      enc_String (ID x) ;;
      enc_String (Name x) ;;
      enc_String (Description x) ;;
      enc_String (Picture x) ;;
      WeaverMarshal (PriceUSD x) ;;
      serviceweaver_enc_slice_string_4af10117 (Categories x)
  end.

(** A read of the decoder next to the record being filled. *)
Definition read {A} (m : Dec A) : M (Product * Decoder) A :=
  zoom snd (fun d p => (fst p, d)) m.

Definition assign (f : Product -> Product) : M (Product * Decoder) unit :=
  modify (fun p => (f (fst p), snd p)).

(** The assignments of [Product.WeaverUnmarshal], on a receiver that is
    not nil. *)
Definition Product_fields : M (Product * Decoder) unit :=
  v <- read dec_String ;;
  assign (fun x => mkProduct v (Name x) (Description x) (Picture x) (PriceUSD x) (Categories x)) ;;
  v <- read dec_String ;;
  assign (fun x => mkProduct (ID x) v (Description x) (Picture x) (PriceUSD x) (Categories x)) ;;
  v <- read dec_String ;;
  assign (fun x => mkProduct (ID x) (Name x) v (Picture x) (PriceUSD x) (Categories x)) ;;
  v <- read dec_String ;;
  assign (fun x => mkProduct (ID x) (Name x) (Description x) v (PriceUSD x) (Categories x)) ;;
  zoom (fun p => (PriceUSD (fst p), snd p))
       (fun q p =>
          let x := fst p in
          (mkProduct (ID x) (Name x) (Description x) (Picture x) (fst q) (Categories x),
           snd q))
       WeaverUnmarshal ;;
  v <- read serviceweaver_dec_slice_string_4af10117 ;;
  assign (fun x => mkProduct (ID x) (Name x) (Description x) (Picture x) (PriceUSD x) v).

(** [func (x *Product) WeaverUnmarshal(dec)], [None] being the nil
    receiver. *)
Definition Product_WeaverUnmarshal : M (option Product * Decoder) unit :=
  fun st =>
    match fst st with
    | None => (Panicked (Fault "Product.WeaverUnmarshal: nil receiver"), st)
    | Some x =>
        let '(r, (x', d')) := Product_fields (x, snd st) in
        (r, (Some x', d'))
    end.

(** [var _ codegen.AutoMarshal = &Product{}] *)
#[global] Instance Product_AutoMarshal : AutoMarshal Product := {
  zero := Product_zero;
  WeaverMarshal x := Product_WeaverMarshal (Some x);
  WeaverUnmarshal :=
    zoom (fun p => (Some (fst p), snd p))
         (fun q p => (default (fst p) (fst q), snd q))
         Product_WeaverUnmarshal
}.

(** *** Encoding/decoding implementations *)

Fixpoint enc_Products (arg : list Product) : Enc unit :=
  match arg with
  | [] => ret tt
  | x :: arg' => WeaverMarshal x ;; enc_Products arg'
  end.

Definition serviceweaver_enc_slice_Product_3e9d9e07 (arg : option (list Product)) : Enc unit :=
  match arg with
  | None => enc_Len (-1)
  | Some arg =>
      enc_Len (len arg) ;;
      (* for i := 0; i < len(arg); i++ { (arg[i]).WeaverMarshal(enc) } *)
      enc_Products arg
  end.

(** [for ; i < n; i++ { (&res[i]).WeaverUnmarshal(dec) }], [todo] being
    [n - i]. *)
Fixpoint dec_Products (todo : nat) (i : nat) : M (list Product * Decoder) unit :=
  match todo with
  | O => ret tt
  | S todo' =>
      zoom (fun p => (default Product_zero (fst p !! i), snd p))
           (fun q p => (<[i := fst q]> (fst p), snd q))
           WeaverUnmarshal ;;
      dec_Products todo' (S i)
  end.

Definition serviceweaver_dec_slice_Product_3e9d9e07 : Dec (option (list Product)) :=
  n <- dec_Len ;;
  if n =? -1 then ret None
  else
    res <- make Product_zero n ;;
    fun d =>
      match dec_Products (Z.to_nat n) 0 (res, d) with
      | (Ret _, (res, d')) => (Ret (Some res), d')
      | (Panicked f, (_, d')) => (Panicked f, d')
      end.

(** *** Local stub implementations *)

Record t_local_stub : Type := mk_local_stub { local_impl : T }.

(** [return s.impl.GetProduct(ctx, a0)] *)
Definition t_local_stub_GetProduct_body (s : t_local_stub) (ctx : Context)
    (a0 : string) : M (Frame (Results Product) (World Ext)) unit :=
  '(r0, err) <- in_world (external (GetProduct (local_impl s) ctx a0)) ;;
  in_vars (modify (fun _ => mkResults r0 err)).

Definition t_local_stub_GetProduct (s : t_local_stub) (ctx : Context)
    (a0 : string) : M (World Ext) (Product * option error) :=
  let span := SpanFromContext ctx in
  if IsValid span then
    (* Create a child span for this method. *)
    '(ctx, span) <- tracer_Start ctx "productcatalogservice.T.GetProduct" SpanKindInternal ;;
    func (mkResults zero None)
      (local_deferred span)
      (t_local_stub_GetProduct_body s ctx a0)
      (fun v => (lr0 v, lerr v))
  else
    func (mkResults zero None)
      (ret tt)
      (t_local_stub_GetProduct_body s ctx a0)
      (fun v => (lr0 v, lerr v)).

(** [return s.impl.ListProducts(ctx)] *)
Definition t_local_stub_ListProducts_body (s : t_local_stub) (ctx : Context)
    : M (Frame (Results (option (list Product))) (World Ext)) unit :=
  '(r0, err) <- in_world (external (ListProducts (local_impl s) ctx)) ;;
  in_vars (modify (fun _ => mkResults r0 err)).

Definition t_local_stub_ListProducts (s : t_local_stub) (ctx : Context)
    : M (World Ext) (option (list Product) * option error) :=
  let span := SpanFromContext ctx in
  if IsValid span then
    (* Create a child span for this method. *)
    '(ctx, span) <- tracer_Start ctx "productcatalogservice.T.ListProducts" SpanKindInternal ;;
    func (mkResults None None)
      (local_deferred span)
      (t_local_stub_ListProducts_body s ctx)
      (fun v => (lr0 v, lerr v))
  else
    func (mkResults None None)
      (ret tt)
      (t_local_stub_ListProducts_body s ctx)
      (fun v => (lr0 v, lerr v)).

(** [return s.impl.SearchProducts(ctx, a0)] *)
Definition t_local_stub_SearchProducts_body (s : t_local_stub) (ctx : Context)
    (a0 : string) : M (Frame (Results (option (list Product))) (World Ext)) unit :=
  '(r0, err) <- in_world (external (SearchProducts (local_impl s) ctx a0)) ;;
  in_vars (modify (fun _ => mkResults r0 err)).

Definition t_local_stub_SearchProducts (s : t_local_stub) (ctx : Context)
    (a0 : string) : M (World Ext) (option (list Product) * option error) :=
  let span := SpanFromContext ctx in
  if IsValid span then
    (* Create a child span for this method. *)
    '(ctx, span) <- tracer_Start ctx "productcatalogservice.T.SearchProducts" SpanKindInternal ;;
    func (mkResults None None)
      (local_deferred span)
      (t_local_stub_SearchProducts_body s ctx a0)
      (fun v => (lr0 v, lerr v))
  else
    func (mkResults None None)
      (ret tt)
      (t_local_stub_SearchProducts_body s ctx a0)
      (fun v => (lr0 v, lerr v)).

(** *** Client stub implementations *)

Record t_client_stub : Type := mk_client_stub {
  stub : Stub Ext;
  getProductMetrics : MethodLabels;
  listProductsMetrics : MethodLabels;
  searchProductsMetrics : MethodLabels
}.

(** [ClientStubFn] of the registration. *)
Definition ClientStubFn (stub : Stub Ext) (caller : string) : t_client_stub :=
  mk_client_stub stub
    (MethodMetricsFor (mkMethodLabels caller component "GetProduct"))
    (MethodMetricsFor (mkMethodLabels caller component "ListProducts"))
    (MethodMetricsFor (mkMethodLabels caller component "SearchProducts")).

(** [enc.Reset(n)]: an empty buffer with room for [n] bytes. *)
Definition enc_Reset (n : Z) : Enc unit := modify (fun _ => mkEncoder []).

(** The statements of [t_client_stub.GetProduct] after its [defer]. *)
Definition t_client_stub_GetProduct_body (s : t_client_stub) (ctx : Context)
    (a0 : string) : M (Frame (Named Product) (World Ext)) unit :=
  (* Preallocate a buffer of the right size. *)
  let size := 0 in
  let size := size + (4 + len_string a0) in
  (* Encode arguments. *)
  enc <- encode (enc_Reset size ;; enc_String a0) ;;
  let shardKey := 0 in
  (* Call the remote method. *)
  in_world (BytesRequest_Put (getProductMetrics s) (len (Data enc))) ;;
  '(results, e) <- in_world (stub_Run (stub s) ctx 0 (Data enc) shardKey) ;;
  in_vars (set_err e) ;;
  match e with
  | Some e =>
      in_vars (set_err (errors.Join [Some weaver.RemoteCallError; Some e]))
  | None =>
      in_world (BytesReply_Put (getProductMetrics s) (len results)) ;;
      (* Decode the results. *)
      in_vars (set_dec (NewDecoder results)) ;;
      in_vars unmarshal_r0 ;;
      e <- in_vars (on_dec dec_Error) ;;
      in_vars (set_err e)
  end.

Definition t_client_stub_GetProduct (s : t_client_stub) (ctx : Context)
    (a0 : string) : M (World Ext) (Product * option error) :=
  (* Update metrics. *)
  start <- time_Now clock ;;
  Count_Add (getProductMetrics s) 1 ;;
  '(ctx, span) <- child_span ctx "productcatalogservice.T.GetProduct" SpanKindClient ;;
  func (mkNamed zero None (NewDecoder []))
    (client_deferred clock (getProductMetrics s) span start)
    (t_client_stub_GetProduct_body s ctx a0)
    (fun v => (r0 v, err v)).

(** The statements of [t_client_stub.ListProducts] after its [defer]. *)
Definition t_client_stub_ListProducts_body (s : t_client_stub) (ctx : Context)
    : M (Frame (Named (option (list Product))) (World Ext)) unit :=
  let shardKey := 0 in
  (* Call the remote method. *)
  in_world (BytesRequest_Put (listProductsMetrics s) 0) ;;
  '(results, e) <- in_world (stub_Run (stub s) ctx 1 [] shardKey) ;;
  in_vars (set_err e) ;;
  match e with
  | Some e =>
      in_vars (set_err (errors.Join [Some weaver.RemoteCallError; Some e]))
  | None =>
      in_world (BytesReply_Put (listProductsMetrics s) (len results)) ;;
      (* Decode the results. *)
      in_vars (set_dec (NewDecoder results)) ;;
      v <- in_vars (on_dec serviceweaver_dec_slice_Product_3e9d9e07) ;;
      in_vars (set_r0 v) ;;
      e <- in_vars (on_dec dec_Error) ;;
      in_vars (set_err e)
  end.

Definition t_client_stub_ListProducts (s : t_client_stub) (ctx : Context)
    : M (World Ext) (option (list Product) * option error) :=
  (* Update metrics. *)
  start <- time_Now clock ;;
  Count_Add (listProductsMetrics s) 1 ;;
  '(ctx, span) <- child_span ctx "productcatalogservice.T.ListProducts" SpanKindClient ;;
  func (mkNamed None None (NewDecoder []))
    (client_deferred clock (listProductsMetrics s) span start)
    (t_client_stub_ListProducts_body s ctx)
    (fun v => (r0 v, err v)).

(** The statements of [t_client_stub.SearchProducts] after its [defer]. *)
Definition t_client_stub_SearchProducts_body (s : t_client_stub) (ctx : Context)
    (a0 : string) : M (Frame (Named (option (list Product))) (World Ext)) unit :=
  (* Preallocate a buffer of the right size. *)
  let size := 0 in
  let size := size + (4 + len_string a0) in
  (* Encode arguments. *)
  enc <- encode (enc_Reset size ;; enc_String a0) ;;
  let shardKey := 0 in
  (* Call the remote method. *)
  in_world (BytesRequest_Put (searchProductsMetrics s) (len (Data enc))) ;;
  '(results, e) <- in_world (stub_Run (stub s) ctx 2 (Data enc) shardKey) ;;
  in_vars (set_err e) ;;
  match e with
  | Some e =>
      in_vars (set_err (errors.Join [Some weaver.RemoteCallError; Some e]))
  | None =>
      in_world (BytesReply_Put (searchProductsMetrics s) (len results)) ;;
      (* Decode the results. *)
      in_vars (set_dec (NewDecoder results)) ;;
      v <- in_vars (on_dec serviceweaver_dec_slice_Product_3e9d9e07) ;;
      in_vars (set_r0 v) ;;
      e <- in_vars (on_dec dec_Error) ;;
      in_vars (set_err e)
  end.

Definition t_client_stub_SearchProducts (s : t_client_stub) (ctx : Context)
    (a0 : string) : M (World Ext) (option (list Product) * option error) :=
  (* Update metrics. *)
  start <- time_Now clock ;;
  Count_Add (searchProductsMetrics s) 1 ;;
  '(ctx, span) <- child_span ctx "productcatalogservice.T.SearchProducts" SpanKindClient ;;
  func (mkNamed None None (NewDecoder []))
    (client_deferred clock (searchProductsMetrics s) span start)
    (t_client_stub_SearchProducts_body s ctx a0)
    (fun v => (r0 v, err v)).

(** *** Server stub implementations *)

Record t_server_stub : Type := mk_server_stub { impl : T }.

Definition handler : Type := Context -> list byte -> M Ext (list byte * option error).

(** The statements of [t_server_stub.getProduct] after its [defer]. *)
Definition t_server_stub_getProduct_body (s : t_server_stub) (ctx : Context)
    (args : list byte) : M (Frame Reply Ext) unit :=
  (* Decode arguments. *)
  a0 <- decode args dec_String ;;
  (* Call the local method. *)
  '(r0, appErr) <- business (GetProduct (impl s) ctx a0) ;;
  (* Encode the results. *)
  enc <- encode (Product_WeaverMarshal (Some r0) ;; enc_Error appErr) ;;
  in_vars (modify (fun _ => mkReply (Data enc) None false)).

Definition t_server_stub_getProduct (s : t_server_stub) : handler :=
  fun ctx args =>
    func (mkReply [] None false)
      server_deferred
      (t_server_stub_getProduct_body s ctx args)
      (fun v => (res v, rerr v)).

(** The statements of [t_server_stub.listProducts] after its [defer]. *)
Definition t_server_stub_listProducts_body (s : t_server_stub) (ctx : Context)
    (args : list byte) : M (Frame Reply Ext) unit :=
  (* Call the local method. *)
  '(r0, appErr) <- business (ListProducts (impl s) ctx) ;;
  (* Encode the results. *)
  enc <- encode (serviceweaver_enc_slice_Product_3e9d9e07 r0 ;; enc_Error appErr) ;;
  in_vars (modify (fun _ => mkReply (Data enc) None false)).

Definition t_server_stub_listProducts (s : t_server_stub) : handler :=
  fun ctx args =>
    func (mkReply [] None false)
      server_deferred
      (t_server_stub_listProducts_body s ctx args)
      (fun v => (res v, rerr v)).

(** The statements of [t_server_stub.searchProducts] after its [defer]. *)
Definition t_server_stub_searchProducts_body (s : t_server_stub) (ctx : Context)
    (args : list byte) : M (Frame Reply Ext) unit :=
  (* Decode arguments. *)
  a0 <- decode args dec_String ;;
  (* Call the local method. *)
  '(r0, appErr) <- business (SearchProducts (impl s) ctx a0) ;;
  (* Encode the results. *)
  enc <- encode (serviceweaver_enc_slice_Product_3e9d9e07 r0 ;; enc_Error appErr) ;;
  in_vars (modify (fun _ => mkReply (Data enc) None false)).

Definition t_server_stub_searchProducts (s : t_server_stub) : handler :=
  fun ctx args =>
    func (mkReply [] None false)
      server_deferred
      (t_server_stub_searchProducts_body s ctx args)
      (fun v => (res v, rerr v)).

(** [GetStubFn] implements the [stub.Server] interface. *)
Definition t_server_stub_GetStubFn (s : t_server_stub) (method : string) : option handler :=
  if String.eqb method "GetProduct" then Some (t_server_stub_getProduct s)
  else if String.eqb method "ListProducts" then Some (t_server_stub_listProducts s)
  else if String.eqb method "SearchProducts" then Some (t_server_stub_searchProducts s)
  else None.

End Stubs.
End productcatalogservice.

(** ** Package [transactionhistory] *)

Module transactionhistory.
Section Impl.

(** [model.Transaction] is declared in another package. *)
Context {Transaction : Type}.

Record config : Type := mkConfig {
  LocalRoutingNum : string;
  DataSourceURL : string;
  HistoryLimit : Z;
  CacheSize : Z;
  CacheMinutes : Z
}.

(** The loader of the loading cache [txnCache.c]: it reads the
    transactions of an account from the repository, or fails. *)
Variable load : string -> list Transaction + error.

(** The component: its configuration, the entries of [txnCache.c] and
    what it has logged. *)
Record impl : Type := mkImpl {
  Config : config;
  txnCache : gmap string (list Transaction);
  logged : list string
}.

Definition Logger_Debug (msg : string) : M impl unit :=
  modify (fun i => mkImpl (Config i) (txnCache i) (logged i ++ [msg])).
Definition Logger_Error (msg : string) (err : error) : M impl unit :=
  modify (fun i => mkImpl (Config i) (txnCache i) (logged i ++ [msg +:+ ": " +:+ Error err])).

(** [c.Get(key)] of a loading cache: the entry when present; otherwise
    the loader runs, and what it loads becomes the entry. *)
Definition c_Get (key : string) : M impl (list Transaction * option error) :=
  fun i =>
    match txnCache i !! key with
    | Some v => (Ret (v, None), i)
    | None =>
        match load key with
        | inl v => (Ret (v, None), mkImpl (Config i) (<[key := v]> (txnCache i)) (logged i))
        | inr e => (Ret ([], Some e), i)
        end
    end.

(** [c.Put(key, value)] *)
Definition c_Put (key : string) (value : list Transaction) : M impl unit :=
  modify (fun i => mkImpl (Config i) (<[key := value]> (txnCache i)) (logged i)).

(** [s[:n]] for [n] at most [len(s)]: a negative bound is a run-time
    panic. *)
Definition slice_to {S A} (s : list A) (n : Z) : M S (list A) :=
  if n <? 0 then panic (Fault "slice bounds out of range")
  else ret (take (Z.to_nat n) s).

Definition processTransactionForAcct (accountID : string) (transaction : Transaction)
    : M impl unit :=
  Logger_Debug "Processing transaction" ;;
  '(got, err) <- c_Get accountID ;;
  match err with
  | Some err => Logger_Error "processTransactionForAcct failed" err
  | None =>
      let txns := got in
      let txns := [transaction] ++ txns in
      limit <- gets (fun i => HistoryLimit (Config i)) ;;
      txns <-
        (* Drop old transactions. *)
        (if limit <? len txns then
           Logger_Debug "Hit transaction caching limit, dropping old transactions" ;;
           slice_to txns limit
         else ret txns) ;;
      c_Put accountID txns
  end.

End Impl.
Section Component.

Context {Transaction : Type}.
Variable load : string -> list Transaction + error.

(** The fields of [model.Transaction], declared in another package, that
    [ProcessTransaction] reads. *)
Variable FromAccountNum : Transaction -> string.
Variable FromRoutingNum : Transaction -> string.
Variable ToAccountNum : Transaction -> string.
Variable ToRoutingNum : Transaction -> string.

(** [c.GetIfPresent(key)] of a loading cache: the entry and [true] when
    the key is present, [false] otherwise; the loader does not run. *)
Definition c_GetIfPresent (key : string) : M (@impl Transaction) (list Transaction * bool) :=
  fun i =>
    match txnCache i !! key with
    | Some v => (Ret (v, true), i)
    | None => (Ret ([], false), i)
    end.

Definition ProcessTransaction (transaction : Transaction) : M (@impl Transaction) unit :=
  let fromID := FromAccountNum transaction in
  let fromRoutingNum := FromRoutingNum transaction in
  let toID := ToAccountNum transaction in
  let toRouting := ToRoutingNum transaction in
  local <- gets (fun i => LocalRoutingNum (Config i)) ;;
  (if String.eqb fromRoutingNum local then
     '(_, ok) <- c_GetIfPresent fromID ;;
     if ok then processTransactionForAcct load fromID transaction else ret tt
   else ret tt) ;;
  local <- gets (fun i => LocalRoutingNum (Config i)) ;;
  (if String.eqb toRouting local then
     '(_, ok) <- c_GetIfPresent toID ;;
     if ok then processTransactionForAcct load toID transaction else ret tt
   else ret tt).

(** [GetTransactions] returns the transactions of an account; the slice
    it returns is the cached one, a nil slice and an empty one being the
    same list here. *)
Definition GetTransactions (ctx : Context) (accountID : string)
    : M (@impl Transaction) (list Transaction * option error) :=
  (* Load from cache. *)
  '(got, err) <- c_Get load accountID ;;
  match err with
  | Some err => ret ([], Some err)
  | None => ret (got, None)
  end.

End Component.
End transactionhistory.

(** ** The shape of a client-stub method

    The generator writes every client-stub method to one shape: the
    metrics of the method, the name of its span, its index in the
    interface, the statements that encode its arguments and those that
    decode its results are all that differ.  [client_call] is that shape;
    each generated method is shown below to be an instance of it. *)

(** What encoding the arguments gives: the bytes, or a fault. *)
Definition encoded (m : Enc unit) : Res (list byte) :=
  match m NewEncoder with
  | (Ret _, enc) => Ret (Data enc)
  | (Panicked f, _) => Panicked f
  end.

Section ClientShape.

Context {Ext : Type} {R : Type}.
Variable clock : Ext -> Z.
Variable methodMetrics : MethodLabels.
Variable name : string.
Variable stub : Stub Ext.
Variable method : Z.
Variable init : R.
Variable args : Res (list byte).
Variable decode_results : M (Named R) unit.

Definition client_body (ctx : Context) : M (Frame (Named R) (World Ext)) unit :=
  data <- (fun fr => (args, fr)) ;;
  let shardKey := 0 in
  in_world (BytesRequest_Put methodMetrics (len data)) ;;
  '(results, e) <- in_world (stub_Run stub ctx method data shardKey) ;;
  in_vars (set_err e) ;;
  match e with
  | Some e =>
      in_vars (set_err (errors.Join [Some weaver.RemoteCallError; Some e]))
  | None =>
      in_world (BytesReply_Put methodMetrics (len results)) ;;
      in_vars (set_dec (NewDecoder results)) ;;
      in_vars decode_results ;;
      e <- in_vars (on_dec dec_Error) ;;
      in_vars (set_err e)
  end.

Definition client_call (ctx : Context) : M (World Ext) (R * option error) :=
  start <- time_Now clock ;;
  Count_Add methodMetrics 1 ;;
  '(ctx, span) <- child_span ctx name SpanKindClient ;;
  func (mkNamed init None (NewDecoder []))
    (client_deferred clock methodMetrics span start)
    (client_body ctx)
    (fun v => (r0 v, err v)).

(** The context a call hands to the transport, the span it closes and the
    events it starts with. *)
Definition call_ctx (ctx : Context) : Context :=
  if IsValid (SpanFromContext ctx) then mkContext (started name SpanKindClient) else ctx.

Definition call_span (ctx : Context) : Span :=
  if IsValid (SpanFromContext ctx) then started name SpanKindClient else SpanFromContext ctx.

Definition call_starts (ctx : Context) : list Event :=
  if IsValid (SpanFromContext ctx) then [evStart name SpanKindClient] else [].

(** The events by which the deferred function closes a call that returns
    [e]. *)
Definition call_ends (ctx : Context) (e : option error) : list Event :=
  match e with
  | Some e => [evRecordError (call_span ctx) e; evSetStatusError (call_span ctx) (Error e)]
  | None => []
  end ++ [evEnd (call_span ctx)].

(** The error a recovered fault becomes. *)
Definition recovered (f : fault) : option error :=
  errors.Join [Some weaver.RemoteCallError; CatchPanics (Some f)].

(** A call from [w] has returned [out] and left [result]: the
    collaborators are in state [x'], [events] were appended to the trace,
    the call and, if [failed], the error were counted, one latency was
    recorded, and the sizes [request] and [reply]; the metrics of the other
    methods are untouched. *)
Definition returned (w : World Ext) (out : R * option error) (x' : Ext)
    (events : list Event) (failed : bool) (request reply : list Z)
    (result : Res (R * option error) * World Ext) : Prop :=
  exists w',
    result = (Ret out, w')
    /\ ext w' = x'
    /\ trace w' = trace w ++ events
    /\ (forall q, q <> methodMetrics -> metrics w' q = metrics w q)
    /\ metrics w' methodMetrics
       = mkMethodMetrics
           (Count (metrics w methodMetrics) + 1)
           (ErrorCount (metrics w methodMetrics) + (if failed then 1 else 0))
           (Latency (metrics w methodMetrics) ++ [clock x' - clock (ext w)])
           (BytesRequest (metrics w methodMetrics) ++ request)
           (BytesReply (metrics w methodMetrics) ++ reply).

(** What a call does, by what encoding the arguments, the transport and
    decoding the results do. *)
Definition client_spec (ctx : Context) (w : World Ext)
    (result : Res (R * option error) * World Ext) : Prop :=
  match args with
  | Panicked f =>
      returned w (init, recovered f) (ext w)
        (call_starts ctx ++ call_ends ctx (recovered f)) true [] [] result
  | Ret data =>
      match Run stub (call_ctx ctx) method data 0 (ext w) with
      | (Panicked f, x') =>
          returned w (init, recovered f) x'
            (call_starts ctx ++ call_ends ctx (recovered f)) true [len data] [] result
      | (Ret (results, Some e), x') =>
          returned w (init, Some (joinError [weaver.RemoteCallError; e])) x'
            (call_starts ctx ++ [evRun method data 0 true]
             ++ call_ends ctx (Some (joinError [weaver.RemoteCallError; e])))
            true [len data] [] result
      | (Ret (results, None), x') =>
          match decode_results (mkNamed init None (NewDecoder results)) with
          | (Panicked f, n) =>
              returned w (r0 n, recovered f) x'
                (call_starts ctx ++ [evRun method data 0 false]
                 ++ call_ends ctx (recovered f))
                true [len data] [len results] result
          | (Ret _, n) =>
              let e := fst (dec_Error (dec n)) in
              match e with
              | Ret e =>
                  returned w (r0 n, e) x'
                    (call_starts ctx ++ [evRun method data 0 false] ++ call_ends ctx e)
                    (is_error e) [len data] [len results] result
              | Panicked _ => False
              end
          end
      end
  end.

End ClientShape.

(** ** The shape of a local-stub method

    The generator writes every local-stub method to one shape too: the
    name of the span and the method of the implementation it calls are all
    that differ.  [local_call] is that shape. *)

Section LocalShape.

Context {Ext : Type} {R : Type}.
Variable name : string.
Variable init : R.
Variable method : Context -> M Ext (R * option error).

Definition local_body (ctx : Context) : M (Frame (Results R) (World Ext)) unit :=
  '(r0, err) <- in_world (external (method ctx)) ;;
  in_vars (modify (fun _ => mkResults r0 err)).

Definition local_call (ctx : Context) : M (World Ext) (R * option error) :=
  let span := SpanFromContext ctx in
  if IsValid span then
    '(ctx, span) <- tracer_Start ctx name SpanKindInternal ;;
    func (mkResults init None)
      (local_deferred span)
      (local_body ctx)
      (fun v => (lr0 v, lerr v))
  else
    func (mkResults init None)
      (ret tt)
      (local_body ctx)
      (fun v => (lr0 v, lerr v)).

(** The context a local stub hands to the implementation. *)
Definition local_ctx (ctx : Context) : Context :=
  if IsValid (SpanFromContext ctx) then mkContext (started name SpanKindInternal) else ctx.

(** The events of a call that comes back with [e], or with a panic when
    [e] is [None]: none without a valid parent span; otherwise the start
    of the child span, the error recorded on it, and its end. *)
Definition local_events (ctx : Context) (e : option error) : list Event :=
  if IsValid (SpanFromContext ctx) then
    [evStart name SpanKindInternal]
    ++ match e with
       | Some e => [evRecordError (started name SpanKindInternal) e;
                    evSetStatusError (started name SpanKindInternal) (Error e)]
       | None => []
       end
    ++ [evEnd (started name SpanKindInternal)]
  else [].

(** A local-stub call is transparent: it comes back as the implementation
    did, run on [local_ctx ctx], with the same results or the same panic,
    and leaves the collaborators as the implementation left them; it
    touches no metrics, and adds [local_events] to the trace. *)
Definition passes_through (ctx : Context) (w : World Ext)
    (outer : Res (R * option error) * World Ext) : Prop :=
  let inner := method (local_ctx ctx) (ext w) in
  fst outer = fst inner
  /\ ext (snd outer) = snd inner
  /\ metrics (snd outer) = metrics w
  /\ trace (snd outer)
     = trace w ++ local_events ctx
                    match fst inner with
                    | Ret (_, e) => e
                    | Panicked _ => None
                    end.

End LocalShape.

(** ** Vocabulary of the properties *)

(** [m] appends exactly [bs] to whatever the encoder holds. *)
Definition writes (m : Enc unit) (bs : list byte) : Prop :=
  forall e, m e = (Ret tt, mkEncoder (Data e ++ bs)).

(** From [bs], whatever follows it, [d] reads [v] and consumes exactly
    [bs], without a decoding error. *)
Definition reads {A} (d : Dec A) (bs : list byte) (v : A) : Prop :=
  forall tl, d (NewDecoder (bs ++ tl)) = (Ret v, NewDecoder tl).

(** A string whose length the four-byte header can hold. *)
Definition fits_string (s : string) : Prop := len_string s <= MaxInt32.

(** A sequence of strings all of whose lengths the headers can hold. *)
Definition fits_strings (v : option (list string)) : Prop :=
  match v with
  | None => True
  | Some l => len l <= MaxInt32 /\ Forall fits_string l
  end.

(** The wire format of a sequence of strings (section 6): the length
    header, [-1] for nil, then the elements one after the other. *)
Definition wire_strings (l : list string) : list byte :=
  concat (map bytes_String l).

Definition wire_slice_string (v : option (list string)) : list byte :=
  match v with
  | None => bytes_Int32 (-1)
  | Some l => bytes_Int32 (len l) ++ wire_strings l
  end.

(** An [AutoMarshal] type whose two methods agree: [WeaverMarshal] returns
    on the values [fits] admits and on no other; on them it writes
    [wire x], and [WeaverUnmarshal] reads [x] back from it, whatever the
    receiver held. *)
Class Lawful (T : Type) `{AutoMarshal T} : Type := {
  fits : T -> Prop;
  wire : T -> list byte;
  marshal_fits : forall x e e', WeaverMarshal x e = (Ret tt, e') -> fits x;
  marshal_writes : forall x, fits x -> writes (WeaverMarshal x) (wire x);
  unmarshal_reads : forall x x0 tl, fits x ->
    WeaverUnmarshal (x0, NewDecoder (wire x ++ tl)) = (Ret tt, (x, NewDecoder tl))
}.

(** An application error whose message the wire format can hold. *)
Definition fits_error (appErr : option error) : Prop :=
  match appErr with
  | Some e => fits_string (Error e)
  | None => True
  end.

(** What the caller receives for the application error [appErr] of the
    implementation: [enc.Error] writes the message of the error only, and
    [dec.Error] makes a new error of that message. *)
Definition received (appErr : option error) : option error :=
  match appErr with
  | Some e => Some (errorString (Error e))
  | None => None
  end.

Section ProductWire.

Context {money_T : Type} `{Lawful money_T}.

(** A product all of whose fields the wire format can hold. *)
Definition fits_Product (x : productcatalogservice.Product) : Prop :=
  fits_string (productcatalogservice.ID x)
  /\ fits_string (productcatalogservice.Name x)
  /\ fits_string (productcatalogservice.Description x)
  /\ fits_string (productcatalogservice.Picture x)
  /\ fits (productcatalogservice.PriceUSD x)
  /\ fits_strings (productcatalogservice.Categories x).

(** The wire format of a record (section 6): the encodings of its fields,
    one after the other, in the order of their declaration. *)
Definition wire_Product (x : productcatalogservice.Product) : list byte :=
  bytes_String (productcatalogservice.ID x)
  ++ bytes_String (productcatalogservice.Name x)
  ++ bytes_String (productcatalogservice.Description x)
  ++ bytes_String (productcatalogservice.Picture x)
  ++ wire (productcatalogservice.PriceUSD x)
  ++ wire_slice_string (productcatalogservice.Categories x).

End ProductWire.

Section ProductsWire.

Context {money_T : Type} `{Lawful money_T}.

(** A sequence of products all of which the wire format can hold. *)
Definition fits_Products (v : option (list productcatalogservice.Product)) : Prop :=
  match v with
  | None => True
  | Some l => len l <= MaxInt32 /\ Forall fits_Product l
  end.

(** The wire format of a sequence of products: the length header, [-1]
    for nil, then the records one after the other. *)
Definition wire_Products (v : option (list productcatalogservice.Product)) : list byte :=
  match v with
  | None => bytes_Int32 (-1)
  | Some l => bytes_Int32 (len l) ++ concat (map wire_Product l)
  end.

End ProductsWire.

(** The entries of the transaction cache once [transaction] has been put
    in front of the list of [accountID], cut at [limit] entries; an
    account that is not in the cache stays out of it. *)
Definition with_transaction {Transaction} (limit : Z) (transaction : Transaction)
    (accountID : string) (cache : gmap string (list Transaction))
    : gmap string (list Transaction) :=
  match cache !! accountID with
  | Some old => <[accountID := take (Z.to_nat limit) (transaction :: old)]> cache
  | None => cache
  end.

(** ** Instances for the examples *)

Module example.

(** A money amount reduced to its currency code, which marshals as a
    string. *)
Record money : Type := mkMoney { CurrencyCode : string }.

#[global] Instance money_AutoMarshal : AutoMarshal money := {
  zero := mkMoney EmptyString;
  WeaverMarshal x := enc_String (CurrencyCode x);
  WeaverUnmarshal :=
    v <- zoom snd (fun d p => (fst p, d)) dec_String ;;
    modify (fun p => (mkMoney v, snd p))
}.

(** A product of the catalog. *)
Definition a_product : productcatalogservice.Product :=
  productcatalogservice.mkProduct "OLJCESPC7Z" "Sunglasses" "Add a modern touch."
    "/static/img/products/sunglasses.jpg" (mkMoney "USD")
    (Some ["accessories"%string]).

(** The collaborators reduced to a clock that every transport call
    advances by one microsecond. *)
Definition clock (ticks : nat) : Z := Z.of_nat ticks.

(** A transport that cannot reach its peer. *)
Definition refusing : Stub nat :=
  mkStub (fun _ _ _ _ ticks =>
            (Ret ([], Some (errorString "connection refused")), S ticks)).

(** A transport whose peer replies [bs]. *)
Definition replying (bs : list byte) : Stub nat :=
  mkStub (fun _ _ _ _ ticks => (Ret (bs, None), S ticks)).

(** A transport that panics. *)
Definition crashing : Stub nat :=
  mkStub (fun _ _ _ _ ticks => (Panicked (Fault "transport: nil connection"), S ticks)).

(** A world in which nothing has happened yet. *)
Definition quiet : World nat := mkWorld O (fun _ => noMetrics) [].

(** A context that carries a valid span, and one that carries none. *)
Definition traced : Context := mkContext (inherited true).
Definition untraced : Context := mkContext (inherited false).

(** Client stubs of a caller named frontend. *)
Definition currency_client (stub : Stub nat) : currencyservice.t_client_stub :=
  currencyservice.ClientStubFn stub "frontend".
Definition catalog_client (stub : Stub nat) : productcatalogservice.t_client_stub :=
  productcatalogservice.ClientStubFn stub "frontend".

(** A reply to [GetProduct] whose last field, the categories, announces a
    length of [-2]. *)
Definition bad_product_reply : list byte :=
  bytes_String "" ++ bytes_String "" ++ bytes_String "" ++ bytes_String ""
  ++ bytes_String "" ++ bytes_Int32 (-2).

(** An implementation of the currency service: it converts nothing and
    says so, lists two currencies, and panics on a request for the
    currency [XXX]. *)
Definition currency_impl : currencyservice.T (money_T := money) (Ext := nat) :=
  currencyservice.mkT
    (fun _ from to_code ticks =>
       if String.eqb to_code "XXX"
       then (Panicked (Fault "runtime error: index out of range"), ticks)
       else (Ret (from, Some (errorString "unsupported currency")), ticks))
    (fun _ ticks => (Ret (Some ["EUR"; "USD"]%string, None), ticks)).


(** An implementation of the product catalog: it knows one product, lists
    it, finds nothing on a search, and panics on a request for the empty
    identifier. *)
Definition catalog_impl : productcatalogservice.T (money_T := money) (Ext := nat) :=
  productcatalogservice.mkT
    (fun _ id ticks =>
       if String.eqb id "" then (Panicked (Fault "runtime error: index out of range"), ticks)
       else if String.eqb id "OLJCESPC7Z" then (Ret (a_product, None), ticks)
       else (Ret (productcatalogservice.Product_zero,
                  Some (errorString "no product with that ID")), ticks))
    (fun _ ticks => (Ret (Some [a_product], None), ticks))
    (fun _ _ ticks => (Ret (None, None), ticks)).


(** A transport that serves a request in the same process: it takes the
    handler that [GetStubFn] gives for the method of that index among
    [methods], and returns what the handler returns. *)
Definition in_process (methods : list string)
    (GetStubFn : string -> option (Context -> list byte -> M nat (list byte * option error)))
    : Stub nat :=
  mkStub (fun ctx method args _ =>
            match (if method <? 0 then None else methods !! Z.to_nat method) with
            | Some name =>
                match GetStubFn name with
                | Some h => h ctx args
                | None => ret ([], Some (errorString "unknown method"))
                end
            | None => ret ([], Some (errorString "unknown method"))
            end).

(** A transaction-history component whose cache holds the two
    transactions of one account, identified here by their labels, with a
    history limit of [limit]; its repository knows no other account. *)
Definition history (limit : Z) (cached : list string) : @transactionhistory.impl string :=
  transactionhistory.mkImpl
    (transactionhistory.mkConfig "883745000" "postgresql://ledger" limit 1000 60)
    {["1011226111"%string := cached]} [].

Definition no_repository (accountID : string) : list string + error :=
  inr (errorString "account not found").

(** A transaction reduced to a label and the fields that
    [ProcessTransaction] reads. *)
Record transfer : Type := mkTransfer {
  label : string;
  FromAccountNum : string;
  FromRoutingNum : string;
  ToAccountNum : string;
  ToRoutingNum : string
}.

(** A transaction-history component of the bank whose routing number is
    [883745000], with a history limit of [limit] and the entries [cache]
    in its cache; its repository knows no account. *)
Definition ledger (limit : Z) (cache : gmap string (list transfer))
    : @transactionhistory.impl transfer :=
  transactionhistory.mkImpl
    (transactionhistory.mkConfig "883745000" "postgresql://ledger" limit 1000 60)
    cache [].

Definition no_ledger (accountID : string) : list transfer + error :=
  inr (errorString "account not found").

(** A payment from an account to itself, one to an account of another
    bank, and an earlier entry. *)
Definition to_self : transfer :=
  mkTransfer "t2" "1011226111" "883745000" "1011226111" "883745000".
Definition abroad : transfer :=
  mkTransfer "t3" "1011226111" "123456789" "1033623433" "123456789".
Definition earlier : transfer :=
  mkTransfer "t1" "1033623433" "883745000" "1011226111" "883745000".

End example.

(** *** Counting what a call did *)

Definition is_start (ev : Event) : bool :=
  match ev with evStart _ _ => true | _ => false end.
Definition is_end (ev : Event) : bool :=
  match ev with evEnd _ => true | _ => false end.
(** An operation of the tracing contract: a span start, or an operation on a
    span. *)
Definition is_span_op (ev : Event) : bool :=
  match ev with evRun _ _ _ _ => false | _ => true end.
(** An invocation of the transport that returned without an error. *)
Definition is_reply (ev : Event) : bool :=
  match ev with evRun _ _ _ false => true | _ => false end.

Definition count (p : Event -> bool) (evs : list Event) : nat :=
  List.length (List.filter p evs).

(** The span operations among [evs]. *)
Definition span_ops (evs : list Event) : list Event := List.filter is_span_op evs.

(** The span an operation is applied to; a start applies to none. *)
Definition span_of (ev : Event) : option Span :=
  match ev with
  | evRecordError span _ | evSetStatusError span _ | evEnd span => Some span
  | evStart _ _ | evRun _ _ _ _ => None
  end.

(** The request sizes a call records: the length of what encoding the
    arguments gave, or nothing when encoding them raised a fault. *)
Definition request_of (args : Res (list byte)) : list Z :=
  match args with
  | Ret data => [len data]
  | Panicked _ => []
  end.

(** [calls call inputs]: one call after the other, on the same state. *)
Fixpoint calls {S A B} (call : A -> M S B) (inputs : list A) : M S (list B) :=
  match inputs with
  | [] => ret []
  | a :: inputs' =>
      b <- call a ;;
      bs <- calls call inputs' ;;
      ret (b :: bs)
  end.

(** The calls that returned an error, among the results [outs]. *)
Definition failures {R} (outs : list (R * option error)) : Z :=
  len (List.filter (fun out => is_error (snd out)) outs).

(** What [n] calls through a method, given the results [outs], have
    recorded between [w] and [w']: the invocation counter went up by [n],
    the error counter by the number of calls that returned an error, the
    latency distribution took [n] samples and the request sizes
    [requests]; the reply-size distribution took one sample for each
    invocation of the transport that returned without an error. *)
Definition recorded {Ext R} (methodMetrics : MethodLabels) (w w' : World Ext)
    (n : nat) (outs : list (R * option error)) (requests : list Z) : Prop :=
  exists evs,
    trace w' = trace w ++ evs
    /\ Count (metrics w' methodMetrics) = Count (metrics w methodMetrics) + Z.of_nat n
    /\ ErrorCount (metrics w' methodMetrics)
       = ErrorCount (metrics w methodMetrics) + failures outs
    /\ List.length (Latency (metrics w' methodMetrics))
       = (List.length (Latency (metrics w methodMetrics)) + n)%nat
    /\ BytesRequest (metrics w' methodMetrics)
       = BytesRequest (metrics w methodMetrics) ++ requests
    /\ List.length (BytesReply (metrics w' methodMetrics))
       = (List.length (BytesReply (metrics w methodMetrics)) + count is_reply evs)%nat.

(** *** Outcomes of a client-stub call *)

Section Outcomes.

Context {Ext : Type} {R : Type}.
Variable clock : Ext -> Z.

(** Section 4.4 step 7, for a call started in [w] whose transport failed
    with [e] and left the collaborators in [x']: the call returns the zero
    value and an error which wraps the sentinel and [e]; the error is
    counted once, the span is ended, once and last, and the latency is
    recorded. *)
Definition transport_failure (methodMetrics : MethodLabels) (span : Span) (zero : R)
    (e : error) (w : World Ext) (x' : Ext)
    (result : Res (R * option error) * World Ext) : Prop :=
  exists err w' evs,
    result = (Ret (zero, Some err), w')
    /\ errors.Unwrap err = [weaver.RemoteCallError; e]
    /\ errors.Is err weaver.RemoteCallError = true
    /\ errors.Is err e = true
    /\ ErrorCount (metrics w' methodMetrics) = ErrorCount (metrics w methodMetrics) + 1
    /\ trace w' = trace w ++ evs ++ [evEnd span]
    /\ count is_end evs = 0%nat
    /\ Latency (metrics w' methodMetrics)
       = Latency (metrics w methodMetrics) ++ [clock x' - clock (ext w)].

(** Section 4.4 step 10, for a call during which the fault [f] was raised:
    the call returns, with an error which wraps the sentinel and the error
    the fault was turned into. *)
Definition fault_recovered (f : fault)
    (result : Res (R * option error) * World Ext) : Prop :=
  exists r err e w',
    result = (Ret (r, Some err), w')
    /\ CatchPanics (Some f) = Some e
    /\ errors.Unwrap err = [weaver.RemoteCallError; e]
    /\ errors.Is err weaver.RemoteCallError = true.

(** The call returned: no panic left it. *)
Definition returns (result : Res (R * option error) * World Ext) : Prop :=
  exists out w', result = (Ret out, w').

End Outcomes.
(** * Properties *)

(** ** The monad *)

Lemma bind_Ret {S A B} (m : M S A) (k : A -> M S B) s a s' :
  m s = (Ret a, s') -> bind m k s = k a s'.
Proof. intros E. unfold bind. now rewrite E. Qed.

Lemma bind_Panicked {S A B} (m : M S A) (k : A -> M S B) s f s' :
  m s = (Panicked f, s') -> bind m k s = (Panicked f, s').
Proof. intros E. unfold bind. now rewrite E. Qed.

(** ** Bytes and lengths *)

Lemma Z_of_byte_of_Z z : Z_of_byte (byte_of_Z z) = z mod 256.
Proof.
  unfold Z_of_byte, byte_of_Z.
  assert (Hm : 0 <= z mod 256 < 256) by (apply Z.mod_pos_bound; lia).
  destruct (Byte.of_N (Z.to_N (z mod 256))) as [b|] eqn:E.
  - apply Byte.to_of_N in E. rewrite E. lia.
  - apply Byte.of_N_None_iff in E. lia.
Qed.

Lemma Int32_of_bytes_Int32 z :
  - 2 ^ 31 <= z < 2 ^ 31 ->
  Int32_of_bytes (byte_of_Z z) (byte_of_Z (Z.shiftr z 8))
                 (byte_of_Z (Z.shiftr z 16)) (byte_of_Z (Z.shiftr z 24)) = z.
Proof.
  intros Hz. unfold Int32_of_bytes.
  rewrite !Z_of_byte_of_Z, !Z.shiftr_div_pow2 by lia.
  cbv zeta.
  change (2 ^ 8) with 256. change (2 ^ 16) with 65536.
  change (2 ^ 24) with 16777216. change (2 ^ 31) with 2147483648 in *.
  change (2 ^ 32) with 4294967296.
  destruct (Z.ltb_spec (z mod 256 + 256 * ((z / 256) mod 256)
                        + 65536 * ((z / 65536) mod 256)
                        + 16777216 * ((z / 16777216) mod 256)) 2147483648);
    Z.div_mod_to_equations; lia.
Qed.

Lemma length_list_byte_of_string s :
  List.length (list_byte_of_string s) = String.length s.
Proof.
  unfold list_byte_of_string. rewrite length_map.
  induction s as [|a s IH]; simpl; [reflexivity | now rewrite IH].
Qed.

(** ** The codec primitives *)

Arguments bytes_Int32 : simpl never.
Arguments bytes_String : simpl never.

Lemma writes_ret : writes (ret tt) [].
Proof. intros [d]. unfold ret. simpl. now rewrite app_nil_r. Qed.

Lemma writes_write bs : writes (write bs) bs.
Proof. intros e. reflexivity. Qed.

Lemma writes_bind (m1 m2 : Enc unit) b1 b2 :
  writes m1 b1 -> writes m2 b2 -> writes (m1 ;; m2) (b1 ++ b2).
Proof.
  intros H1 H2 e. rewrite (bind_Ret _ _ _ _ _ (H1 e)), H2. simpl.
  now rewrite app_assoc.
Qed.

Lemma reads_ret {A} (v : A) : reads (ret v) [] v.
Proof. intros tl. reflexivity. Qed.

Lemma reads_bind {A B} (d : Dec A) (k : A -> Dec B) b1 b2 v1 v2 :
  reads d b1 v1 -> reads (k v1) b2 v2 -> reads (x <- d ;; k x) (b1 ++ b2) v2.
Proof.
  intros H1 H2 tl. rewrite <- app_assoc.
  rewrite (bind_Ret _ _ _ _ _ (H1 (b2 ++ tl))). apply H2.
Qed.

Lemma writes_enc_Len l : -1 <= l <= MaxInt32 -> writes (enc_Len l) (bytes_Int32 l).
Proof.
  intros Hl e. unfold enc_Len.
  destruct (Z.ltb_spec l (-1)); [lia|].
  destruct (Z.ltb_spec MaxInt32 l); [lia|]. reflexivity.
Qed.

Lemma enc_Len_Ret l e e' :
  enc_Len l e = (Ret tt, e') -> -1 <= l <= MaxInt32.
Proof.
  unfold enc_Len.
  destruct (Z.ltb_spec l (-1)); [discriminate|].
  destruct (Z.ltb_spec MaxInt32 l); [discriminate|]. lia.
Qed.

Lemma Read_app n bs tl :
  List.length bs = n ->
  Read n (NewDecoder (bs ++ tl)) = (Ret (Some bs), NewDecoder tl).
Proof.
  intros <-. unfold Read, NewDecoder. simpl.
  destruct (Nat.ltb_spec (List.length (bs ++ tl)) (List.length bs)) as [Hlt|_].
  - rewrite length_app in Hlt. lia.
  - now rewrite take_app_length, drop_app_length.
Qed.

Lemma reads_dec_Len l : - 2 ^ 31 <= l < 2 ^ 31 -> reads dec_Len (bytes_Int32 l) l.
Proof.
  intros Hl tl. unfold dec_Len, dec_Int32.
  rewrite (bind_Ret _ _ _ _ _ (Read_app 4 (bytes_Int32 l) tl eq_refl)).
  unfold bytes_Int32, ret. now rewrite Int32_of_bytes_Int32.
Qed.

Lemma len_string_nonneg s : 0 <= len_string s.
Proof. unfold len_string. lia. Qed.

Lemma len_nonneg {A} (l : list A) : 0 <= len l.
Proof. unfold len. lia. Qed.

Lemma writes_enc_String s : fits_string s -> writes (enc_String s) (bytes_String s).
Proof.
  intros Hs. unfold enc_String, bytes_String.
  apply writes_bind; [|apply writes_write].
  apply writes_enc_Len. pose proof (len_string_nonneg s). unfold fits_string in Hs. lia.
Qed.

Lemma reads_dec_String s : fits_string s -> reads dec_String (bytes_String s) s.
Proof.
  intros Hs. unfold fits_string, MaxInt32 in Hs. pose proof (len_string_nonneg s) as H0.
  unfold dec_String, bytes_String.
  eapply reads_bind; [apply reads_dec_Len; lia|].
  destruct (Z.eqb_spec (len_string s) (-1)); [lia|].
  destruct (Z.ltb_spec (len_string s) (-1)); [lia|].
  intros tl. erewrite bind_Ret.
  2:{ apply Read_app. rewrite length_list_byte_of_string. unfold len_string. lia. }
  unfold ret. now rewrite string_of_list_byte_of_string.
Qed.

Lemma enc_String_Ret s e e' : enc_String s e = (Ret tt, e') -> fits_string s.
Proof.
  unfold enc_String, bind. destruct (enc_Len (len_string s) e) as [[[]|f] e1] eqn:E;
    [|discriminate].
  intros _. apply enc_Len_Ret in E. unfold fits_string. lia.
Qed.

(** ** Sequences of strings *)

Lemma writes_enc_strings l :
  Forall fits_string l -> writes (enc_strings l) (wire_strings l).
Proof.
  induction 1 as [|s l Hs _ IH].
  - apply writes_ret.
  - change (wire_strings (s :: l)) with (bytes_String s ++ wire_strings l).
    change (enc_strings (s :: l)) with (enc_String s ;; enc_strings l).
    apply writes_bind; [now apply writes_enc_String | exact IH].
Qed.

Lemma reads_dec_strings l :
  Forall fits_string l ->
  forall pre mid post, List.length mid = List.length l ->
    reads (dec_strings (List.length l) (List.length pre) (pre ++ mid ++ post))
          (wire_strings l) (pre ++ l ++ post).
Proof.
  induction 1 as [|s l Hs _ IH]; intros pre mid post Hlen.
  - destruct mid; [|discriminate]. apply reads_ret.
  - destruct mid as [|m mid]; [discriminate|]. injection Hlen as Hlen.
    change (wire_strings (s :: l)) with (bytes_String s ++ wire_strings l).
    change (dec_strings (List.length (s :: l)) (List.length pre) (pre ++ (m :: mid) ++ post))
      with (s' <- dec_String ;;
            dec_strings (List.length l) (S (List.length pre))
                        (<[List.length pre := s']> (pre ++ m :: mid ++ post))).
    eapply reads_bind; [now apply reads_dec_String|].
    replace (<[List.length pre := s]> (pre ++ m :: mid ++ post))
      with ((pre ++ [s]) ++ mid ++ post).
    2:{ rewrite <- (Nat.add_0_r (List.length pre)) at 1.
        rewrite insert_app_r. simpl. now rewrite <- app_assoc. }
    replace (S (List.length pre)) with (List.length (pre ++ [s]))
      by (rewrite length_app; simpl; lia).
    replace (pre ++ (s :: l) ++ post) with ((pre ++ [s]) ++ l ++ post)
      by now rewrite <- app_assoc.
    now apply IH.
Qed.

Lemma writes_enc_slice_string v :
  fits_strings v ->
  writes (serviceweaver_enc_slice_string_4af10117 v) (wire_slice_string v).
Proof.
  destruct v as [l|];
    unfold serviceweaver_enc_slice_string_4af10117, wire_slice_string, fits_strings.
  - intros [Hl Hall]. apply writes_bind.
    + apply writes_enc_Len. pose proof (len_nonneg l). lia.
    + now apply writes_enc_strings.
  - intros _. now apply writes_enc_Len.
Qed.

Lemma reads_dec_slice_string v :
  fits_strings v ->
  reads serviceweaver_dec_slice_string_4af10117 (wire_slice_string v) v.
Proof.
  unfold serviceweaver_dec_slice_string_4af10117.
  destruct v as [l|]; unfold wire_slice_string, fits_strings.
  - intros [Hl Hall]. pose proof (len_nonneg l) as H0. unfold MaxInt32 in Hl.
    eapply reads_bind; [apply reads_dec_Len; lia|].
    destruct (Z.eqb_spec (len l) (-1)); [lia|].
    unfold make. destruct (Z.ltb_spec (len l) 0); [lia|].
    rewrite <- (app_nil_l (wire_strings l)).
    eapply reads_bind; [apply reads_ret|].
    rewrite <- (app_nil_r (wire_strings l)).
    eapply reads_bind; [|apply reads_ret].
    unfold len. rewrite Nat2Z.id.
    pose proof (reads_dec_strings l Hall [] (replicate (List.length l) EmptyString) []) as R.
    simpl in R. rewrite !app_nil_r in R. apply R. apply length_replicate.
  - intros _. rewrite <- (app_nil_r (bytes_Int32 (-1))).
    eapply reads_bind; [apply reads_dec_Len; lia|]. apply reads_ret.
Qed.

Lemma bind_Ret_inv {S A B} (m : M S A) (k : A -> M S B) s b s' :
  bind m k s = (Ret b, s') -> exists a s1, m s = (Ret a, s1) /\ k a s1 = (Ret b, s').
Proof.
  unfold bind. destruct (m s) as [[a|f] s1]; [eauto | discriminate].
Qed.

Lemma enc_strings_Ret l : forall e e',
  enc_strings l e = (Ret tt, e') -> Forall fits_string l.
Proof.
  induction l as [|s l IH]; intros e e' E; [constructor|].
  apply bind_Ret_inv in E as ([] & e1 & Es & El).
  constructor; [eapply enc_String_Ret | eapply IH]; eassumption.
Qed.

Lemma enc_slice_string_Ret v e e' :
  serviceweaver_enc_slice_string_4af10117 v e = (Ret tt, e') -> fits_strings v.
Proof.
  destruct v as [l|]; [|intros _; exact I].
  intros E. apply bind_Ret_inv in E as ([] & e1 & El & Es).
  split; [apply enc_Len_Ret in El; lia | eapply enc_strings_Ret; eassumption].
Qed.

(** C1. Round trip of a sequence of strings.  Encoding returns when the
    header can hold the lengths.  Whenever it returns, what it wrote is
    the length header ([-1] for nil, [0] for the empty sequence, [n]
    otherwise) followed by the elements in order, and decoding those
    bytes gives the same sequence back, nil as nil and empty as empty,
    with nothing left unread. *)
Theorem slice_string_roundtrip (v : option (list string)) :
  (fits_strings v ->
   exists enc, serviceweaver_enc_slice_string_4af10117 v NewEncoder = (Ret tt, enc))
  /\
  (forall enc,
     serviceweaver_enc_slice_string_4af10117 v NewEncoder = (Ret tt, enc) ->
     Data enc = wire_slice_string v
     /\ serviceweaver_dec_slice_string_4af10117 (NewDecoder (Data enc))
        = (Ret v, NewDecoder [])).
Proof.
  split.
  - intros Hv. eexists. apply (writes_enc_slice_string v Hv NewEncoder).
  - intros enc E. pose proof (enc_slice_string_Ret _ _ _ E) as Hv.
    rewrite (writes_enc_slice_string v Hv NewEncoder) in E. injection E as <-.
    split; [reflexivity|]. cbn [Data app].
    rewrite <- (app_nil_r (wire_slice_string v)).
    now apply reads_dec_slice_string.
Qed.

(** Closes a goal that a closed string or list fits the header. *)
Ltac fits_tac :=
  lazy beta iota delta [fits_string len_string len MaxInt32 String.length Datatypes.length
    productcatalogservice.ID productcatalogservice.Name
    productcatalogservice.Description productcatalogservice.Picture
    example.CurrencyCode]; lia.

Lemma slice_string_roundtrip_witness :
  serviceweaver_enc_slice_string_4af10117 (Some ["a"; "bb"]%string) NewEncoder
  = (Ret tt, mkEncoder (wire_slice_string (Some ["a"; "bb"]%string)))
  /\ serviceweaver_dec_slice_string_4af10117
       (NewDecoder (wire_slice_string (Some ["a"; "bb"]%string)))
     = (Ret (Some ["a"; "bb"]%string), NewDecoder []).
Proof.
  assert (E : serviceweaver_enc_slice_string_4af10117 (Some ["a"; "bb"]%string) NewEncoder
              = (Ret tt, mkEncoder (wire_slice_string (Some ["a"; "bb"]%string))))
    by reflexivity.
  split; [exact E|].
  exact (proj2 (proj2 (slice_string_roundtrip (Some ["a"; "bb"]%string)) _ E)).
Defined.

Example enc_slice_a_bb :
  serviceweaver_enc_slice_string_4af10117 (Some ["a"; "bb"]%string) NewEncoder
  = (Ret tt, mkEncoder [x02; x00; x00; x00;
                        x01; x00; x00; x00; x61;
                        x02; x00; x00; x00; x62; x62]).
Proof. reflexivity. Qed.

Example dec_slice_a_bb :
  serviceweaver_dec_slice_string_4af10117
    (NewDecoder [x02; x00; x00; x00; x01; x00; x00; x00; x61;
                 x02; x00; x00; x00; x62; x62])
  = (Ret (Some ["a"; "bb"]%string), NewDecoder []).
Proof. reflexivity. Qed.

Example dec_slice_nil :
  serviceweaver_dec_slice_string_4af10117 (NewDecoder [xff; xff; xff; xff])
  = (Ret None, NewDecoder []).
Proof. reflexivity. Qed.

Example dec_slice_empty :
  serviceweaver_dec_slice_string_4af10117 (NewDecoder [x00; x00; x00; x00])
  = (Ret (Some []), NewDecoder []).
Proof. reflexivity. Qed.

Example dec_slice_negative_length :
  serviceweaver_dec_slice_string_4af10117 (NewDecoder [xfe; xff; xff; xff])
  = (Panicked (Fault "makeslice: len out of range"), NewDecoder []).
Proof. reflexivity. Qed.

(** ** Records *)

Section ProductCodec.

Context {money_T : Type} `{Lawful money_T}.

#[local] Abbreviation Product := (@productcatalogservice.Product money_T).

Lemma read_reads {A} (d : Dec A) bs v (x0 : Product) tl :
  reads d bs v ->
  productcatalogservice.read d (x0, NewDecoder (bs ++ tl)) = (Ret v, (x0, NewDecoder tl)).
Proof. intros R. unfold productcatalogservice.read, zoom. simpl. now rewrite R. Qed.

Lemma writes_Product_WeaverMarshal (x : Product) :
  fits_Product x ->
  writes (productcatalogservice.Product_WeaverMarshal (Some x)) (wire_Product x).
Proof.
  intros (HID & HName & HDesc & HPic & HPrice & HCat).
  unfold productcatalogservice.Product_WeaverMarshal, wire_Product.
  do 4 (apply writes_bind; [now apply writes_enc_String|]).
  apply writes_bind; [now apply marshal_writes | now apply writes_enc_slice_string].
Qed.

Lemma Product_WeaverMarshal_Ret (x : Product) e e' :
  productcatalogservice.Product_WeaverMarshal (Some x) e = (Ret tt, e') ->
  fits_Product x.
Proof.
  unfold productcatalogservice.Product_WeaverMarshal. intros E.
  apply bind_Ret_inv in E as ([] & e1 & HID & E).
  apply bind_Ret_inv in E as ([] & e2 & HName & E).
  apply bind_Ret_inv in E as ([] & e3 & HDesc & E).
  apply bind_Ret_inv in E as ([] & e4 & HPic & E).
  apply bind_Ret_inv in E as ([] & e5 & HPrice & HCat).
  repeat split;
    eauto using enc_String_Ret, enc_slice_string_Ret, marshal_fits.
Qed.

Opaque bytes_String bytes_Int32 wire_slice_string.

Lemma Product_fields_reads (x x0 : Product) tl :
  fits_Product x ->
  productcatalogservice.Product_fields (x0, NewDecoder (wire_Product x ++ tl))
  = (Ret tt, (x, NewDecoder tl)).
Proof.
  intros (HID & HName & HDesc & HPic & HPrice & HCat).
  destruct x as [i n d p m c]. simpl in *.
  unfold productcatalogservice.Product_fields, wire_Product. simpl.
  rewrite <- !app_assoc.
  repeat (erewrite bind_Ret; [|apply read_reads, reads_dec_String; eassumption];
          erewrite bind_Ret; [|reflexivity]; simpl).
  erewrite bind_Ret.
  2:{ unfold zoom. simpl. rewrite unmarshal_reads by assumption. reflexivity. }
  simpl.
  erewrite bind_Ret; [|apply read_reads, reads_dec_slice_string; assumption].
  reflexivity.
Qed.

Transparent bytes_String bytes_Int32 wire_slice_string.

Lemma Product_WeaverUnmarshal_reads (x x0 : Product) tl :
  fits_Product x ->
  productcatalogservice.Product_WeaverUnmarshal
    (Some x0, NewDecoder (wire_Product x ++ tl))
  = (Ret tt, (Some x, NewDecoder tl)).
Proof.
  intros Hx. unfold productcatalogservice.Product_WeaverUnmarshal.
  cbn [fst snd]. now rewrite Product_fields_reads.
Qed.

(** A product marshals lawfully as soon as its price does. *)
#[global] Instance Product_Lawful : Lawful Product.
Proof.
  refine {| fits := fits_Product; wire := wire_Product |}.
  - intros x e e' E. eapply Product_WeaverMarshal_Ret. exact E.
  - intros x Hx. now apply writes_Product_WeaverMarshal.
  - intros x x0 tl Hx. cbn [WeaverUnmarshal productcatalogservice.Product_AutoMarshal].
    unfold zoom. cbn [fst snd]. now rewrite Product_WeaverUnmarshal_reads.
Defined.

(** C9. A record is serialized as its fields one after the other, in the
    order of their declaration: [ID], [Name], [Description], [Picture],
    [PriceUSD], [Categories].  Serialization returns when every field fits
    the wire format.  Whenever it returns, what it wrote is the fields'
    encodings in that order, and deserialization, which reads them in that
    order, rebuilds the record from those bytes, whatever the receiver
    held, with nothing left unread. *)
Theorem Product_roundtrip (x : Product) :
  (fits_Product x ->
   exists enc,
     productcatalogservice.Product_WeaverMarshal (Some x) NewEncoder = (Ret tt, enc))
  /\
  (forall enc,
     productcatalogservice.Product_WeaverMarshal (Some x) NewEncoder = (Ret tt, enc) ->
     Data enc =
       bytes_String (productcatalogservice.ID x)
       ++ bytes_String (productcatalogservice.Name x)
       ++ bytes_String (productcatalogservice.Description x)
       ++ bytes_String (productcatalogservice.Picture x)
       ++ wire (productcatalogservice.PriceUSD x)
       ++ wire_slice_string (productcatalogservice.Categories x)
     /\ forall x0 : Product,
          productcatalogservice.Product_WeaverUnmarshal (Some x0, NewDecoder (Data enc))
          = (Ret tt, (Some x, NewDecoder []))).
Proof.
  split.
  - intros Hx. eexists. apply (writes_Product_WeaverMarshal x Hx NewEncoder).
  - intros enc E. pose proof (Product_WeaverMarshal_Ret _ _ _ E) as Hx.
    rewrite (writes_Product_WeaverMarshal x Hx NewEncoder) in E. injection E as <-.
    split; [reflexivity|].
    intros x0. cbn [Data app]. rewrite <- (app_nil_r (wire_Product x)).
    now apply Product_WeaverUnmarshal_reads.
Qed.

End ProductCodec.

(** The example money type marshals lawfully. *)
#[global] Instance example_money_Lawful : Lawful example.money.
Proof.
  refine {| fits := fun x => fits_string (example.CurrencyCode x);
            wire := fun x => bytes_String (example.CurrencyCode x) |}.
  - intros [c] e e' E. eapply enc_String_Ret. exact E.
  - intros x Hx. now apply writes_enc_String.
  - intros [c] x0 tl Hx.
    cbn [WeaverUnmarshal example.money_AutoMarshal example.CurrencyCode] in *.
    erewrite bind_Ret.
    2:{ unfold zoom. cbn [fst snd]. rewrite (reads_dec_String c Hx tl). reflexivity. }
    reflexivity.
Defined.

Lemma a_product_fits : fits_Product example.a_product.
Proof.
  unfold fits_Product, example.a_product.
  repeat split; try fits_tac.
  - change (fits_string "USD"). fits_tac.
  - repeat apply List.Forall_cons; try apply List.Forall_nil; fits_tac.
Qed.

Lemma Product_roundtrip_witness :
  fits_Product example.a_product
  /\ exists enc,
       productcatalogservice.Product_WeaverMarshal (Some example.a_product) NewEncoder
       = (Ret tt, enc)
       /\ Data enc =
            bytes_String (productcatalogservice.ID example.a_product)
            ++ bytes_String (productcatalogservice.Name example.a_product)
            ++ bytes_String (productcatalogservice.Description example.a_product)
            ++ bytes_String (productcatalogservice.Picture example.a_product)
            ++ wire (productcatalogservice.PriceUSD example.a_product)
            ++ wire_slice_string (productcatalogservice.Categories example.a_product)
       /\ forall x0,
            productcatalogservice.Product_WeaverUnmarshal (Some x0, NewDecoder (Data enc))
            = (Ret tt, (Some example.a_product, NewDecoder [])).
Proof.
  split; [exact a_product_fits|].
  destruct (proj1 (Product_roundtrip example.a_product) a_product_fits) as [enc E].
  exists enc. split; [exact E|].
  exact (proj2 (Product_roundtrip example.a_product) enc E).
Defined.

(** ** Client stubs *)

(** Unfolds the monad and the operations of the run time, and nothing of
    the arithmetic, the strings or the decisions under them. *)
Ltac run :=
  repeat progress
    (lazy beta iota zeta delta
       [bind ret gets modify zoom panic in_world in_vars emit external
        instrument Count_Add ErrorCount_Add Latency_Put BytesRequest_Put BytesReply_Put
        time_Now time_Since tracer_Start child_span
        span_RecordError span_SetStatus_Error span_End stub_Run recover func
        local_deferred client_deferred server_deferred server_CatchPanics business
        client_body client_call
        set_err set_r0 set_dec on_dec unmarshal_r0 encode decode encoded unmarshal_var
        CatchPanics errors.Join omap mbind option_bind list_omap id
        weaver.RemoteCallError is_error];
     cbn [ext metrics trace vars world inflight r0 err dec lr0 lerr res rerr escaped fst snd]).

(** The same by [cbn], which stops at what it cannot decide. *)
Ltac calm :=
  cbn beta iota zeta delta
    [bind ret gets modify zoom panic in_world in_vars emit external
     instrument Count_Add ErrorCount_Add Latency_Put BytesRequest_Put BytesReply_Put
     time_Now time_Since tracer_Start child_span
     span_RecordError span_SetStatus_Error span_End stub_Run recover func
     local_deferred client_deferred server_deferred server_CatchPanics business
     client_body client_call
     set_err set_r0 set_dec on_dec unmarshal_r0 encode decode encoded unmarshal_var
     ext metrics trace vars world inflight r0 err dec lr0 lerr res rerr escaped fst snd].

Lemma bind_congr {S A B} (m : M S A) (k1 k2 : A -> M S B) s :
  (forall a s', k1 a s' = k2 a s') -> bind m k1 s = bind m k2 s.
Proof. intros E. unfold bind. destruct (m s) as [[a|f] s']; [apply E | reflexivity]. Qed.

Lemma func_ext {F W R} (init : F) (d b1 b2 : M (Frame F W) unit) (res : F -> R) w :
  b1 (mkFrame init w None) = b2 (mkFrame init w None) ->
  func init d b1 res w = func init d b2 res w.
Proof. intros E. unfold func. now rewrite E. Qed.

Section ClientStubs.

Context {Ext : Type} (clock : Ext -> Z).

Section Instances.

Context {money_T : Type} `{AutoMarshal money_T}.

(** [t_client_stub.Convert] has the shape of [client_call]. *)
Lemma Convert_shape (s : currencyservice.t_client_stub) ctx (a0 : money_T) a1 w :
  currencyservice.t_client_stub_Convert clock s ctx a0 a1 w
  = client_call clock (currencyservice.convertMetrics s) "currencyservice.T.Convert"
      (currencyservice.stub s) 0 zero
      (encoded (WeaverMarshal a0 ;; enc_String a1)) unmarshal_r0 ctx w.
Proof.
  unfold currencyservice.t_client_stub_Convert,
    currencyservice.t_client_stub_Convert_body.
  calm. apply bind_congr. intros [ctx' span] w'. apply func_ext.
  generalize (WeaverMarshal a0 ;; enc_String a1). intros m.
  unfold client_body, encode, encoded, bind.
  destruct (m NewEncoder) as [[[]|f] enc]; reflexivity.
Qed.

End Instances.

End ClientStubs.

(** ** The decoder reads without panicking *)

Lemma Read_total n d : exists bs d', Read n d = (Ret bs, d').
Proof.
  unfold Read. destruct (failed d); [eauto|].
  destruct (_ <? _)%nat; eauto.
Qed.

Lemma dec_Int32_total d : exists z d', dec_Int32 d = (Ret z, d').
Proof.
  unfold dec_Int32, bind. destruct (Read_total 4 d) as (bs & d' & ->).
  destruct bs as [[|b0 [|b1 [|b2 [|b3 [|]]]]]|]; unfold ret; eauto.
Qed.

Lemma dec_String_total d : exists s d', dec_String d = (Ret s, d').
Proof.
  unfold dec_String, bind, dec_Len. destruct (dec_Int32_total d) as (n & d' & ->).
  destruct (n =? -1); [unfold ret; eauto|].
  destruct (n <? -1); [unfold fail, modify, ret; eauto|].
  destruct (Read_total (Z.to_nat n) d') as (bs & d'' & ->).
  destruct bs; unfold ret; eauto.
Qed.

Lemma dec_Error_total d : exists e d', dec_Error d = (Ret e, d').
Proof.
  unfold dec_Error, bind. destruct (Read_total 1 d) as (bs & d' & ->).
  destruct bs as [[|b [|]]|]; unfold gets; eauto.
  destruct (_ =? 0); [eauto|].
  destruct (dec_String_total d') as (s & d'' & ->).
  destruct (failed d''); unfold ret; eauto.
Qed.

(** ** Every call of the client shape meets [client_spec] *)

(** Closes [returned] once the call has been run to its end. *)
Ltac close_returned :=
  eexists; split; [reflexivity|]; cbn [ext trace metrics];
  split; [reflexivity|];
  split; [rewrite <- ?app_assoc; reflexivity|];
  split;
  [ intros q Hq; destruct (decide (_ = q)); [congruence | reflexivity]
  | match goal with
    | |- context [decide (?p = ?p)] => destruct (decide (p = p)); [|congruence]
    end;
    unfold add_Count, add_ErrorCount, put_Latency, put_BytesRequest, put_BytesReply;
    cbn [Count ErrorCount Latency BytesRequest BytesReply];
    rewrite ?app_nil_r; f_equal; lia ].

Section Shape.

Context {Ext : Type} (clock : Ext -> Z) {R : Type}.
Variable methodMetrics : MethodLabels.
Variable name : string.
Variable stub : Stub Ext.
Variable method : Z.
Variable init : R.
Variable args : Res (list byte).
Variable decode_results : M (Named R) unit.

(** The statements that decode the results leave [err] alone. *)
Hypothesis decode_keeps_err :
  forall n r n', decode_results n = (r, n') -> err n' = err n.

Lemma client_call_spec ctx w :
  client_spec clock methodMetrics name stub method init args decode_results ctx w
    (client_call clock methodMetrics name stub method init args decode_results ctx w).
Proof using decode_keeps_err.
  unfold client_spec, call_ctx, call_starts, call_ends, call_span, returned,
    client_call, client_body, child_span, recovered.
  destruct args as [data|[msg]].
  - destruct (IsValid (SpanFromContext ctx)); run.
    all: destruct (Run stub _ method data 0 (ext w)) as [[[results [e|]]|[msg]] x'];
      run; try close_returned.
    all: destruct (decode_results _) as [[[]|[msg]] [r e d]] eqn:ED;
      apply decode_keeps_err in ED; cbn [err] in ED; subst e; run;
      try close_returned.
    all: destruct (dec_Error_total d) as (e & d' & ->); run;
      destruct e; run; close_returned.
  - destruct (IsValid (SpanFromContext ctx)); run; close_returned.
Qed.

End Shape.

(** ** The generated client-stub methods have the client shape *)

Lemma unmarshal_r0_keeps_err {R} `{AutoMarshal R} (n : Named R) r n' :
  unmarshal_r0 n = (r, n') -> err n' = err n.
Proof.
  unfold unmarshal_r0, zoom. destruct (WeaverUnmarshal _) as [r1 [x d]].
  intros [= _ <-]. reflexivity.
Qed.

Lemma read_r0_keeps_err {R} (m : Dec R) (n : Named R) r n' :
  (v <- on_dec m ;; set_r0 v) n = (r, n') -> err n' = err n.
Proof.
  unfold bind, on_dec, zoom, set_r0, modify. destruct (m (dec n)) as [[v|f] d].
  - intros [= _ <-]. reflexivity.
  - intros [= _ <-]. reflexivity.
Qed.

Section ClientInstances.

Context {Ext : Type} (clock : Ext -> Z).
Context {money_T : Type} `{AutoMarshal money_T}.

Lemma GetSupportedCurrencies_shape (s : currencyservice.t_client_stub) ctx w :
  currencyservice.t_client_stub_GetSupportedCurrencies clock s ctx w
  = client_call clock (currencyservice.getSupportedCurrenciesMetrics s)
      "currencyservice.T.GetSupportedCurrencies" (currencyservice.stub s) 1 None
      (Ret []) (v <- on_dec serviceweaver_dec_slice_string_4af10117 ;; set_r0 v) ctx w.
Proof.
  unfold currencyservice.t_client_stub_GetSupportedCurrencies,
    currencyservice.t_client_stub_GetSupportedCurrencies_body.
  calm. apply bind_congr. intros [ctx' span] w'. apply func_ext.
  unfold client_body. run.
  generalize serviceweaver_dec_slice_string_4af10117. intros m.
  destruct (Run _ _ _ _ _ _) as [[[results [e|]]|f] x']; run; try reflexivity.
  destruct (m _) as [[v|f] d]; run; reflexivity.
Qed.

Lemma GetProduct_shape (s : productcatalogservice.t_client_stub) ctx a0 w :
  productcatalogservice.t_client_stub_GetProduct clock s ctx a0 w
  = client_call clock (productcatalogservice.getProductMetrics s)
      "productcatalogservice.T.GetProduct" (productcatalogservice.stub s) 0
      (zero : productcatalogservice.Product)
      (encoded (productcatalogservice.enc_Reset (0 + (4 + len_string a0)) ;; enc_String a0))
      unmarshal_r0 ctx w.
Proof.
  unfold productcatalogservice.t_client_stub_GetProduct,
    productcatalogservice.t_client_stub_GetProduct_body.
  calm. apply bind_congr. intros [ctx' span] w'. apply func_ext.
  generalize (productcatalogservice.enc_Reset (0 + (4 + len_string a0)) ;; enc_String a0).
  intros m. unfold client_body, encode, encoded, bind.
  destruct (m NewEncoder) as [[[]|f] enc]; reflexivity.
Qed.

Lemma ListProducts_shape (s : productcatalogservice.t_client_stub) ctx w :
  productcatalogservice.t_client_stub_ListProducts clock s ctx w
  = client_call clock (productcatalogservice.listProductsMetrics s)
      "productcatalogservice.T.ListProducts" (productcatalogservice.stub s) 1 None
      (Ret [])
      (v <- on_dec productcatalogservice.serviceweaver_dec_slice_Product_3e9d9e07 ;;
       set_r0 v) ctx w.
Proof.
  unfold productcatalogservice.t_client_stub_ListProducts,
    productcatalogservice.t_client_stub_ListProducts_body.
  calm. apply bind_congr. intros [ctx' span] w'. apply func_ext.
  unfold client_body. run.
  generalize productcatalogservice.serviceweaver_dec_slice_Product_3e9d9e07. intros m.
  destruct (Run _ _ _ _ _ _) as [[[results [e|]]|f] x']; run; try reflexivity.
  destruct (m _) as [[v|f] d]; run; reflexivity.
Qed.

End ClientInstances.

(** ** Errors *)

Lemma error_eqb_refl e : error_eqb e e = true.
Proof.
  induction e as [s| |es IH] using error_ind; simpl.
  - apply String.eqb_refl.
  - reflexivity.
  - induction IH as [|x l Hx _ IHl]; [reflexivity|]. now rewrite Hx, IHl.
Qed.

Lemma Is_unfold e target :
  errors.Is e target
  = error_eqb e target
    || match e with
       | joinError es => existsb (fun e' => errors.Is e' target) es
       | _ => false
       end.
Proof. destruct e; reflexivity. Qed.

Lemma Is_refl e : errors.Is e e = true.
Proof. now rewrite Is_unfold, error_eqb_refl. Qed.

Lemma Is_Join_sentinel e :
  errors.Is (joinError [weaver.RemoteCallError; e]) weaver.RemoteCallError = true.
Proof. reflexivity. Qed.

Lemma Is_Join_wrapped e :
  errors.Is (joinError [weaver.RemoteCallError; e]) e = true.
Proof.
  rewrite Is_unfold. cbn [existsb]. rewrite Is_refl. now rewrite !orb_true_r.
Qed.

(** ** Transport failures and recovered faults, for the client shape *)

Section ShapeOutcomes.

Context {Ext : Type} (clock : Ext -> Z) {R : Type}.
Variable methodMetrics : MethodLabels.
Variable name : string.
Variable stub : Stub Ext.
Variable method : Z.
Variable init : R.
Variable args : Res (list byte).
Variable decode_results : M (Named R) unit.

Hypothesis decode_keeps_err :
  forall n r n', decode_results n = (r, n') -> err n' = err n.

#[local] Abbreviation call :=
  (client_call clock methodMetrics name stub method init args decode_results).

Lemma client_call_returns ctx w : returns (call ctx w).
Proof using decode_keeps_err.
  pose proof (client_call_spec clock methodMetrics name stub method init args
                decode_results decode_keeps_err ctx w) as S.
  unfold client_spec, returned, returns in *.
  destruct args as [data|f]; [|destruct S as (w' & -> & _); eauto].
  destruct (Run stub _ method data 0 (ext w)) as [[[results [e|]]|f] x'];
    try (destruct S as (w' & -> & _); eauto; fail).
  destruct (decode_results _) as [[[]|f] n];
    try (destruct S as (w' & -> & _); eauto; fail).
  destruct (dec_Error (dec n)) as [[e|f] d]; cbn [fst] in S; [|contradiction].
  destruct S as (w' & -> & _); eauto.
Qed.

Lemma client_call_transport_failure ctx w data results e x' :
  args = Ret data ->
  Run stub (call_ctx name ctx) method data 0 (ext w) = (Ret (results, Some e), x') ->
  transport_failure clock methodMetrics (call_span name ctx) init e w x' (call ctx w).
Proof using decode_keeps_err.
  intros Hargs HRun.
  pose proof (client_call_spec clock methodMetrics name stub method init args
                decode_results decode_keeps_err ctx w) as S.
  unfold client_spec in S. rewrite Hargs in S |- *. rewrite HRun in S.
  destruct S as (w' & Hres & Hext & Htrace & _ & Hm).
  exists (joinError [weaver.RemoteCallError; e]), w',
    (call_starts name ctx ++ [evRun method data 0 true]
     ++ [evRecordError (call_span name ctx) (joinError [weaver.RemoteCallError; e]);
         evSetStatusError (call_span name ctx)
           (Error (joinError [weaver.RemoteCallError; e]))]).
  split; [exact Hres|]. split; [reflexivity|].
  split; [apply Is_Join_sentinel|]. split; [apply Is_Join_wrapped|].
  rewrite Hm. cbn [ErrorCount Latency]. split; [reflexivity|].
  split; [|split; [|reflexivity]].
  - rewrite Htrace. unfold call_ends. now rewrite <- !app_assoc.
  - unfold call_starts. now destruct (IsValid _).
Qed.

Lemma client_call_encode_fault ctx w f :
  args = Panicked f -> fault_recovered f (call ctx w).
Proof using decode_keeps_err.
  intros Hargs.
  pose proof (client_call_spec clock methodMetrics name stub method init args
                decode_results decode_keeps_err ctx w) as S.
  unfold client_spec in S. rewrite Hargs in S |- *.
  destruct S as (w' & Hres & _). destruct f as [msg].
  exists init, (joinError [weaver.RemoteCallError; errorString msg]), (errorString msg), w'.
  repeat split; [exact Hres].
Qed.

Lemma client_call_transport_fault ctx w data f x' :
  args = Ret data ->
  Run stub (call_ctx name ctx) method data 0 (ext w) = (Panicked f, x') ->
  fault_recovered f (call ctx w).
Proof using decode_keeps_err.
  intros Hargs HRun.
  pose proof (client_call_spec clock methodMetrics name stub method init args
                decode_results decode_keeps_err ctx w) as S.
  unfold client_spec in S. rewrite Hargs in S |- *. rewrite HRun in S.
  destruct S as (w' & Hres & _). destruct f as [msg].
  exists init, (joinError [weaver.RemoteCallError; errorString msg]), (errorString msg), w'.
  repeat split; [exact Hres].
Qed.

Lemma client_call_decode_fault ctx w data results x' f n :
  args = Ret data ->
  Run stub (call_ctx name ctx) method data 0 (ext w) = (Ret (results, None), x') ->
  decode_results (mkNamed init None (NewDecoder results)) = (Panicked f, n) ->
  fault_recovered f (call ctx w).
Proof using decode_keeps_err.
  intros Hargs HRun Hdec.
  pose proof (client_call_spec clock methodMetrics name stub method init args
                decode_results decode_keeps_err ctx w) as S.
  unfold client_spec in S. rewrite Hargs in S |- *. rewrite HRun, Hdec in S.
  destruct S as (w' & Hres & _). destruct f as [msg].
  exists (r0 n), (joinError [weaver.RemoteCallError; errorString msg]), (errorString msg), w'.
  repeat split; [exact Hres].
Qed.

End ShapeOutcomes.

(** ** Client stubs: transport failures and faults *)

Section ClientOutcomes.

Context {Ext : Type} (clock : Ext -> Z).
Context {money_T : Type} `{AutoMarshal money_T}.

(** C2. When the transport returns an error, [t_client_stub.Convert] and
    [t_client_stub.GetProduct] return the zero value together with an error
    that wraps the sentinel [weaver.RemoteCallError] and the error of the
    transport, which [errors.Is] and [Unwrap] find again; the error counter
    goes up by one, the span is ended, once, as the last event, and the
    latency is recorded. *)
Theorem client_stub_transport_failure
    (cs : currencyservice.t_client_stub) (ps : productcatalogservice.t_client_stub)
    ctx (a0 : money_T) (a1 : string) w data results e x' :
  (encoded (WeaverMarshal a0 ;; enc_String a1) = Ret data ->
   Run (currencyservice.stub cs) (call_ctx "currencyservice.T.Convert" ctx) 0 data 0 (ext w)
   = (Ret (results, Some e), x') ->
   transport_failure clock (currencyservice.convertMetrics cs)
     (call_span "currencyservice.T.Convert" ctx) zero e w x'
     (currencyservice.t_client_stub_Convert clock cs ctx a0 a1 w))
  /\
  (encoded (productcatalogservice.enc_Reset (0 + (4 + len_string a1)) ;; enc_String a1)
   = Ret data ->
   Run (productcatalogservice.stub ps) (call_ctx "productcatalogservice.T.GetProduct" ctx)
     0 data 0 (ext w)
   = (Ret (results, Some e), x') ->
   transport_failure clock (productcatalogservice.getProductMetrics ps)
     (call_span "productcatalogservice.T.GetProduct" ctx)
     (zero : productcatalogservice.Product) e w x'
     (productcatalogservice.t_client_stub_GetProduct clock ps ctx a1 w)).
Proof.
  split; intros Hargs HRun.
  - rewrite Convert_shape.
    eapply client_call_transport_failure; eauto using @unmarshal_r0_keeps_err.
  - rewrite GetProduct_shape.
    eapply client_call_transport_failure; eauto using @unmarshal_r0_keeps_err.
Qed.

(** C3. [t_client_stub.Convert] and [t_client_stub.GetProduct] always
    return: no panic leaves them.  A fault raised while the arguments are
    encoded, by the transport call, or while the results are decoded is
    turned by the deferred function into an error that wraps the sentinel
    [weaver.RemoteCallError], and the call returns that error. *)
Theorem client_stub_recovers_faults
    (cs : currencyservice.t_client_stub) (ps : productcatalogservice.t_client_stub)
    ctx (a0 : money_T) (a1 : string) w :
  (let call := currencyservice.t_client_stub_Convert clock cs ctx a0 a1 w in
   let args := encoded (WeaverMarshal a0 ;; enc_String a1) in
   let run := Run (currencyservice.stub cs) (call_ctx "currencyservice.T.Convert" ctx) 0 in
   returns call
   /\ (forall f, args = Panicked f -> fault_recovered f call)
   /\ (forall data f x',
         args = Ret data -> run data 0 (ext w) = (Panicked f, x') ->
         fault_recovered f call)
   /\ (forall data results x' f st,
         args = Ret data -> run data 0 (ext w) = (Ret (results, None), x') ->
         WeaverUnmarshal (zero, NewDecoder results) = (Panicked f, st) ->
         fault_recovered f call))
  /\
  (let call := productcatalogservice.t_client_stub_GetProduct clock ps ctx a1 w in
   let args :=
     encoded (productcatalogservice.enc_Reset (0 + (4 + len_string a1)) ;; enc_String a1) in
   let run :=
     Run (productcatalogservice.stub ps)
       (call_ctx "productcatalogservice.T.GetProduct" ctx) 0 in
   returns call
   /\ (forall f, args = Panicked f -> fault_recovered f call)
   /\ (forall data f x',
         args = Ret data -> run data 0 (ext w) = (Panicked f, x') ->
         fault_recovered f call)
   /\ (forall data results x' f st,
         args = Ret data -> run data 0 (ext w) = (Ret (results, None), x') ->
         WeaverUnmarshal (zero : productcatalogservice.Product, NewDecoder results)
         = (Panicked f, st) ->
         fault_recovered f call)).
Proof.
  split; cbv zeta.
  - rewrite Convert_shape. repeat split.
    + apply client_call_returns, @unmarshal_r0_keeps_err.
    + intros f Hargs.
      eapply client_call_encode_fault; eauto using @unmarshal_r0_keeps_err.
    + intros data f x' Hargs HRun.
      eapply client_call_transport_fault; eauto using @unmarshal_r0_keeps_err.
    + intros data results x' f st Hargs HRun Hdec.
      eapply client_call_decode_fault; eauto using @unmarshal_r0_keeps_err.
      unfold unmarshal_r0, zoom. cbn [r0 dec]. rewrite Hdec. reflexivity.
  - rewrite GetProduct_shape. repeat split.
    + apply client_call_returns, @unmarshal_r0_keeps_err.
    + intros f Hargs.
      eapply client_call_encode_fault; eauto using @unmarshal_r0_keeps_err.
    + intros data f x' Hargs HRun.
      eapply client_call_transport_fault; eauto using @unmarshal_r0_keeps_err.
    + intros data results x' f st Hargs HRun Hdec.
      eapply client_call_decode_fault; eauto using @unmarshal_r0_keeps_err.
      unfold unmarshal_r0, zoom. cbn [r0 dec]. rewrite Hdec. reflexivity.
Qed.

End ClientOutcomes.

Lemma client_stub_transport_failure_witness :
  encoded (WeaverMarshal (example.mkMoney "USD") ;; enc_String "EUR")
  = Ret (bytes_String "USD" ++ bytes_String "EUR")
  /\ Run example.refusing (call_ctx "currencyservice.T.Convert" example.traced) 0
       (bytes_String "USD" ++ bytes_String "EUR") 0 (ext example.quiet)
     = (Ret ([], Some (errorString "connection refused")), 1%nat)
  /\ transport_failure example.clock
       (currencyservice.convertMetrics (example.currency_client example.refusing))
       (call_span "currencyservice.T.Convert" example.traced) zero
       (errorString "connection refused") example.quiet 1%nat
       (currencyservice.t_client_stub_Convert example.clock
          (example.currency_client example.refusing) example.traced
          (example.mkMoney "USD") "EUR" example.quiet).
Proof.
  split; [vm_compute; reflexivity|]. split; [vm_compute; reflexivity|].
  apply (proj1 (client_stub_transport_failure example.clock
                  (example.currency_client example.refusing)
                  (example.catalog_client example.refusing)
                  example.traced (example.mkMoney "USD") "EUR" example.quiet
                  (bytes_String "USD" ++ bytes_String "EUR") []
                  (errorString "connection refused") 1%nat));
    vm_compute; reflexivity.
Defined.

Lemma client_stub_recovers_faults_witness :
  encoded (productcatalogservice.enc_Reset (0 + (4 + len_string "OLJCESPC7Z")) ;;
           enc_String "OLJCESPC7Z")
  = Ret (bytes_String "OLJCESPC7Z")
  /\ Run (example.replying example.bad_product_reply)
       (call_ctx "productcatalogservice.T.GetProduct" example.traced) 0
       (bytes_String "OLJCESPC7Z") 0 (ext example.quiet)
     = (Ret (example.bad_product_reply, None), 1%nat)
  /\ fst (WeaverUnmarshal (zero : @productcatalogservice.Product example.money,
                           NewDecoder example.bad_product_reply))
     = Panicked (Fault "makeslice: len out of range")
  /\ fault_recovered (Fault "makeslice: len out of range")
       (productcatalogservice.t_client_stub_GetProduct example.clock
          (example.catalog_client (example.replying example.bad_product_reply))
          example.traced "OLJCESPC7Z" example.quiet).
Proof.
  split; [vm_compute; reflexivity|]. split; [vm_compute; reflexivity|].
  split; [vm_compute; reflexivity|].
  refine (proj2 (proj2 (proj2 (proj2
            (client_stub_recovers_faults example.clock
               (example.currency_client example.refusing)
               (example.catalog_client (example.replying example.bad_product_reply))
               example.traced (example.mkMoney "USD") "OLJCESPC7Z" example.quiet))))
            (bytes_String "OLJCESPC7Z") example.bad_product_reply 1%nat
            (Fault "makeslice: len out of range") _ _ _ _);
    vm_compute; reflexivity.
Defined.

(** ** What one call of the client shape records *)

Section ShapeSummary.

Context {Ext : Type} (clock : Ext -> Z) {R : Type}.
Variable methodMetrics : MethodLabels.
Variable name : string.
Variable stub : Stub Ext.
Variable method : Z.
Variable init : R.
Variable args : Res (list byte).
Variable decode_results : M (Named R) unit.

Hypothesis decode_keeps_err :
  forall n r n', decode_results n = (r, n') -> err n' = err n.

Lemma call_ends_spans ctx e ev sp :
  In ev (call_ends name ctx e) -> span_of ev = Some sp -> sp = call_span name ctx.
Proof.
  unfold call_ends. destruct e; cbn [app In]; intros Hin Hsp.
  - destruct Hin as [<-|[<-|[<-|[]]]]; cbn in Hsp; congruence.
  - destruct Hin as [<-|[]]; cbn in Hsp; congruence.
Qed.

Lemma call_starts_spans ctx ev sp :
  In ev (call_starts name ctx) -> span_of ev = Some sp -> sp = call_span name ctx.
Proof.
  unfold call_starts. destruct (IsValid _); cbn [In]; intros Hin Hsp; [|contradiction].
  destruct Hin as [<-|[]]. discriminate.
Qed.

Lemma count_app p evs1 evs2 : count p (evs1 ++ evs2) = (count p evs1 + count p evs2)%nat.
Proof. unfold count. now rewrite List.filter_app, length_app. Qed.

Lemma count_call_starts ctx :
  count is_start (call_starts name ctx)
  = if IsValid (SpanFromContext ctx) then 1%nat else 0%nat.
Proof. unfold call_starts. now destruct (IsValid _). Qed.

Lemma count_call_ends ctx e :
  count is_start (call_ends name ctx e) = 0%nat
  /\ count is_end (call_ends name ctx e) = 1%nat
  /\ count is_reply (call_ends name ctx e) = 0%nat.
Proof. unfold call_ends. now destruct e. Qed.

Lemma count_call_starts_other ctx :
  count is_end (call_starts name ctx) = 0%nat
  /\ count is_reply (call_starts name ctx) = 0%nat.
Proof. unfold call_starts. now destruct (IsValid _). Qed.

(** One call: it returns; it appends to the trace at most one start, which
    it makes only under a valid span, and exactly one end; it counts
    itself, its error if it returns one, its latency, the size of the
    request if the arguments were encoded, and the size of the reply if the
    transport gave one. *)
Lemma client_call_summary ctx w :
  exists out w' evs replies,
    client_call clock methodMetrics name stub method init args decode_results ctx w
    = (Ret out, w')
    /\ trace w' = trace w ++ evs
    /\ count is_start evs = (if IsValid (SpanFromContext ctx) then 1%nat else 0%nat)
    /\ count is_end evs = 1%nat
    /\ (forall ev sp, In ev evs -> span_of ev = Some sp -> sp = call_span name ctx)
    /\ count is_reply evs = List.length replies
    /\ (forall q, q <> methodMetrics -> metrics w' q = metrics w q)
    /\ metrics w' methodMetrics
       = mkMethodMetrics
           (Count (metrics w methodMetrics) + 1)
           (ErrorCount (metrics w methodMetrics) + (if is_error (snd out) then 1 else 0))
           (Latency (metrics w methodMetrics) ++ [clock (ext w') - clock (ext w)])
           (BytesRequest (metrics w methodMetrics) ++ request_of args)
           (BytesReply (metrics w methodMetrics) ++ replies).
Proof using decode_keeps_err.
  pose proof (client_call_spec clock methodMetrics name stub method init args
                decode_results decode_keeps_err ctx w) as S.
  unfold client_spec, returned in S.
  pose proof (count_call_starts ctx) as Cs.
  pose proof (count_call_starts_other ctx) as [Cse Csr].
  assert (Hin : forall e l ev sp,
             (forall ev, In ev l -> span_of ev = None) ->
             In ev (call_starts name ctx ++ l ++ call_ends name ctx e) ->
             span_of ev = Some sp -> sp = call_span name ctx).
  { intros e l ev sp Hl Hev Hsp. apply in_app_or in Hev as [Hev|Hev].
    - eapply call_starts_spans; eauto.
    - apply in_app_or in Hev as [Hev|Hev].
      + rewrite (Hl _ Hev) in Hsp. discriminate.
      + eapply call_ends_spans; eauto. }
  destruct args as [data|f].
  - destruct (Run stub _ method data 0 (ext w)) as [[[results [e|]]|f] x'].
    + destruct S as (w' & Hres & Hext & Htrace & Hq & Hm).
      pose proof (count_call_ends ctx (Some (joinError [weaver.RemoteCallError; e])))
        as (Ces & Cee & Cer).
      eexists _, w', _, []. split; [exact Hres|]. split; [exact Htrace|].
      rewrite !count_app, Cs, Cse, Csr, Ces, Cee, Cer, Hext.
      repeat split; try (destruct (IsValid _); reflexivity); try assumption.
      intros ev sp. eapply Hin. intros ev' [<-|[]]. reflexivity.
    + destruct (decode_results _) as [[[]|f] n].
      * destruct (dec_Error (dec n)) as [[e|f] d]; cbn [fst] in S; [|contradiction].
        destruct S as (w' & Hres & Hext & Htrace & Hq & Hm).
        pose proof (count_call_ends ctx e) as (Ces & Cee & Cer).
        eexists _, w', _, [len results]. split; [exact Hres|]. split; [exact Htrace|].
        rewrite !count_app, Cs, Cse, Csr, Ces, Cee, Cer, Hext.
        repeat split; try (destruct (IsValid _); reflexivity); try assumption.
        intros ev sp. eapply Hin. intros ev' [<-|[]]. reflexivity.
      * destruct S as (w' & Hres & Hext & Htrace & Hq & Hm).
        pose proof (count_call_ends ctx (recovered f)) as (Ces & Cee & Cer).
        eexists _, w', _, [len results]. split; [exact Hres|]. split; [exact Htrace|].
        rewrite !count_app, Cs, Cse, Csr, Ces, Cee, Cer, Hext.
        destruct f as [msg].
        repeat split; try (destruct (IsValid _); reflexivity); try assumption.
        intros ev sp. eapply Hin. intros ev' [<-|[]]. reflexivity.
    + destruct S as (w' & Hres & Hext & Htrace & Hq & Hm).
      pose proof (count_call_ends ctx (recovered f)) as (Ces & Cee & Cer).
      eexists _, w', _, []. split; [exact Hres|]. split; [exact Htrace|].
      rewrite !count_app, Cs, Cse, Csr, Ces, Cee, Cer, Hext.
      destruct f as [msg].
      repeat split; try (destruct (IsValid _); reflexivity); try assumption.
      intros ev sp Hev. apply (Hin (recovered (Fault msg)) [] ev sp); [intros ? []|].
      exact Hev.
  - destruct S as (w' & Hres & Hext & Htrace & Hq & Hm).
    pose proof (count_call_ends ctx (recovered f)) as (Ces & Cee & Cer).
    eexists _, w', _, []. split; [exact Hres|]. split; [exact Htrace|].
    rewrite !count_app, Cs, Cse, Csr, Ces, Cee, Cer, Hext.
    destruct f as [msg].
    repeat split; try (destruct (IsValid _); reflexivity); try assumption.
    intros ev sp Hev. apply (Hin (recovered (Fault msg)) [] ev sp); [intros ? []|].
    exact Hev.
Qed.

End ShapeSummary.

(** ** What a sequence of calls of the client shape records *)

Section ShapeSequences.

Context {Ext : Type} (clock : Ext -> Z) {R A : Type}.
Variable methodMetrics : MethodLabels.
Variable name : string.
Variable stub : Stub Ext.
Variable method : Z.
Variable init : R.
Variable ctx_of : A -> Context.
Variable args_of : A -> Res (list byte).
Variable decode_results : M (Named R) unit.

Hypothesis decode_keeps_err :
  forall n r n', decode_results n = (r, n') -> err n' = err n.

#[local] Abbreviation call_on a :=
  (client_call clock methodMetrics name stub method init (args_of a) decode_results
     (ctx_of a)).

Lemma failures_cons (out : R * option error) outs :
  failures (out :: outs) = (if is_error (snd out) then 1 else 0) + failures outs.
Proof.
  unfold failures, len. cbn [List.filter]. destruct (is_error (snd out)); cbn [List.length]; lia.
Qed.

Lemma calls_recorded inputs : forall w,
  exists outs w',
    calls (fun a => call_on a) inputs w = (Ret outs, w')
    /\ List.length outs = List.length inputs
    /\ recorded methodMetrics w w' (List.length inputs) outs
         (flat_map (fun a => request_of (args_of a)) inputs).
Proof using decode_keeps_err.
  induction inputs as [|a inputs IH]; intros w.
  - exists [], w. split; [reflexivity|]. split; [reflexivity|].
    exists []. cbn [flat_map]. rewrite !app_nil_r.
    unfold failures, len, count. cbn [List.filter List.length].
    repeat split; try reflexivity; lia.
  - destruct (client_call_summary clock methodMetrics name stub method init (args_of a)
                decode_results decode_keeps_err (ctx_of a) w)
      as (out & w1 & evs1 & replies & Hcall & Htr1 & _ & _ & _ & Hrep & _ & Hm1).
    destruct (IH w1) as (outs & w' & Hcalls & Hlen & evs & Htr & HC & HE & HL & HQ & HP).
    exists (out :: outs), w'. split; [|split].
    + cbn [calls]. rewrite (bind_Ret _ _ _ _ _ Hcall), (bind_Ret _ _ _ _ _ Hcalls).
      reflexivity.
    + cbn [List.length]. now rewrite Hlen.
    + exists (evs1 ++ evs). rewrite Htr, Htr1, HC, HE, HL, HQ, HP, Hm1.
      cbn [Count ErrorCount Latency BytesRequest BytesReply flat_map List.length].
      rewrite failures_cons, count_app, Hrep, !length_app. cbn [List.length].
      rewrite <- !app_assoc. repeat split; try reflexivity; lia.
Qed.

End ShapeSequences.

(** ** Client stubs: metrics *)

Lemma calls_ext {S A B} (f g : A -> M S B) inputs :
  (forall a s, f a s = g a s) -> forall s, calls f inputs s = calls g inputs s.
Proof.
  intros E. induction inputs as [|a inputs IH]; intros s; [reflexivity|].
  cbn [calls]. unfold bind. rewrite E. destruct (g a s) as [[b|f'] s']; [|reflexivity].
  now rewrite IH.
Qed.

Lemma encoded_GetProduct (a0 : string) :
  fits_string a0 ->
  encoded (productcatalogservice.enc_Reset (0 + (4 + len_string a0)) ;; enc_String a0)
  = Ret (bytes_String a0).
Proof.
  intros Hfit. unfold encoded, bind, productcatalogservice.enc_Reset, modify.
  now rewrite (writes_enc_String a0 Hfit).
Qed.

Section ClientMetrics.

Context {Ext : Type} (clock : Ext -> Z).
Context {money_T : Type} `{AutoMarshal money_T}.

(** C7, as the code has it.  [n] calls through [t_client_stub.GetProduct],
    with arguments the wire format can hold, and [n] calls through
    [t_client_stub.ListProducts] all return; the invocation counter of the
    method goes up by [n], its error counter by the number of calls that
    returned an error, its latency distribution takes [n] samples, its
    request-size distribution takes the length of each encoded argument
    buffer, [0] for the method without arguments; its reply-size
    distribution takes a sample only for the calls whose transport
    invocation returned without an error. *)
Theorem client_stub_metrics (ps : productcatalogservice.t_client_stub)
    (gets : list (Context * string)) (lists : list Context) (w : World Ext) :
  Forall (fun i => fits_string (snd i)) gets ->
  (exists outs w',
     calls (fun i => productcatalogservice.t_client_stub_GetProduct clock ps (fst i) (snd i))
       gets w = (Ret outs, w')
     /\ List.length outs = List.length gets
     /\ recorded (productcatalogservice.getProductMetrics ps) w w' (List.length gets) outs
          (map (fun i => len (bytes_String (snd i))) gets))
  /\
  (exists outs w',
     calls (fun ctx => productcatalogservice.t_client_stub_ListProducts clock ps ctx)
       lists w = (Ret outs, w')
     /\ List.length outs = List.length lists
     /\ recorded (productcatalogservice.listProductsMetrics ps) w w' (List.length lists) outs
          (replicate (List.length lists) 0)).
Proof.
  intros Hfits. split.
  - rewrite (calls_ext _ _ gets (fun i s => GetProduct_shape clock ps (fst i) (snd i) s)).
    destruct (calls_recorded clock (productcatalogservice.getProductMetrics ps)
                "productcatalogservice.T.GetProduct" (productcatalogservice.stub ps) 0
                (zero : productcatalogservice.Product) fst
                (fun i => encoded (productcatalogservice.enc_Reset
                                     (0 + (4 + len_string (snd i))) ;; enc_String (snd i)))
                unmarshal_r0 (@unmarshal_r0_keeps_err _ _) gets w)
      as (outs & w' & Hcalls & Hlen & Hrec).
    exists outs, w'. split; [exact Hcalls|]. split; [exact Hlen|].
    replace (map (fun i => len (bytes_String (snd i))) gets)
      with (flat_map (fun i : Context * string =>
                        request_of (encoded (productcatalogservice.enc_Reset
                                               (0 + (4 + len_string (snd i))) ;;
                                             enc_String (snd i)))) gets);
      [exact Hrec|].
    clear -Hfits. induction Hfits as [|i gets Hi _ IH]; [reflexivity|].
    cbn [flat_map map]. rewrite IH, (encoded_GetProduct _ Hi). reflexivity.
  - rewrite (calls_ext _ _ lists (fun ctx s => ListProducts_shape clock ps ctx s)).
    destruct (calls_recorded clock (productcatalogservice.listProductsMetrics ps)
                "productcatalogservice.T.ListProducts" (productcatalogservice.stub ps) 1
                None (fun ctx => ctx) (fun _ : Context => Ret [])
                (v <- on_dec productcatalogservice.serviceweaver_dec_slice_Product_3e9d9e07 ;;
                 set_r0 v)
                (read_r0_keeps_err _) lists w)
      as (outs & w' & Hcalls & Hlen & Hrec).
    exists outs, w'. split; [exact Hcalls|]. split; [exact Hlen|].
    replace (replicate (List.length lists) 0)
      with (flat_map (fun _ : Context => request_of (Ret [])) lists); [exact Hrec|].
    clear. induction lists as [|ctx lists IH]; [reflexivity|].
    cbn [flat_map List.length replicate]. now rewrite IH.
Qed.

End ClientMetrics.

Lemma client_stub_metrics_witness :
  Forall (fun i : Context * string => fits_string (snd i))
    [(example.traced, "OLJCESPC7Z"%string); (example.untraced, "66VCHSJNUP"%string)]
  /\ exists outs w',
       calls (fun i => productcatalogservice.t_client_stub_GetProduct example.clock
                         (example.catalog_client example.refusing) (fst i) (snd i))
         [(example.traced, "OLJCESPC7Z"%string); (example.untraced, "66VCHSJNUP"%string)]
         example.quiet
       = (Ret outs, w')
       /\ List.length outs = 2%nat
       /\ recorded
            (productcatalogservice.getProductMetrics (example.catalog_client example.refusing))
            example.quiet w' 2 outs
            (map (fun i : Context * string => len (bytes_String (snd i)))
               [(example.traced, "OLJCESPC7Z"%string); (example.untraced, "66VCHSJNUP"%string)]).
Proof.
  assert (Hfits : Forall (fun i : Context * string => fits_string (snd i))
            [(example.traced, "OLJCESPC7Z"%string); (example.untraced, "66VCHSJNUP"%string)]).
  { repeat apply List.Forall_cons; try apply List.Forall_nil; cbn [snd]; fits_tac. }
  split; [exact Hfits|].
  exact (proj1 (client_stub_metrics example.clock (example.catalog_client example.refusing)
                  _ [] example.quiet Hfits)).
Defined.

(** C7 as stated fails: one call through [ListProducts] whose transport
    refuses the connection leaves the reply-size distribution without a
    sample. *)
Lemma client_stub_metrics_counterexample :
  let ps := example.catalog_client example.refusing in
  let calls_made := [example.untraced] in
  let w' :=
    snd (calls (fun ctx => productcatalogservice.t_client_stub_ListProducts
                             (money_T := example.money) example.clock ps ctx)
           calls_made example.quiet) in
  List.length calls_made = 1%nat
  /\ Count (metrics w' (productcatalogservice.listProductsMetrics ps)) = 1
  /\ List.length (BytesReply (metrics w' (productcatalogservice.listProductsMetrics ps)))
     = 0%nat.
Proof. vm_compute. repeat split. Qed.

(** ** Span life cycle *)

Section Spans.

Context {Ext : Type} (clock : Ext -> Z).
Context {money_T : Type} `{AutoMarshal money_T}.

Lemma local_Convert_spans (s : currencyservice.t_local_stub) ctx (a0 : money_T) a1
    (w : World Ext) :
  exists evs,
    trace (snd (currencyservice.t_local_stub_Convert s ctx a0 a1 w)) = trace w ++ evs
    /\ if IsValid (SpanFromContext ctx)
       then count is_start evs = 1%nat /\ count is_end evs = 1%nat
       else evs = [].
Proof.
  unfold currencyservice.t_local_stub_Convert, currencyservice.t_local_stub_Convert_body.
  destruct (IsValid (SpanFromContext ctx)); run.
  - destruct (currencyservice.Convert _ _ _ _ _) as [[[r [e|]]|f] x']; run;
      eexists; (split; [rewrite <- ?app_assoc; reflexivity | split; reflexivity]).
  - destruct (currencyservice.Convert _ _ _ _ _) as [[[r [e|]]|f] x']; run;
      exists []; (split; [now rewrite app_nil_r | reflexivity]).
Qed.

(** C8, as the code has it.  Under a valid parent span, a call through
    [t_local_stub.Convert] or through [t_client_stub.Convert] starts
    exactly one span and ends exactly one, whether the call succeeds,
    returns an error or panics.  Under no valid parent span the local stub
    performs no span operation; the client stub starts no span, but its
    deferred function still applies its operations, among them exactly one
    [End], to the span it found in the context. *)
Theorem stub_span_lifecycle (ls : currencyservice.t_local_stub)
    (cs : currencyservice.t_client_stub) ctx (a0 : money_T) (a1 : string) (w : World Ext) :
  (exists evs,
     trace (snd (currencyservice.t_local_stub_Convert ls ctx a0 a1 w)) = trace w ++ evs
     /\ if IsValid (SpanFromContext ctx)
        then count is_start evs = 1%nat /\ count is_end evs = 1%nat
        else span_ops evs = [])
  /\
  (exists evs,
     trace (snd (currencyservice.t_client_stub_Convert clock cs ctx a0 a1 w)) = trace w ++ evs
     /\ if IsValid (SpanFromContext ctx)
        then count is_start evs = 1%nat /\ count is_end evs = 1%nat
        else count is_start evs = 0%nat /\ count is_end evs = 1%nat
             /\ forall ev span, In ev evs -> span_of ev = Some span ->
                                span = SpanFromContext ctx).
Proof.
  split.
  - destruct (local_Convert_spans ls ctx a0 a1 w) as (evs & Htr & Hevs).
    exists evs. split; [exact Htr|]. destruct (IsValid _); [exact Hevs | now subst evs].
  - rewrite Convert_shape.
    destruct (client_call_summary clock (currencyservice.convertMetrics cs)
                "currencyservice.T.Convert" (currencyservice.stub cs) 0 zero
                (encoded (WeaverMarshal a0 ;; enc_String a1)) unmarshal_r0
                (@unmarshal_r0_keeps_err _ _) ctx w)
      as (out & w' & evs & replies & -> & Htr & Hs & He & Hsp & _).
    exists evs. split; [exact Htr|]. unfold call_span in Hsp.
    destruct (IsValid _); auto.
Qed.

End Spans.

(** C8 as stated fails: a call through the client stub under a context
    without a valid span performs a span operation, the [End] of the span
    it found in the context. *)
Lemma stub_span_lifecycle_counterexample :
  let reply := bytes_String "EUR" ++ bytes_Error None in
  let w' :=
    snd (currencyservice.t_client_stub_Convert example.clock
           (example.currency_client (example.replying reply)) example.untraced
           (example.mkMoney "USD") "EUR" example.quiet) in
  IsValid (SpanFromContext example.untraced) = false
  /\ span_ops (trace w') = [evEnd (inherited false)].
Proof. vm_compute. split; reflexivity. Qed.

(** ** Server stubs *)

Lemma writes_enc_Error (appErr : option error) :
  match appErr with Some e => fits_string (Error e) | None => True end ->
  writes (enc_Error appErr) (bytes_Error appErr).
Proof.
  destruct appErr as [e|]; intros Hfit; unfold enc_Error, bytes_Error.
  - change (x01 :: bytes_String (Error e)) with ([x01] ++ bytes_String (Error e)).
    apply writes_bind; [apply writes_write | now apply writes_enc_String].
  - apply writes_write.
Qed.

Lemma encoded_then (m1 m2 : Enc unit) bs1 bs2 :
  encoded m1 = Ret bs1 -> writes m2 bs2 -> encoded (m1 ;; m2) = Ret (bs1 ++ bs2).
Proof.
  unfold encoded, bind. destruct (m1 NewEncoder) as [[[]|f] enc]; [|discriminate].
  intros [= <-] W. now rewrite W.
Qed.

Lemma encoded_writes (m : Enc unit) bs : writes m bs -> encoded m = Ret bs.
Proof. intros W. unfold encoded. now rewrite W. Qed.

Section ServerStubs.

Context {Ext : Type}.
Context {money_T : Type} `{AutoMarshal money_T}.

#[local] Abbreviation Product := (@productcatalogservice.Product money_T).

(** The decoding of the arguments of [Convert]. *)
#[local] Abbreviation convert_args :=
  (a0 <- unmarshal_var ;; a1 <- dec_String ;; ret (a0, a1)).

(** What a handler does once its implementation has returned: it encodes
    the result, then the error, and returns the buffer. *)
Lemma reply_encoded (menc : Enc unit) (appErr : option error) bs (x' : Ext) :
  match appErr with Some e => fits_string (Error e) | None => True end ->
  encoded menc = Ret bs ->
  func (mkReply [] None false) server_deferred
    (fun fr : Frame Reply Ext =>
       (enc <- encode (menc ;; enc_Error appErr) ;;
        in_vars (modify (fun _ => mkReply (Data enc) None false))) fr)
    (fun v => (res v, rerr v)) x'
  = (Ret (bs ++ bytes_Error appErr, None), x').
Proof.
  intros Herr Henc. unfold encoded in Henc. run.
  destruct (menc NewEncoder) as [[[]|f] enc]; [|discriminate].
  injection Henc as Henc. run.
  rewrite (writes_enc_Error appErr Herr enc). run. now rewrite Henc.
Qed.

(** C4. A handler of the server stub whose arguments decode and whose
    implementation returns replies with both slots, whether or not the
    implementation returned an error: the encoded result, then the error
    slot, that is the presence byte and, when an error is present, its
    message; and the handler itself returns no error.  (The lengths
    involved are ones the wire format can hold.) *)
Theorem server_stub_reply_has_both_slots
    (s : currencyservice.t_server_stub) (c : productcatalogservice.t_server_stub)
    ctx args (x x' : Ext) appErr :
  match appErr with Some e => fits_string (Error e) | None => True end ->
  (forall (a0 r0 : money_T) (a1 : string) d bs,
     convert_args (NewDecoder args) = (Ret (a0, a1), d) ->
     currencyservice.Convert (currencyservice.impl s) ctx a0 a1 x
     = (Ret (r0, appErr), x') ->
     encoded (WeaverMarshal r0) = Ret bs ->
     currencyservice.t_server_stub_convert s ctx args x
     = (Ret (bs ++ bytes_Error appErr, None), x'))
  /\
  (forall (r0 : option (list string)) bs,
     currencyservice.GetSupportedCurrencies (currencyservice.impl s) ctx x
     = (Ret (r0, appErr), x') ->
     encoded (serviceweaver_enc_slice_string_4af10117 r0) = Ret bs ->
     currencyservice.t_server_stub_getSupportedCurrencies s ctx args x
     = (Ret (bs ++ bytes_Error appErr, None), x'))
  /\
  (forall (a0 : string) (r0 : Product) d bs,
     dec_String (NewDecoder args) = (Ret a0, d) ->
     productcatalogservice.GetProduct (productcatalogservice.impl c) ctx a0 x
     = (Ret (r0, appErr), x') ->
     encoded (productcatalogservice.Product_WeaverMarshal (Some r0)) = Ret bs ->
     productcatalogservice.t_server_stub_getProduct c ctx args x
     = (Ret (bs ++ bytes_Error appErr, None), x'))
  /\
  (forall (r0 : option (list Product)) bs,
     productcatalogservice.ListProducts (productcatalogservice.impl c) ctx x
     = (Ret (r0, appErr), x') ->
     encoded (productcatalogservice.serviceweaver_enc_slice_Product_3e9d9e07 r0) = Ret bs ->
     productcatalogservice.t_server_stub_listProducts c ctx args x
     = (Ret (bs ++ bytes_Error appErr, None), x'))
  /\
  (forall (a0 : string) (r0 : option (list Product)) d bs,
     dec_String (NewDecoder args) = (Ret a0, d) ->
     productcatalogservice.SearchProducts (productcatalogservice.impl c) ctx a0 x
     = (Ret (r0, appErr), x') ->
     encoded (productcatalogservice.serviceweaver_enc_slice_Product_3e9d9e07 r0) = Ret bs ->
     productcatalogservice.t_server_stub_searchProducts c ctx args x
     = (Ret (bs ++ bytes_Error appErr, None), x')).
Proof.
  intros Herr. repeat split.
  - intros a0 r0 a1 d bs Hdec Himpl Henc.
    rewrite <- (reply_encoded (WeaverMarshal r0) appErr bs x' Herr Henc).
    unfold currencyservice.t_server_stub_convert,
      currencyservice.t_server_stub_convert_body.
    revert Hdec. generalize convert_args. intros mdec Hdec.
    run. rewrite Hdec. run. rewrite Himpl. reflexivity.
  - intros r0 bs Himpl Henc.
    rewrite <- (reply_encoded (serviceweaver_enc_slice_string_4af10117 r0) appErr bs x'
                  Herr Henc).
    unfold currencyservice.t_server_stub_getSupportedCurrencies,
      currencyservice.t_server_stub_getSupportedCurrencies_body.
    run. rewrite Himpl. reflexivity.
  - intros a0 r0 d bs Hdec Himpl Henc.
    rewrite <- (reply_encoded (productcatalogservice.Product_WeaverMarshal (Some r0))
                  appErr bs x' Herr Henc).
    unfold productcatalogservice.t_server_stub_getProduct,
      productcatalogservice.t_server_stub_getProduct_body.
    run. rewrite Hdec. run. rewrite Himpl. reflexivity.
  - intros r0 bs Himpl Henc.
    rewrite <- (reply_encoded
                  (productcatalogservice.serviceweaver_enc_slice_Product_3e9d9e07 r0)
                  appErr bs x' Herr Henc).
    unfold productcatalogservice.t_server_stub_listProducts,
      productcatalogservice.t_server_stub_listProducts_body.
    run. rewrite Himpl. reflexivity.
  - intros a0 r0 d bs Hdec Himpl Henc.
    rewrite <- (reply_encoded
                  (productcatalogservice.serviceweaver_enc_slice_Product_3e9d9e07 r0)
                  appErr bs x' Herr Henc).
    unfold productcatalogservice.t_server_stub_searchProducts,
      productcatalogservice.t_server_stub_searchProducts_body.
    run. rewrite Hdec. run. rewrite Himpl. reflexivity.
Qed.

End ServerStubs.

Lemma server_stub_reply_has_both_slots_witness :
  let s := currencyservice.mk_server_stub example.currency_impl in
  let c := productcatalogservice.mk_server_stub example.catalog_impl in
  let appErr := Some (errorString "unsupported currency") in
  fits_string (Error (errorString "unsupported currency"))
  /\ currencyservice.t_server_stub_convert s example.untraced
       (bytes_String "USD" ++ bytes_String "EUR") 0%nat
     = (Ret (bytes_String "USD" ++ bytes_Error appErr, None), 0%nat)
  /\ productcatalogservice.t_server_stub_getProduct c example.untraced
       (bytes_String "OLJCESPC7Z") 0%nat
     = (Ret (wire_Product example.a_product ++ bytes_Error None, None), 0%nat).
Proof.
  cbv zeta.
  assert (Hfit : fits_string (Error (errorString "unsupported currency")))
    by (cbn [Error]; fits_tac).
  split; [exact Hfit|]. split.
  - refine (proj1 (server_stub_reply_has_both_slots
                     (currencyservice.mk_server_stub example.currency_impl)
                     (productcatalogservice.mk_server_stub example.catalog_impl)
                     example.untraced (bytes_String "USD" ++ bytes_String "EUR")
                     0%nat 0%nat (Some (errorString "unsupported currency")) Hfit)
              (example.mkMoney "USD") (example.mkMoney "USD") "EUR"%string
              (NewDecoder []) (bytes_String "USD") _ _ _);
      vm_compute; reflexivity.
  - refine (proj1 (proj2 (proj2 (server_stub_reply_has_both_slots
                     (currencyservice.mk_server_stub example.currency_impl)
                     (productcatalogservice.mk_server_stub example.catalog_impl)
                     example.untraced (bytes_String "OLJCESPC7Z")
                     0%nat 0%nat None I)))
              "OLJCESPC7Z"%string example.a_product
              (NewDecoder []) (wire_Product example.a_product) _ _ _);
      vm_compute; reflexivity.
Defined.

Section ServerFaults.

Context {Ext : Type}.
Context {money_T : Type} `{AutoMarshal money_T}.

#[local] Abbreviation convert_args :=
  (a0 <- unmarshal_var ;; a1 <- dec_String ;; ret (a0, a1)).



(** C6. The dispatch of a server stub gives each method of the interface
    its handler, and no handler for any other name. *)
Theorem server_stub_dispatch
    (s : currencyservice.t_server_stub (money_T := money_T) (Ext := Ext))
    (c : productcatalogservice.t_server_stub (money_T := money_T) (Ext := Ext))
    (method : string) :
  (currencyservice.t_server_stub_GetStubFn s "Convert"
   = Some (currencyservice.t_server_stub_convert s)
   /\ currencyservice.t_server_stub_GetStubFn s "GetSupportedCurrencies"
      = Some (currencyservice.t_server_stub_getSupportedCurrencies s)
   /\ (~ In method currencyservice.methods ->
       currencyservice.t_server_stub_GetStubFn s method = None))
  /\
  (productcatalogservice.t_server_stub_GetStubFn c "GetProduct"
   = Some (productcatalogservice.t_server_stub_getProduct c)
   /\ productcatalogservice.t_server_stub_GetStubFn c "ListProducts"
      = Some (productcatalogservice.t_server_stub_listProducts c)
   /\ productcatalogservice.t_server_stub_GetStubFn c "SearchProducts"
      = Some (productcatalogservice.t_server_stub_searchProducts c)
   /\ (~ In method productcatalogservice.methods ->
       productcatalogservice.t_server_stub_GetStubFn c method = None)).
Proof.
  split.
  - split; [reflexivity|]. split; [reflexivity|].
    intros Hnot. unfold currencyservice.t_server_stub_GetStubFn.
    destruct (String.eqb_spec method "Convert") as [->|_].
    + exfalso. apply Hnot. now left.
    + destruct (String.eqb_spec method "GetSupportedCurrencies") as [->|_]; [|reflexivity].
      exfalso. apply Hnot. right. now left.
  - split; [reflexivity|]. split; [reflexivity|]. split; [reflexivity|].
    intros Hnot. unfold productcatalogservice.t_server_stub_GetStubFn.
    destruct (String.eqb_spec method "GetProduct") as [->|_].
    + exfalso. apply Hnot. now left.
    + destruct (String.eqb_spec method "ListProducts") as [->|_].
      * exfalso. apply Hnot. right. now left.
      * destruct (String.eqb_spec method "SearchProducts") as [->|_]; [|reflexivity].
        exfalso. apply Hnot. right. right. now left.
Qed.

End ServerFaults.


Lemma server_stub_dispatch_witness :
  ~ In "Charge"%string (currencyservice.methods)
  /\ ~ In "Charge"%string (productcatalogservice.methods)
  /\ currencyservice.t_server_stub_GetStubFn
       (currencyservice.mk_server_stub example.currency_impl) "Charge" = None
  /\ productcatalogservice.t_server_stub_GetStubFn
       (productcatalogservice.mk_server_stub example.catalog_impl) "Charge" = None.
Proof.
  assert (Hs : ~ In "Charge"%string (currencyservice.methods)).
  { intros [E|[E|[]]]; discriminate. }
  assert (Hc : ~ In "Charge"%string (productcatalogservice.methods)).
  { intros [E|[E|[E|[]]]]; discriminate. }
  split; [exact Hs|]. split; [exact Hc|].
  pose proof (server_stub_dispatch
                (currencyservice.mk_server_stub example.currency_impl)
                (productcatalogservice.mk_server_stub example.catalog_impl)
                "Charge") as [(_ & _ & Ds) (_ & _ & _ & Dc)].
  split; [exact (Ds Hs) | exact (Dc Hc)].
Defined.

(** ** The transaction cache *)

Section TransactionCache.

Context {Transaction : Type}.
Variable load : string -> list Transaction + error.

#[local] Abbreviation impl := (@transactionhistory.impl Transaction).

(** C10, as the code has it.  When the transactions of the account are in
    the cache, no more of them than [HistoryLimit], the call returns and
    leaves in the cache the first [HistoryLimit] entries of the new
    transaction followed by the previous ones, so never more than
    [HistoryLimit] entries; that list starts with the new transaction as
    soon as [HistoryLimit] is at least one.  The entries of the other
    accounts stay as they were.  When the read of the cache fails, the
    cache is left as it was. *)
Theorem processTransactionForAcct_cache (i : impl) (accountID : string)
    (transaction : Transaction) (old : list Transaction) :
  let limit := transactionhistory.HistoryLimit (transactionhistory.Config i) in
  (transactionhistory.txnCache i !! accountID = Some old ->
   len old <= limit ->
   exists i' cached,
     transactionhistory.processTransactionForAcct load accountID transaction i
     = (Ret tt, i')
     /\ transactionhistory.txnCache i' !! accountID = Some cached
     /\ cached = take (Z.to_nat limit) (transaction :: old)
     /\ len cached <= limit
     /\ (1 <= limit -> cached = transaction :: take (Z.to_nat limit - 1) old)
     /\ (forall other, other <> accountID ->
           transactionhistory.txnCache i' !! other = transactionhistory.txnCache i !! other))
  /\
  (forall got e i1,
     transactionhistory.c_Get load accountID i = (Ret (got, Some e), i1) ->
     exists i',
       transactionhistory.processTransactionForAcct load accountID transaction i
       = (Ret tt, i')
       /\ transactionhistory.txnCache i' = transactionhistory.txnCache i).
Proof.
  cbv zeta. destruct i as [cfg cache lg].
  cbn [transactionhistory.Config transactionhistory.txnCache]. split.
  - intros Hold Hlen. pose proof (len_nonneg old) as H0.
    set (limit := transactionhistory.HistoryLimit cfg) in *.
    unfold transactionhistory.processTransactionForAcct.
    erewrite bind_Ret by reflexivity.
    erewrite bind_Ret.
    2:{ unfold transactionhistory.c_Get. cbn [transactionhistory.txnCache].
        rewrite Hold. reflexivity. }
    cbn beta iota. erewrite bind_Ret by reflexivity.
    cbn [transactionhistory.Config]. fold limit.
    change ([transaction] ++ old) with (transaction :: old).
    assert (Hl : len (transaction :: old) = len old + 1)
      by (unfold len; cbn [List.length]; lia).
    destruct (Z.ltb_spec limit (len (transaction :: old))) as [Hlt|Hge].
    + erewrite bind_Ret.
      2:{ erewrite bind_Ret by reflexivity. unfold transactionhistory.slice_to.
          destruct (Z.ltb_spec limit 0) as [Hneg|_]; [lia|]. reflexivity. }
      eexists _, (take (Z.to_nat limit) (transaction :: old)).
      split; [reflexivity|]. cbn [transactionhistory.txnCache].
      split; [apply lookup_insert_eq|]. split; [reflexivity|].
      split; [|split].
      * unfold len. rewrite length_take. lia.
      * intros H1. replace (Z.to_nat limit) with (S (Z.to_nat limit - 1)) at 1 by lia.
        reflexivity.
      * intros other Hother. now apply lookup_insert_ne.
    + erewrite bind_Ret by reflexivity.
      eexists _, (transaction :: old).
      split; [reflexivity|]. cbn [transactionhistory.txnCache].
      split; [apply lookup_insert_eq|].
      assert (Hn : (List.length (transaction :: old) <= Z.to_nat limit)%nat)
        by (unfold len in Hge; lia).
      split; [now rewrite take_ge|]. split; [lia|]. split.
      * intros _. f_equal. rewrite take_ge; [reflexivity|].
        cbn [List.length] in Hn. lia.
      * intros other Hother. now apply lookup_insert_ne.
  - intros got e i1 Hget.
    unfold transactionhistory.processTransactionForAcct.
    erewrite bind_Ret by reflexivity.
    erewrite bind_Ret.
    2:{ revert Hget. unfold transactionhistory.c_Get.
        cbn [transactionhistory.txnCache transactionhistory.Config transactionhistory.logged].
        destruct (cache !! accountID); [discriminate|].
        destruct (load accountID); [discriminate|]. intros [= <- <- _]. reflexivity. }
    eexists. split; [reflexivity|]. reflexivity.
Qed.

End TransactionCache.

Lemma processTransactionForAcct_cache_witness :
  let i := example.history 2 ["t2"; "t1"]%string in
  transactionhistory.txnCache i !! "1011226111"%string = Some ["t2"; "t1"]%string
  /\ len ["t2"; "t1"]%string
     <= transactionhistory.HistoryLimit (transactionhistory.Config i)
  /\ exists i' cached,
       transactionhistory.processTransactionForAcct example.no_repository
         "1011226111" "t3"%string i = (Ret tt, i')
       /\ transactionhistory.txnCache i' !! "1011226111"%string = Some cached
       /\ cached = ["t3"; "t2"]%string.
Proof.
  cbv zeta.
  assert (Hold : transactionhistory.txnCache (example.history 2 ["t2"; "t1"]%string)
                 !! "1011226111"%string = Some ["t2"; "t1"]%string)
    by apply lookup_singleton_eq.
  assert (Hlen : len ["t2"; "t1"]%string
                 <= transactionhistory.HistoryLimit
                      (transactionhistory.Config (example.history 2 ["t2"; "t1"]%string)))
    by (vm_compute; discriminate).
  split; [exact Hold|]. split; [exact Hlen|].
  destruct (proj1 (processTransactionForAcct_cache example.no_repository
                     (example.history 2 ["t2"; "t1"]%string) "1011226111" "t3"%string
                     ["t2"; "t1"]%string) Hold Hlen)
    as (i' & cached & Hrun & Hcached & Heq & _).
  exists i', cached. split; [exact Hrun|]. split; [exact Hcached|]. exact Heq.
Defined.

(** C10 as stated fails: with a history limit of zero and an empty cached
    list, the call succeeds and the cached list stays empty; it does not
    start with the new transaction. *)
Lemma processTransactionForAcct_cache_counterexample :
  let i := example.history 0 [] in
  transactionhistory.txnCache i !! "1011226111"%string = Some []
  /\ len (@nil string) <= transactionhistory.HistoryLimit (transactionhistory.Config i)
  /\ exists i',
       transactionhistory.processTransactionForAcct example.no_repository
         "1011226111" "t1"%string i = (Ret tt, i')
       /\ transactionhistory.txnCache i' !! "1011226111"%string = Some [].
Proof.
  cbv zeta. split; [apply lookup_singleton_eq|]. split; [vm_compute; discriminate|].
  unfold transactionhistory.processTransactionForAcct.
  erewrite bind_Ret by reflexivity.
  erewrite bind_Ret.
  2:{ unfold transactionhistory.c_Get, example.history.
      cbn [transactionhistory.txnCache]. rewrite lookup_singleton_eq. reflexivity. }
  cbn beta iota. erewrite bind_Ret by reflexivity.
  erewrite bind_Ret by reflexivity.
  eexists. split; [reflexivity|]. cbn [transactionhistory.txnCache].
  apply lookup_insert_eq.
Qed.

(** * Further properties of the generated stubs *)

(** ** Local stubs *)

Section LocalShapeSpec.

Context {Ext : Type} {R : Type}.
Variable name : string.
Variable init : R.
Variable method : Context -> M Ext (R * option error).

Lemma local_call_passes_through ctx w :
  passes_through name method ctx w (local_call name init method ctx w).
Proof.
  unfold passes_through, local_call, local_body, local_ctx, local_events.
  destruct (IsValid (SpanFromContext ctx)); run.
  - destruct (method _ (ext w)) as [[[r [e|]]|f] x']; run;
      cbn [fst snd ext metrics trace app]; rewrite <- ?app_assoc; auto.
  - destruct (method _ (ext w)) as [[[r [e|]]|f] x']; run;
      cbn [fst snd ext metrics trace]; rewrite ?app_nil_r; auto.
Qed.

End LocalShapeSpec.

Section LocalStubs.

Context {Ext : Type}.
Context {money_T : Type} `{AutoMarshal money_T}.

(** X1.  A call through a local stub comes back as the implementation did: with
    the same results, error included, or with the same panic, which the
    stub does not recover; the implementation ran on the context of the
    child span when the caller's span is valid, on the caller's context
    otherwise; the collaborators are left as the implementation left them
    and no metrics are touched.  Under a valid span the trace gains the
    start of the child span, the error recorded on it and its status when
    an error is returned, and its end; otherwise it gains nothing. *)
Theorem local_stub_passes_through
    (cs : currencyservice.t_local_stub) (ps : productcatalogservice.t_local_stub)
    ctx (a0 : money_T) (a1 : string) (w : World Ext) :
  passes_through "currencyservice.T.Convert"
    (fun c => currencyservice.Convert (currencyservice.local_impl cs) c a0 a1) ctx w
    (currencyservice.t_local_stub_Convert cs ctx a0 a1 w)
  /\ passes_through "currencyservice.T.GetSupportedCurrencies"
       (fun c => currencyservice.GetSupportedCurrencies (currencyservice.local_impl cs) c)
       ctx w
       (currencyservice.t_local_stub_GetSupportedCurrencies cs ctx w)
  /\ passes_through "productcatalogservice.T.GetProduct"
       (fun c => productcatalogservice.GetProduct (productcatalogservice.local_impl ps) c a1)
       ctx w
       (productcatalogservice.t_local_stub_GetProduct ps ctx a1 w)
  /\ passes_through "productcatalogservice.T.ListProducts"
       (fun c => productcatalogservice.ListProducts (productcatalogservice.local_impl ps) c)
       ctx w
       (productcatalogservice.t_local_stub_ListProducts ps ctx w)
  /\ passes_through "productcatalogservice.T.SearchProducts"
       (fun c => productcatalogservice.SearchProducts (productcatalogservice.local_impl ps)
                   c a1)
       ctx w
       (productcatalogservice.t_local_stub_SearchProducts ps ctx a1 w).
Proof.
  split; [|split; [|split; [|split]]].
  - apply (local_call_passes_through "currencyservice.T.Convert" zero
             (fun c => currencyservice.Convert (currencyservice.local_impl cs) c a0 a1)).
  - apply (local_call_passes_through "currencyservice.T.GetSupportedCurrencies" None
             (fun c => currencyservice.GetSupportedCurrencies
                         (currencyservice.local_impl cs) c)).
  - apply (local_call_passes_through "productcatalogservice.T.GetProduct"
             (zero : productcatalogservice.Product)
             (fun c => productcatalogservice.GetProduct
                         (productcatalogservice.local_impl ps) c a1)).
  - apply (local_call_passes_through "productcatalogservice.T.ListProducts" None
             (fun c => productcatalogservice.ListProducts
                         (productcatalogservice.local_impl ps) c)).
  - apply (local_call_passes_through "productcatalogservice.T.SearchProducts" None
             (fun c => productcatalogservice.SearchProducts
                         (productcatalogservice.local_impl ps) c a1)).
Qed.

(** X2.  A local stub does not recover a panic of the implementation: the call
    panics with the same value and the collaborators are left as the
    implementation left them.  When the stub had started a child span it
    still ends it, and records no error on it. *)
Theorem local_stub_propagates_panic
    (cs : currencyservice.t_local_stub) (ps : productcatalogservice.t_local_stub)
    ctx (a0 : money_T) (a1 : string) (w : World Ext) f x' :
  (currencyservice.Convert (currencyservice.local_impl cs)
     (local_ctx "currencyservice.T.Convert" ctx) a0 a1 (ext w) = (Panicked f, x') ->
   exists w',
     currencyservice.t_local_stub_Convert cs ctx a0 a1 w = (Panicked f, w')
     /\ ext w' = x'
     /\ metrics w' = metrics w
     /\ trace w'
        = trace w
          ++ (if IsValid (SpanFromContext ctx)
              then [evStart "currencyservice.T.Convert" SpanKindInternal;
                    evEnd (started "currencyservice.T.Convert" SpanKindInternal)]
              else []))
  /\
  (productcatalogservice.GetProduct (productcatalogservice.local_impl ps)
     (local_ctx "productcatalogservice.T.GetProduct" ctx) a1 (ext w) = (Panicked f, x') ->
   exists w',
     productcatalogservice.t_local_stub_GetProduct ps ctx a1 w = (Panicked f, w')
     /\ ext w' = x'
     /\ metrics w' = metrics w
     /\ trace w'
        = trace w
          ++ (if IsValid (SpanFromContext ctx)
              then [evStart "productcatalogservice.T.GetProduct" SpanKindInternal;
                    evEnd (started "productcatalogservice.T.GetProduct" SpanKindInternal)]
              else [])).
Proof.
  split; intros Himpl.
  - destruct (local_call_passes_through "currencyservice.T.Convert" zero
                (fun c => currencyservice.Convert (currencyservice.local_impl cs) c a0 a1)
                ctx w) as (Hres & Hext & Hm & Htr).
    change (local_call _ _ _ ctx w)
      with (currencyservice.t_local_stub_Convert cs ctx a0 a1 w) in *.
    rewrite Himpl in Hres, Hext, Htr. cbn [fst snd] in Hres, Hext, Htr.
    destruct (currencyservice.t_local_stub_Convert cs ctx a0 a1 w) as [r w'].
    cbn [fst snd] in *. subst r. exists w'. repeat split; assumption.
  - destruct (local_call_passes_through "productcatalogservice.T.GetProduct"
                (zero : productcatalogservice.Product)
                (fun c => productcatalogservice.GetProduct
                            (productcatalogservice.local_impl ps) c a1)
                ctx w) as (Hres & Hext & Hm & Htr).
    change (local_call _ _ _ ctx w)
      with (productcatalogservice.t_local_stub_GetProduct ps ctx a1 w) in *.
    rewrite Himpl in Hres, Hext, Htr. cbn [fst snd] in Hres, Hext, Htr.
    destruct (productcatalogservice.t_local_stub_GetProduct ps ctx a1 w) as [r w'].
    cbn [fst snd] in *. subst r. exists w'. repeat split; assumption.
Qed.

End LocalStubs.

Lemma local_stub_propagates_panic_witness :
  exists w',
    currencyservice.t_local_stub_Convert
      (currencyservice.mk_local_stub example.currency_impl) example.traced
      (example.mkMoney "USD") "XXX" example.quiet
    = (Panicked (Fault "runtime error: index out of range"), w')
    /\ trace w'
       = [evStart "currencyservice.T.Convert" SpanKindInternal;
          evEnd (started "currencyservice.T.Convert" SpanKindInternal)].
Proof.
  destruct (proj1 (local_stub_propagates_panic
                     (currencyservice.mk_local_stub example.currency_impl)
                     (productcatalogservice.mk_local_stub example.catalog_impl)
                     example.traced (example.mkMoney "USD") "XXX"%string example.quiet
                     (Fault "runtime error: index out of range") 0%nat)
              eq_refl) as (w' & Hcall & _ & _ & Htr).
  exists w'. split; [exact Hcall | exact Htr].
Defined.

(** ** Sequences of records *)

Section ProductsCodec.

Context {money_T : Type} `{Lawful money_T}.

#[local] Abbreviation Product := (@productcatalogservice.Product money_T).

Lemma writes_enc_Products (l : list Product) :
  Forall fits_Product l ->
  writes (productcatalogservice.enc_Products l) (concat (map wire_Product l)).
Proof.
  induction 1 as [|x l Hx _ IH].
  - apply writes_ret.
  - change (concat (map wire_Product (x :: l)))
      with (wire_Product x ++ concat (map wire_Product l)).
    change (productcatalogservice.enc_Products (x :: l))
      with (WeaverMarshal x ;; productcatalogservice.enc_Products l).
    apply writes_bind; [|exact IH].
    exact (marshal_writes (T := Product) x Hx).
Qed.

Lemma enc_Products_Ret (l : list Product) : forall e e',
  productcatalogservice.enc_Products l e = (Ret tt, e') -> Forall fits_Product l.
Proof.
  induction l as [|x l IH]; intros e e' E; [constructor|].
  apply bind_Ret_inv in E as ([] & e1 & Ex & El).
  constructor; [|eapply IH; eassumption].
  exact (marshal_fits (T := Product) x e e1 Ex).
Qed.

Lemma writes_enc_slice_Product (v : option (list Product)) :
  fits_Products v ->
  writes (productcatalogservice.serviceweaver_enc_slice_Product_3e9d9e07 v)
         (wire_Products v).
Proof.
  destruct v as [l|];
    unfold productcatalogservice.serviceweaver_enc_slice_Product_3e9d9e07,
      wire_Products, fits_Products.
  - intros [Hl Hall]. apply writes_bind.
    + apply writes_enc_Len. pose proof (len_nonneg l). lia.
    + now apply writes_enc_Products.
  - intros _. now apply writes_enc_Len.
Qed.

Lemma enc_slice_Product_Ret (v : option (list Product)) e e' :
  productcatalogservice.serviceweaver_enc_slice_Product_3e9d9e07 v e = (Ret tt, e') ->
  fits_Products v.
Proof.
  destruct v as [l|]; [|intros _; exact I].
  intros E. apply bind_Ret_inv in E as ([] & e1 & El & Es).
  split; [apply enc_Len_Ret in El; lia | eapply enc_Products_Ret; eassumption].
Qed.

Lemma dec_Products_reads (l : list Product) :
  Forall fits_Product l ->
  forall pre mid post tl, List.length mid = List.length l ->
    productcatalogservice.dec_Products (List.length l) (List.length pre)
      (pre ++ mid ++ post, NewDecoder (concat (map wire_Product l) ++ tl))
    = (Ret tt, (pre ++ l ++ post, NewDecoder tl)).
Proof.
  induction 1 as [|x l Hx _ IH]; intros pre mid post tl Hlen.
  - destruct mid; [|discriminate]. reflexivity.
  - destruct mid as [|m mid]; [discriminate|]. injection Hlen as Hlen.
    change (concat (map wire_Product (x :: l)))
      with (wire_Product x ++ concat (map wire_Product l)).
    rewrite <- app_assoc.
    cbn [List.length productcatalogservice.dec_Products].
    pose proof (unmarshal_reads (T := Product) x) as U.
    erewrite bind_Ret.
    2:{ unfold zoom. cbn [fst snd]. rewrite U by exact Hx. reflexivity. }
    cbn [fst snd].
    replace (<[List.length pre := x]> (pre ++ (m :: mid) ++ post))
      with ((pre ++ [x]) ++ mid ++ post).
    2:{ rewrite <- (Nat.add_0_r (List.length pre)) at 1.
        rewrite insert_app_r. simpl. now rewrite <- app_assoc. }
    replace (S (List.length pre)) with (List.length (pre ++ [x]))
      by (rewrite length_app; simpl; lia).
    replace (pre ++ (x :: l) ++ post) with ((pre ++ [x]) ++ l ++ post)
      by now rewrite <- app_assoc.
    now apply IH.
Qed.

Lemma reads_dec_slice_Product (v : option (list Product)) :
  fits_Products v ->
  reads productcatalogservice.serviceweaver_dec_slice_Product_3e9d9e07 (wire_Products v) v.
Proof.
  unfold productcatalogservice.serviceweaver_dec_slice_Product_3e9d9e07.
  destruct v as [l|]; unfold wire_Products, fits_Products.
  - intros [Hl Hall]. pose proof (len_nonneg l) as Hlen. unfold MaxInt32 in Hl.
    eapply reads_bind; [apply reads_dec_Len; lia|].
    destruct (Z.eqb_spec (len l) (-1)); [lia|].
    unfold make. destruct (Z.ltb_spec (len l) 0); [lia|].
    intros tl. unfold bind, ret. unfold len. rewrite Nat2Z.id.
    pose proof (dec_Products_reads l Hall []
                  (replicate (List.length l) productcatalogservice.Product_zero) [] tl) as R.
    cbn [List.length app] in R. rewrite !app_nil_r in R.
    rewrite R by apply length_replicate. reflexivity.
  - intros _. rewrite <- (app_nil_r (bytes_Int32 (-1))).
    eapply reads_bind; [apply reads_dec_Len; lia|]. apply reads_ret.
Qed.

(** X3.  Round trip of a sequence of records.  Encoding returns when the
    header can hold the length and every record fits the wire format.
    Whenever it returns, what it wrote is the length header ([-1] for
    nil, [0] for the empty sequence, [n] otherwise) followed by the
    records in order, and decoding those bytes gives the same sequence
    back, nil as nil and empty as empty, with nothing left unread. *)
Theorem slice_Product_roundtrip (v : option (list Product)) :
  (fits_Products v ->
   exists enc,
     productcatalogservice.serviceweaver_enc_slice_Product_3e9d9e07 v NewEncoder
     = (Ret tt, enc))
  /\
  (forall enc,
     productcatalogservice.serviceweaver_enc_slice_Product_3e9d9e07 v NewEncoder
     = (Ret tt, enc) ->
     Data enc = wire_Products v
     /\ productcatalogservice.serviceweaver_dec_slice_Product_3e9d9e07
          (NewDecoder (Data enc))
        = (Ret v, NewDecoder [])).
Proof.
  split.
  - intros Hv. eexists. apply (writes_enc_slice_Product v Hv NewEncoder).
  - intros enc E. pose proof (enc_slice_Product_Ret _ _ _ E) as Hv.
    rewrite (writes_enc_slice_Product v Hv NewEncoder) in E. injection E as <-.
    split; [reflexivity|]. cbn [Data app].
    rewrite <- (app_nil_r (wire_Products v)).
    now apply reads_dec_slice_Product.
Qed.

(** X4.  The generated codecs compose: sequences written one after the other
    into one buffer are read back in the same order, each decoder
    consuming exactly the bytes its encoder wrote, and whatever follows
    them in the buffer is left unread. *)
Theorem slice_codecs_compose (v1 v2 : option (list string))
    (ps : option (list Product)) (tl : list byte) enc :
  (serviceweaver_enc_slice_string_4af10117 v1 ;;
   productcatalogservice.serviceweaver_enc_slice_Product_3e9d9e07 ps ;;
   serviceweaver_enc_slice_string_4af10117 v2) NewEncoder = (Ret tt, enc) ->
  (a <- serviceweaver_dec_slice_string_4af10117 ;;
   p <- productcatalogservice.serviceweaver_dec_slice_Product_3e9d9e07 ;;
   b <- serviceweaver_dec_slice_string_4af10117 ;;
   ret (a, p, b)) (NewDecoder (Data enc ++ tl))
  = (Ret (v1, ps, v2), NewDecoder tl).
Proof.
  intros E.
  apply bind_Ret_inv in E as ([] & e1 & E1 & E).
  apply bind_Ret_inv in E as ([] & e2 & E2 & E3).
  pose proof (enc_slice_string_Ret _ _ _ E1) as H1.
  pose proof (enc_slice_Product_Ret _ _ _ E2) as H2.
  pose proof (enc_slice_string_Ret _ _ _ E3) as H3.
  rewrite (writes_enc_slice_string v1 H1) in E1. injection E1 as <-.
  rewrite (writes_enc_slice_Product ps H2) in E2. injection E2 as <-.
  rewrite (writes_enc_slice_string v2 H3) in E3. injection E3 as <-.
  cbn [Data app]. rewrite <- !app_assoc.
  erewrite bind_Ret by (apply reads_dec_slice_string; assumption).
  erewrite bind_Ret by (apply reads_dec_slice_Product; assumption).
  erewrite bind_Ret by (apply reads_dec_slice_string; assumption).
  reflexivity.
Qed.

(** X5.  A length header below [-1] makes the generated decoders panic, in
    [make], once the header is read; they return no sequence for it. *)
Theorem dec_slice_negative_header (n : Z) (tl : list byte) :
  - 2 ^ 31 <= n < -1 ->
  serviceweaver_dec_slice_string_4af10117 (NewDecoder (bytes_Int32 n ++ tl))
  = (Panicked (Fault "makeslice: len out of range"), NewDecoder tl)
  /\ productcatalogservice.serviceweaver_dec_slice_Product_3e9d9e07 (money_T := money_T)
       (NewDecoder (bytes_Int32 n ++ tl))
     = (Panicked (Fault "makeslice: len out of range"), NewDecoder tl).
Proof.
  intros Hn.
  assert (Hlen : dec_Len (NewDecoder (bytes_Int32 n ++ tl)) = (Ret n, NewDecoder tl))
    by (apply reads_dec_Len; lia).
  unfold serviceweaver_dec_slice_string_4af10117,
    productcatalogservice.serviceweaver_dec_slice_Product_3e9d9e07.
  split.
  - erewrite bind_Ret by exact Hlen.
    destruct (Z.eqb_spec n (-1)); [lia|].
    unfold make, bind, panic. destruct (Z.ltb_spec n 0); [reflexivity | lia].
  - erewrite bind_Ret by exact Hlen.
    destruct (Z.eqb_spec n (-1)); [lia|].
    unfold make, bind, panic. destruct (Z.ltb_spec n 0); [reflexivity | lia].
Qed.

End ProductsCodec.

Lemma a_products_fit : fits_Products (Some [example.a_product; example.a_product]).
Proof.
  split; [vm_compute; discriminate|].
  repeat constructor; apply a_product_fits.
Qed.

Lemma slice_Product_roundtrip_witness :
  fits_Products (Some [example.a_product; example.a_product])
  /\ exists enc,
       productcatalogservice.serviceweaver_enc_slice_Product_3e9d9e07
         (Some [example.a_product; example.a_product]) NewEncoder = (Ret tt, enc)
       /\ productcatalogservice.serviceweaver_dec_slice_Product_3e9d9e07
            (NewDecoder (Data enc))
          = (Ret (Some [example.a_product; example.a_product]), NewDecoder []).
Proof.
  split; [exact a_products_fit|].
  destruct (proj1 (slice_Product_roundtrip (Some [example.a_product; example.a_product]))
              a_products_fit) as [enc E].
  exists enc. split; [exact E|].
  exact (proj2 (proj2 (slice_Product_roundtrip
                         (Some [example.a_product; example.a_product])) enc E)).
Defined.

Lemma slice_codecs_compose_witness :
  exists enc,
    (serviceweaver_enc_slice_string_4af10117 (Some []) ;;
     productcatalogservice.serviceweaver_enc_slice_Product_3e9d9e07
       (Some [example.a_product]) ;;
     serviceweaver_enc_slice_string_4af10117 None) NewEncoder = (Ret tt, enc)
    /\ (a <- serviceweaver_dec_slice_string_4af10117 ;;
        p <- productcatalogservice.serviceweaver_dec_slice_Product_3e9d9e07 ;;
        b <- serviceweaver_dec_slice_string_4af10117 ;;
        ret (a, p, b)) (NewDecoder (Data enc ++ [x2a]))
       = (Ret (Some [], Some [example.a_product], None), NewDecoder [x2a]).
Proof.
  eexists. split; [vm_compute; reflexivity|].
  apply (slice_codecs_compose (Some []) None (Some [example.a_product]) [x2a]).
  vm_compute; reflexivity.
Defined.

Lemma dec_slice_negative_header_witness :
  serviceweaver_dec_slice_string_4af10117 (NewDecoder (bytes_Int32 (-2) ++ [x2a]))
  = (Panicked (Fault "makeslice: len out of range"), NewDecoder [x2a]).
Proof.
  refine (proj1 (dec_slice_negative_header (money_T := example.money) (-2) [x2a] _)).
  lia.
Defined.

(** ** Client stubs: the other methods *)

Section MoreClientStubs.

Context {Ext : Type} (clock : Ext -> Z).
Context {money_T : Type} `{AutoMarshal money_T}.

Lemma SearchProducts_shape (s : productcatalogservice.t_client_stub) ctx a0 w :
  productcatalogservice.t_client_stub_SearchProducts clock s ctx a0 w
  = client_call clock (productcatalogservice.searchProductsMetrics s)
      "productcatalogservice.T.SearchProducts" (productcatalogservice.stub s) 2 None
      (encoded (productcatalogservice.enc_Reset (0 + (4 + len_string a0)) ;; enc_String a0))
      (v <- on_dec productcatalogservice.serviceweaver_dec_slice_Product_3e9d9e07 ;;
       set_r0 v) ctx w.
Proof.
  unfold productcatalogservice.t_client_stub_SearchProducts,
    productcatalogservice.t_client_stub_SearchProducts_body.
  calm. apply bind_congr. intros [ctx' span] w'. apply func_ext.
  generalize (productcatalogservice.enc_Reset (0 + (4 + len_string a0)) ;; enc_String a0).
  intros m. unfold client_body, encode, encoded.
  generalize productcatalogservice.serviceweaver_dec_slice_Product_3e9d9e07. intros md.
  destruct (m NewEncoder) as [[[]|f] enc]; run; [|reflexivity].
  destruct (Run _ _ _ _ _ _) as [[[results [e|]]|f] x']; run; try reflexivity.
  destruct (md _) as [[v|f] d]; run; reflexivity.
Qed.

(** X6.  When the transport returns an error, the client-stub methods
    [GetSupportedCurrencies], [ListProducts] and [SearchProducts] return a
    nil sequence together with an error that wraps the sentinel
    [weaver.RemoteCallError] and the error of the transport; the error
    counter goes up by one, the span is ended, once, as the last event, and
    the latency is recorded. *)
Theorem client_stub_transport_failure_sequences
    (cs : currencyservice.t_client_stub) (ps : productcatalogservice.t_client_stub)
    ctx (a0 : string) (w : World Ext) data results e x' :
  (Run (currencyservice.stub cs) (call_ctx "currencyservice.T.GetSupportedCurrencies" ctx)
     1 [] 0 (ext w)
   = (Ret (results, Some e), x') ->
   transport_failure clock (currencyservice.getSupportedCurrenciesMetrics cs)
     (call_span "currencyservice.T.GetSupportedCurrencies" ctx) None e w x'
     (currencyservice.t_client_stub_GetSupportedCurrencies clock cs ctx w))
  /\
  (Run (productcatalogservice.stub ps) (call_ctx "productcatalogservice.T.ListProducts" ctx)
     1 [] 0 (ext w)
   = (Ret (results, Some e), x') ->
   transport_failure clock (productcatalogservice.listProductsMetrics ps)
     (call_span "productcatalogservice.T.ListProducts" ctx) None e w x'
     (productcatalogservice.t_client_stub_ListProducts clock ps ctx w))
  /\
  (encoded (productcatalogservice.enc_Reset (0 + (4 + len_string a0)) ;; enc_String a0)
   = Ret data ->
   Run (productcatalogservice.stub ps)
     (call_ctx "productcatalogservice.T.SearchProducts" ctx) 2 data 0 (ext w)
   = (Ret (results, Some e), x') ->
   transport_failure clock (productcatalogservice.searchProductsMetrics ps)
     (call_span "productcatalogservice.T.SearchProducts" ctx) None e w x'
     (productcatalogservice.t_client_stub_SearchProducts clock ps ctx a0 w)).
Proof.
  split; [|split].
  - intros HRun. rewrite GetSupportedCurrencies_shape.
    eapply client_call_transport_failure; eauto using @read_r0_keeps_err.
  - intros HRun. rewrite ListProducts_shape.
    eapply client_call_transport_failure; eauto using @read_r0_keeps_err.
  - intros Hargs HRun. rewrite SearchProducts_shape.
    eapply client_call_transport_failure; eauto using @read_r0_keeps_err.
Qed.

(** X7.  [GetSupportedCurrencies], [ListProducts] and [SearchProducts] of the
    client stubs always return: no panic leaves them.  A panic of the
    transport call, or one raised while the results are decoded, is turned
    by the deferred function into an error that wraps the sentinel
    [weaver.RemoteCallError], and the call returns that error. *)
Theorem client_stub_recovers_faults_sequences
    (cs : currencyservice.t_client_stub) (ps : productcatalogservice.t_client_stub)
    ctx (a0 : string) (w : World Ext) :
  (let call := currencyservice.t_client_stub_GetSupportedCurrencies clock cs ctx w in
   let run :=
     Run (currencyservice.stub cs)
       (call_ctx "currencyservice.T.GetSupportedCurrencies" ctx) 1 in
   returns call
   /\ (forall f x', run [] 0 (ext w) = (Panicked f, x') -> fault_recovered f call)
   /\ (forall results x' f d,
         run [] 0 (ext w) = (Ret (results, None), x') ->
         serviceweaver_dec_slice_string_4af10117 (NewDecoder results) = (Panicked f, d) ->
         fault_recovered f call))
  /\
  (let call := productcatalogservice.t_client_stub_ListProducts clock ps ctx w in
   let run :=
     Run (productcatalogservice.stub ps)
       (call_ctx "productcatalogservice.T.ListProducts" ctx) 1 in
   returns call
   /\ (forall f x', run [] 0 (ext w) = (Panicked f, x') -> fault_recovered f call)
   /\ (forall results x' f d,
         run [] 0 (ext w) = (Ret (results, None), x') ->
         productcatalogservice.serviceweaver_dec_slice_Product_3e9d9e07 (NewDecoder results)
         = (Panicked f, d) ->
         fault_recovered f call))
  /\
  (let call := productcatalogservice.t_client_stub_SearchProducts clock ps ctx a0 w in
   let args :=
     encoded (productcatalogservice.enc_Reset (0 + (4 + len_string a0)) ;; enc_String a0) in
   let run :=
     Run (productcatalogservice.stub ps)
       (call_ctx "productcatalogservice.T.SearchProducts" ctx) 2 in
   returns call
   /\ (forall f, args = Panicked f -> fault_recovered f call)
   /\ (forall data f x',
         args = Ret data -> run data 0 (ext w) = (Panicked f, x') ->
         fault_recovered f call)
   /\ (forall data results x' f d,
         args = Ret data -> run data 0 (ext w) = (Ret (results, None), x') ->
         productcatalogservice.serviceweaver_dec_slice_Product_3e9d9e07 (NewDecoder results)
         = (Panicked f, d) ->
         fault_recovered f call)).
Proof.
  split; [|split]; cbv zeta.
  - rewrite GetSupportedCurrencies_shape. repeat split.
    + apply client_call_returns, @read_r0_keeps_err.
    + intros f x' HRun.
      eapply client_call_transport_fault; eauto using @read_r0_keeps_err.
    + intros results x' f d HRun Hdec.
      eapply client_call_decode_fault; eauto using @read_r0_keeps_err.
      unfold bind, on_dec, zoom. cbn [dec]. rewrite Hdec. reflexivity.
  - rewrite ListProducts_shape. repeat split.
    + apply client_call_returns, @read_r0_keeps_err.
    + intros f x' HRun.
      eapply client_call_transport_fault; eauto using @read_r0_keeps_err.
    + intros results x' f d HRun Hdec.
      eapply client_call_decode_fault; eauto using @read_r0_keeps_err.
      unfold bind, on_dec, zoom. cbn [dec]. rewrite Hdec. reflexivity.
  - rewrite SearchProducts_shape. repeat split.
    + apply client_call_returns, @read_r0_keeps_err.
    + intros f Hargs.
      eapply client_call_encode_fault; eauto using @read_r0_keeps_err.
    + intros data f x' Hargs HRun.
      eapply client_call_transport_fault; eauto using @read_r0_keeps_err.
    + intros data results x' f d Hargs HRun Hdec.
      eapply client_call_decode_fault; eauto using @read_r0_keeps_err.
      unfold bind, on_dec, zoom. cbn [dec]. rewrite Hdec. reflexivity.
Qed.

End MoreClientStubs.

Lemma client_stub_transport_failure_sequences_witness :
  Run example.refusing (call_ctx "productcatalogservice.T.ListProducts" example.traced) 1
    [] 0 (ext example.quiet)
  = (Ret ([], Some (errorString "connection refused")), 1%nat)
  /\ transport_failure example.clock
       (productcatalogservice.listProductsMetrics (example.catalog_client example.refusing))
       (call_span "productcatalogservice.T.ListProducts" example.traced) None
       (errorString "connection refused") example.quiet 1%nat
       (productcatalogservice.t_client_stub_ListProducts example.clock
          (example.catalog_client example.refusing) example.traced example.quiet).
Proof.
  split; [vm_compute; reflexivity|].
  apply (proj1 (proj2 (client_stub_transport_failure_sequences example.clock
                         (example.currency_client example.refusing)
                         (example.catalog_client example.refusing)
                         example.traced "sun" example.quiet [] []
                         (errorString "connection refused") 1%nat))).
  vm_compute; reflexivity.
Defined.

Lemma client_stub_recovers_faults_sequences_witness :
  Run example.crashing (call_ctx "currencyservice.T.GetSupportedCurrencies" example.traced)
    1 [] 0 (ext example.quiet)
  = (Panicked (Fault "transport: nil connection"), 1%nat)
  /\ fault_recovered (Fault "transport: nil connection")
       (currencyservice.t_client_stub_GetSupportedCurrencies example.clock
          (example.currency_client example.crashing) example.traced example.quiet).
Proof.
  split; [vm_compute; reflexivity|].
  refine (proj1 (proj2 (proj1
            (client_stub_recovers_faults_sequences example.clock
               (example.currency_client example.crashing)
               (example.catalog_client example.crashing)
               example.traced "sun" example.quiet)))
            (Fault "transport: nil connection") 1%nat _).
  vm_compute; reflexivity.
Defined.

(** ** A call that gets a reply *)

Section ShapeReply.

Context {Ext : Type} (clock : Ext -> Z) {R : Type}.
Variable methodMetrics : MethodLabels.
Variable name : string.
Variable stub : Stub Ext.
Variable method : Z.
Variable init : R.
Variable args : Res (list byte).
Variable decode_results : M (Named R) unit.

Hypothesis decode_keeps_err :
  forall n r n', decode_results n = (r, n') -> err n' = err n.

#[local] Abbreviation call :=
  (client_call clock methodMetrics name stub method init args decode_results).

Lemma client_call_reply ctx w data results x' n e d :
  args = Ret data ->
  Run stub (call_ctx name ctx) method data 0 (ext w) = (Ret (results, None), x') ->
  decode_results (mkNamed init None (NewDecoder results)) = (Ret tt, n) ->
  dec_Error (dec n) = (Ret e, d) ->
  returned clock methodMetrics w (r0 n, e) x'
    (call_starts name ctx ++ [evRun method data 0 false] ++ call_ends name ctx e)
    (is_error e) [len data] [len results] (call ctx w).
Proof using decode_keeps_err.
  intros Hargs HRun Hdec Herr.
  pose proof (client_call_spec clock methodMetrics name stub method init args
                decode_results decode_keeps_err ctx w) as S.
  unfold client_spec in S. rewrite Hargs in S |- *. rewrite HRun, Hdec, Herr in S.
  exact S.
Qed.

(** A call changes the metrics of its own method only. *)
Lemma client_call_other_metrics ctx w q :
  q <> methodMetrics -> metrics (snd (call ctx w)) q = metrics w q.
Proof using decode_keeps_err.
  intros Hq.
  pose proof (client_call_spec clock methodMetrics name stub method init args
                decode_results decode_keeps_err ctx w) as S.
  unfold client_spec, returned in S.
  destruct args as [data|f];
    [|destruct S as (w' & -> & _ & _ & Ho & _); now apply Ho].
  destruct (Run stub _ method data 0 (ext w)) as [[[results [e|]]|f] x'];
    try (destruct S as (w' & -> & _ & _ & Ho & _); now apply Ho).
  destruct (decode_results _) as [[[]|f] n];
    try (destruct S as (w' & -> & _ & _ & Ho & _); now apply Ho).
  destruct (dec_Error (dec n)) as [[e|f] d]; cbn [fst] in S; [|contradiction].
  destruct S as (w' & -> & _ & _ & Ho & _); now apply Ho.
Qed.

End ShapeReply.

(** ** Reading back what the other side wrote *)

Lemma reads_dec_Error (appErr : option error) :
  fits_error appErr -> reads dec_Error (bytes_Error appErr) (received appErr).
Proof.
  destruct appErr as [e|]; intros Hfit tl; unfold dec_Error, bytes_Error, received.
  - change ((x01 :: bytes_String (Error e)) ++ tl)
      with ([x01] ++ bytes_String (Error e) ++ tl).
    erewrite bind_Ret by (apply (Read_app 1 [x01]); reflexivity).
    cbn match. change (Z_of_byte x01 =? 0) with false. cbn match.
    erewrite bind_Ret by (apply reads_dec_String; exact Hfit).
    reflexivity.
  - erewrite bind_Ret by (apply (Read_app 1 [x00]); reflexivity).
    reflexivity.
Qed.

(** ** Client stubs: which metrics a call touches *)

Section MetricsIsolation.

Context {Ext : Type} (clock : Ext -> Z).
Context {money_T : Type} `{AutoMarshal money_T}.

(** X8.  A call through a method of a client stub changes the metrics of that
    method only: those kept under any other labels are as they were.  And
    the stubs that [ClientStubFn] makes keep the metrics of their methods
    under labels that differ from one method to the other, from one
    component to the other and from one caller to the other. *)
Theorem client_stub_metrics_isolated
    (cs : currencyservice.t_client_stub) (ps : productcatalogservice.t_client_stub)
    (stub : Stub Ext) (caller caller' : string)
    ctx (a0 : money_T) (a1 : string) (w : World Ext) (q : MethodLabels) :
  (q <> currencyservice.convertMetrics cs ->
   metrics (snd (currencyservice.t_client_stub_Convert clock cs ctx a0 a1 w)) q
   = metrics w q)
  /\ (q <> currencyservice.getSupportedCurrenciesMetrics cs ->
      metrics (snd (currencyservice.t_client_stub_GetSupportedCurrencies clock cs ctx w)) q
      = metrics w q)
  /\ (q <> productcatalogservice.getProductMetrics ps ->
      metrics (snd (productcatalogservice.t_client_stub_GetProduct clock ps ctx a1 w)) q
      = metrics w q)
  /\ (q <> productcatalogservice.listProductsMetrics ps ->
      metrics (snd (productcatalogservice.t_client_stub_ListProducts clock ps ctx w)) q
      = metrics w q)
  /\ (q <> productcatalogservice.searchProductsMetrics ps ->
      metrics (snd (productcatalogservice.t_client_stub_SearchProducts clock ps ctx a1 w)) q
      = metrics w q)
  /\ NoDup
       [currencyservice.convertMetrics (currencyservice.ClientStubFn stub caller);
        currencyservice.getSupportedCurrenciesMetrics
          (currencyservice.ClientStubFn stub caller);
        productcatalogservice.getProductMetrics
          (productcatalogservice.ClientStubFn stub caller);
        productcatalogservice.listProductsMetrics
          (productcatalogservice.ClientStubFn stub caller);
        productcatalogservice.searchProductsMetrics
          (productcatalogservice.ClientStubFn stub caller)]
  /\ (caller <> caller' ->
      currencyservice.convertMetrics (currencyservice.ClientStubFn stub caller)
      <> currencyservice.convertMetrics (currencyservice.ClientStubFn stub caller')
      /\ productcatalogservice.getProductMetrics
           (productcatalogservice.ClientStubFn stub caller)
         <> productcatalogservice.getProductMetrics
              (productcatalogservice.ClientStubFn stub caller')).
Proof.
  split; [|split; [|split; [|split; [|split; [|split]]]]].
  - intros Hq. rewrite Convert_shape.
    now apply client_call_other_metrics; [apply @unmarshal_r0_keeps_err|].
  - intros Hq. rewrite GetSupportedCurrencies_shape.
    now apply client_call_other_metrics; [apply @read_r0_keeps_err|].
  - intros Hq. rewrite GetProduct_shape.
    now apply client_call_other_metrics; [apply @unmarshal_r0_keeps_err|].
  - intros Hq. rewrite ListProducts_shape.
    now apply client_call_other_metrics; [apply @read_r0_keeps_err|].
  - intros Hq. rewrite SearchProducts_shape.
    now apply client_call_other_metrics; [apply @read_r0_keeps_err|].
  - cbn [currencyservice.ClientStubFn productcatalogservice.ClientStubFn
           currencyservice.convertMetrics currencyservice.getSupportedCurrenciesMetrics
           productcatalogservice.getProductMetrics productcatalogservice.listProductsMetrics
           productcatalogservice.searchProductsMetrics].
    unfold MethodMetricsFor.
    repeat (apply NoDup_cons_2;
            [intros Hin;
             repeat (apply elem_of_cons in Hin as [Hin|Hin]; [discriminate Hin|]);
             now apply elem_of_nil in Hin|]).
    apply NoDup_nil_2.
  - intros Hc. split; intros E; apply Hc; now injection E.
Qed.

End MetricsIsolation.

Lemma client_stub_metrics_isolated_witness :
  let cs := example.currency_client example.refusing in
  currencyservice.getSupportedCurrenciesMetrics cs <> currencyservice.convertMetrics cs
  /\ metrics (snd (currencyservice.t_client_stub_Convert example.clock cs example.traced
                     (example.mkMoney "USD") "EUR" example.quiet))
       (currencyservice.getSupportedCurrenciesMetrics cs)
     = metrics example.quiet (currencyservice.getSupportedCurrenciesMetrics cs).
Proof.
  cbv zeta.
  assert (Hq : currencyservice.getSupportedCurrenciesMetrics
                 (example.currency_client example.refusing)
               <> currencyservice.convertMetrics (example.currency_client example.refusing))
    by (vm_compute; discriminate).
  split; [exact Hq|].
  exact (proj1 (client_stub_metrics_isolated example.clock
                  (example.currency_client example.refusing)
                  (example.catalog_client example.refusing)
                  example.refusing "frontend" "checkout"
                  example.traced (example.mkMoney "USD") "EUR" example.quiet
                  (currencyservice.getSupportedCurrenciesMetrics
                     (example.currency_client example.refusing))) Hq).
Defined.

(** ** A client stub in front of a server stub *)

Section Serving.

Context {Ext : Type}.
Context {money_T : Type} `{Lawful money_T}.

#[local] Abbreviation Product := (@productcatalogservice.Product money_T).

Lemma unmarshal_var_reads {T} `{Lawful T} (a : T) :
  fits a -> reads unmarshal_var (wire a) a.
Proof.
  intros Ha tl. unfold unmarshal_var. now rewrite unmarshal_reads.
Qed.

Lemma reads_nil {A} (d : Dec A) bs v :
  reads d bs v -> d (NewDecoder bs) = (Ret v, NewDecoder []).
Proof. intros R. rewrite <- (app_nil_r bs) at 1. apply R. Qed.

(** The handlers on the arguments a client stub encodes, when the
    implementation returns. *)
Lemma convert_serves (s : currencyservice.t_server_stub) ctx (x x' : Ext)
    (a0 r : money_T) (a1 : string) appErr :
  fits a0 -> fits_string a1 -> fits r -> fits_error appErr ->
  currencyservice.Convert (currencyservice.impl s) ctx a0 a1 x = (Ret (r, appErr), x') ->
  currencyservice.t_server_stub_convert s ctx (wire a0 ++ bytes_String a1) x
  = (Ret (wire r ++ bytes_Error appErr, None), x').
Proof.
  intros Ha0 Ha1 Hr Herr Himpl.
  rewrite <- (reply_encoded (WeaverMarshal r) appErr (wire r) x' Herr
                (encoded_writes _ _ (marshal_writes r Hr))).
  assert (Hdec : (a0' <- unmarshal_var ;; a1' <- dec_String ;; ret (a0', a1'))
                   (NewDecoder (wire a0 ++ bytes_String a1))
                 = (Ret (a0, a1), NewDecoder [])).
  { erewrite bind_Ret by (apply unmarshal_var_reads; exact Ha0).
    erewrite bind_Ret by (apply reads_nil, reads_dec_String; exact Ha1).
    reflexivity. }
  unfold currencyservice.t_server_stub_convert,
    currencyservice.t_server_stub_convert_body.
  revert Hdec.
  generalize (a0' <- unmarshal_var ;; a1' <- dec_String ;; ret (a0', a1')).
  intros mdec Hdec.
  run. rewrite Hdec. run. rewrite Himpl. reflexivity.
Qed.

Lemma getSupportedCurrencies_serves
    (s : currencyservice.t_server_stub (money_T := money_T) (Ext := Ext)) ctx args
    (x x' : Ext) (r : option (list string)) appErr :
  fits_strings r -> fits_error appErr ->
  currencyservice.GetSupportedCurrencies (currencyservice.impl s) ctx x
  = (Ret (r, appErr), x') ->
  currencyservice.t_server_stub_getSupportedCurrencies s ctx args x
  = (Ret (wire_slice_string r ++ bytes_Error appErr, None), x').
Proof.
  intros Hr Herr Himpl.
  rewrite <- (reply_encoded (serviceweaver_enc_slice_string_4af10117 r) appErr
                (wire_slice_string r) x' Herr
                (encoded_writes _ _ (writes_enc_slice_string r Hr))).
  unfold currencyservice.t_server_stub_getSupportedCurrencies,
    currencyservice.t_server_stub_getSupportedCurrencies_body.
  run. rewrite Himpl. reflexivity.
Qed.

Lemma getProduct_serves (s : productcatalogservice.t_server_stub) ctx (x x' : Ext)
    (a0 : string) (r : Product) appErr :
  fits_string a0 -> fits_Product r -> fits_error appErr ->
  productcatalogservice.GetProduct (productcatalogservice.impl s) ctx a0 x
  = (Ret (r, appErr), x') ->
  productcatalogservice.t_server_stub_getProduct s ctx (bytes_String a0) x
  = (Ret (wire_Product r ++ bytes_Error appErr, None), x').
Proof.
  intros Ha0 Hr Herr Himpl.
  rewrite <- (reply_encoded (productcatalogservice.Product_WeaverMarshal (Some r)) appErr
                (wire_Product r) x' Herr
                (encoded_writes _ _ (writes_Product_WeaverMarshal r Hr))).
  unfold productcatalogservice.t_server_stub_getProduct,
    productcatalogservice.t_server_stub_getProduct_body.
  run. rewrite (reads_nil _ _ _ (reads_dec_String a0 Ha0)). run. rewrite Himpl.
  reflexivity.
Qed.

Lemma listProducts_serves (s : productcatalogservice.t_server_stub) ctx args (x x' : Ext)
    (r : option (list Product)) appErr :
  fits_Products r -> fits_error appErr ->
  productcatalogservice.ListProducts (productcatalogservice.impl s) ctx x
  = (Ret (r, appErr), x') ->
  productcatalogservice.t_server_stub_listProducts s ctx args x
  = (Ret (wire_Products r ++ bytes_Error appErr, None), x').
Proof.
  intros Hr Herr Himpl.
  rewrite <- (reply_encoded
                (productcatalogservice.serviceweaver_enc_slice_Product_3e9d9e07 r) appErr
                (wire_Products r) x' Herr
                (encoded_writes _ _ (writes_enc_slice_Product r Hr))).
  unfold productcatalogservice.t_server_stub_listProducts,
    productcatalogservice.t_server_stub_listProducts_body.
  run. rewrite Himpl. reflexivity.
Qed.

Lemma searchProducts_serves (s : productcatalogservice.t_server_stub) ctx (x x' : Ext)
    (a0 : string) (r : option (list Product)) appErr :
  fits_string a0 -> fits_Products r -> fits_error appErr ->
  productcatalogservice.SearchProducts (productcatalogservice.impl s) ctx a0 x
  = (Ret (r, appErr), x') ->
  productcatalogservice.t_server_stub_searchProducts s ctx (bytes_String a0) x
  = (Ret (wire_Products r ++ bytes_Error appErr, None), x').
Proof.
  intros Ha0 Hr Herr Himpl.
  rewrite <- (reply_encoded
                (productcatalogservice.serviceweaver_enc_slice_Product_3e9d9e07 r) appErr
                (wire_Products r) x' Herr
                (encoded_writes _ _ (writes_enc_slice_Product r Hr))).
  unfold productcatalogservice.t_server_stub_searchProducts,
    productcatalogservice.t_server_stub_searchProducts_body.
  run. rewrite (reads_nil _ _ _ (reads_dec_String a0 Ha0)). run. rewrite Himpl.
  reflexivity.
Qed.

End Serving.

Lemma unmarshal_r0_reads {T} `{Lawful T} (r x0 : T) e tl :
  fits r ->
  unmarshal_r0 (mkNamed x0 e (NewDecoder (wire r ++ tl)))
  = (Ret tt, mkNamed r e (NewDecoder tl)).
Proof.
  intros Hr. unfold unmarshal_r0, zoom. cbn [r0 dec err].
  now rewrite unmarshal_reads.
Qed.

Lemma read_r0_reads {R} (m : Dec R) bs (v x0 : R) e tl :
  reads m bs v ->
  (v' <- on_dec m ;; set_r0 v') (mkNamed x0 e (NewDecoder (bs ++ tl)))
  = (Ret tt, mkNamed v e (NewDecoder tl)).
Proof.
  intros Hm. unfold bind, on_dec, zoom, set_r0, modify. cbn [r0 dec err].
  now rewrite Hm.
Qed.

Section EndToEnd.

Context {Ext : Type} (clock : Ext -> Z).
Context {money_T : Type} `{Lawful money_T}.

#[local] Abbreviation Product := (@productcatalogservice.Product money_T).

(** X9.  The currency service, called through its client stub over a transport
    that hands a request to the handler the server stub gives for the
    method.  When the implementation returns [(r, appErr)], so does the
    call, the error reduced to its message; the collaborators are left as
    the implementation left them; the call is counted, and counted as an
    error when [appErr] is one; the sizes recorded are those of the
    encoded arguments and of the reply.  (The arguments, the result and
    the message are ones the wire format can hold.) *)
Theorem currencyservice_end_to_end
    (cs : currencyservice.t_client_stub) (srv : currencyservice.t_server_stub)
    ctx (a0 r : money_T) (a1 : string) (currencies : option (list string))
    (appErr : option error) (w : World Ext) (x' : Ext) :
  fits_error appErr ->
  ((forall h, currencyservice.t_server_stub_GetStubFn srv "Convert" = Some h ->
      forall c args k x, Run (currencyservice.stub cs) c 0 args k x = h c args x) ->
   fits a0 -> fits_string a1 -> fits r ->
   currencyservice.Convert (currencyservice.impl srv)
     (call_ctx "currencyservice.T.Convert" ctx) a0 a1 (ext w) = (Ret (r, appErr), x') ->
   returned clock (currencyservice.convertMetrics cs) w (r, received appErr) x'
     (call_starts "currencyservice.T.Convert" ctx
      ++ [evRun 0 (wire a0 ++ bytes_String a1) 0 false]
      ++ call_ends "currencyservice.T.Convert" ctx (received appErr))
     (is_error appErr)
     [len (wire a0 ++ bytes_String a1)] [len (wire r ++ bytes_Error appErr)]
     (currencyservice.t_client_stub_Convert clock cs ctx a0 a1 w))
  /\
  ((forall h, currencyservice.t_server_stub_GetStubFn srv "GetSupportedCurrencies" = Some h ->
      forall c args k x, Run (currencyservice.stub cs) c 1 args k x = h c args x) ->
   fits_strings currencies ->
   currencyservice.GetSupportedCurrencies (currencyservice.impl srv)
     (call_ctx "currencyservice.T.GetSupportedCurrencies" ctx) (ext w)
   = (Ret (currencies, appErr), x') ->
   returned clock (currencyservice.getSupportedCurrenciesMetrics cs) w
     (currencies, received appErr) x'
     (call_starts "currencyservice.T.GetSupportedCurrencies" ctx
      ++ [evRun 1 [] 0 false]
      ++ call_ends "currencyservice.T.GetSupportedCurrencies" ctx (received appErr))
     (is_error appErr)
     [0] [len (wire_slice_string currencies ++ bytes_Error appErr)]
     (currencyservice.t_client_stub_GetSupportedCurrencies clock cs ctx w)).
Proof.
  intros Herr.
  assert (Hflag : is_error appErr = is_error (received appErr)) by now destruct appErr.
  rewrite Hflag. split.
  - intros Htransport Ha0 Ha1 Hr Himpl. rewrite Convert_shape.
    eapply (client_call_reply clock _ _ _ _ _ _ _ (@unmarshal_r0_keeps_err _ _)
              ctx w (wire a0 ++ bytes_String a1) (wire r ++ bytes_Error appErr) x'
              (mkNamed r None (NewDecoder (bytes_Error appErr)))
              (received appErr) (NewDecoder [])).
    + apply encoded_writes, writes_bind;
        [now apply marshal_writes | now apply writes_enc_String].
    + rewrite (Htransport _ eq_refl). now apply convert_serves.
    + now apply unmarshal_r0_reads.
    + cbn [dec]. now apply reads_nil, reads_dec_Error.
  - intros Htransport Hr Himpl. rewrite GetSupportedCurrencies_shape.
    eapply (client_call_reply clock _ _ _ _ _ _ _ (read_r0_keeps_err _)
              ctx w [] (wire_slice_string currencies ++ bytes_Error appErr) x'
              (mkNamed currencies None (NewDecoder (bytes_Error appErr)))
              (received appErr) (NewDecoder [])).
    + reflexivity.
    + rewrite (Htransport _ eq_refl). now apply getSupportedCurrencies_serves.
    + now apply read_r0_reads, reads_dec_slice_string.
    + cbn [dec]. now apply reads_nil, reads_dec_Error.
Qed.

(** X10.  The product catalog, called through its client stub over a transport
    that hands a request to the handler the server stub gives for the
    method.  When the implementation returns [(r, appErr)], so does the
    call, the error reduced to its message, a nil sequence of products
    coming back nil and an empty one empty; the collaborators are left as
    the implementation left them, and the call is counted, as an error
    when [appErr] is one. *)
Theorem productcatalogservice_end_to_end
    (ps : productcatalogservice.t_client_stub) (srv : productcatalogservice.t_server_stub)
    ctx (a0 : string) (r : Product) (rs : option (list Product))
    (appErr : option error) (w : World Ext) (x' : Ext) :
  fits_error appErr ->
  ((forall h, productcatalogservice.t_server_stub_GetStubFn srv "GetProduct" = Some h ->
      forall c args k x, Run (productcatalogservice.stub ps) c 0 args k x = h c args x) ->
   fits_string a0 -> fits_Product r ->
   productcatalogservice.GetProduct (productcatalogservice.impl srv)
     (call_ctx "productcatalogservice.T.GetProduct" ctx) a0 (ext w)
   = (Ret (r, appErr), x') ->
   returned clock (productcatalogservice.getProductMetrics ps) w (r, received appErr) x'
     (call_starts "productcatalogservice.T.GetProduct" ctx
      ++ [evRun 0 (bytes_String a0) 0 false]
      ++ call_ends "productcatalogservice.T.GetProduct" ctx (received appErr))
     (is_error appErr)
     [len (bytes_String a0)] [len (wire_Product r ++ bytes_Error appErr)]
     (productcatalogservice.t_client_stub_GetProduct clock ps ctx a0 w))
  /\
  ((forall h, productcatalogservice.t_server_stub_GetStubFn srv "ListProducts" = Some h ->
      forall c args k x, Run (productcatalogservice.stub ps) c 1 args k x = h c args x) ->
   fits_Products rs ->
   productcatalogservice.ListProducts (productcatalogservice.impl srv)
     (call_ctx "productcatalogservice.T.ListProducts" ctx) (ext w)
   = (Ret (rs, appErr), x') ->
   returned clock (productcatalogservice.listProductsMetrics ps) w (rs, received appErr) x'
     (call_starts "productcatalogservice.T.ListProducts" ctx
      ++ [evRun 1 [] 0 false]
      ++ call_ends "productcatalogservice.T.ListProducts" ctx (received appErr))
     (is_error appErr)
     [0] [len (wire_Products rs ++ bytes_Error appErr)]
     (productcatalogservice.t_client_stub_ListProducts clock ps ctx w))
  /\
  ((forall h, productcatalogservice.t_server_stub_GetStubFn srv "SearchProducts" = Some h ->
      forall c args k x, Run (productcatalogservice.stub ps) c 2 args k x = h c args x) ->
   fits_string a0 -> fits_Products rs ->
   productcatalogservice.SearchProducts (productcatalogservice.impl srv)
     (call_ctx "productcatalogservice.T.SearchProducts" ctx) a0 (ext w)
   = (Ret (rs, appErr), x') ->
   returned clock (productcatalogservice.searchProductsMetrics ps) w
     (rs, received appErr) x'
     (call_starts "productcatalogservice.T.SearchProducts" ctx
      ++ [evRun 2 (bytes_String a0) 0 false]
      ++ call_ends "productcatalogservice.T.SearchProducts" ctx (received appErr))
     (is_error appErr)
     [len (bytes_String a0)] [len (wire_Products rs ++ bytes_Error appErr)]
     (productcatalogservice.t_client_stub_SearchProducts clock ps ctx a0 w)).
Proof.
  intros Herr.
  assert (Hflag : is_error appErr = is_error (received appErr)) by now destruct appErr.
  rewrite Hflag. split; [|split].
  - intros Htransport Ha0 Hr Himpl. rewrite GetProduct_shape.
    eapply (client_call_reply clock _ _ _ _ _ _ _ (@unmarshal_r0_keeps_err _ _)
              ctx w (bytes_String a0) (wire_Product r ++ bytes_Error appErr) x'
              (mkNamed r None (NewDecoder (bytes_Error appErr)))
              (received appErr) (NewDecoder [])).
    + now apply encoded_GetProduct.
    + rewrite (Htransport _ eq_refl). now apply getProduct_serves.
    + pose proof (unmarshal_r0_reads (T := Product) r) as U.
      exact (U zero None (bytes_Error appErr) Hr).
    + cbn [dec]. now apply reads_nil, reads_dec_Error.
  - intros Htransport Hr Himpl. rewrite ListProducts_shape.
    eapply (client_call_reply clock _ _ _ _ _ _ _ (read_r0_keeps_err _)
              ctx w [] (wire_Products rs ++ bytes_Error appErr) x'
              (mkNamed rs None (NewDecoder (bytes_Error appErr)))
              (received appErr) (NewDecoder [])).
    + reflexivity.
    + rewrite (Htransport _ eq_refl). now apply listProducts_serves.
    + now apply read_r0_reads, reads_dec_slice_Product.
    + cbn [dec]. now apply reads_nil, reads_dec_Error.
  - intros Htransport Ha0 Hr Himpl. rewrite SearchProducts_shape.
    eapply (client_call_reply clock _ _ _ _ _ _ _ (read_r0_keeps_err _)
              ctx w (bytes_String a0) (wire_Products rs ++ bytes_Error appErr) x'
              (mkNamed rs None (NewDecoder (bytes_Error appErr)))
              (received appErr) (NewDecoder [])).
    + now apply encoded_GetProduct.
    + rewrite (Htransport _ eq_refl). now apply searchProducts_serves.
    + now apply read_r0_reads, reads_dec_slice_Product.
    + cbn [dec]. now apply reads_nil, reads_dec_Error.
Qed.

End EndToEnd.

Lemma currencyservice_end_to_end_witness :
  let srv := currencyservice.mk_server_stub example.currency_impl in
  let cs :=
    example.currency_client
      (example.in_process currencyservice.methods
         (currencyservice.t_server_stub_GetStubFn srv)) in
  exists w',
    currencyservice.t_client_stub_Convert example.clock cs example.traced
      (example.mkMoney "USD") "EUR" example.quiet
    = (Ret (example.mkMoney "USD", Some (errorString "unsupported currency")), w')
    /\ ErrorCount (metrics w' (currencyservice.convertMetrics cs)) = 1.
Proof.
  cbv zeta.
  assert (Herr : fits_error (Some (errorString "unsupported currency")))
    by (cbn [fits_error Error]; fits_tac).
  destruct (proj1 (currencyservice_end_to_end example.clock
                     (example.currency_client
                        (example.in_process currencyservice.methods
                           (currencyservice.t_server_stub_GetStubFn
                              (currencyservice.mk_server_stub example.currency_impl))))
                     (currencyservice.mk_server_stub example.currency_impl)
                     example.traced (example.mkMoney "USD") (example.mkMoney "USD") "EUR"
                     None (Some (errorString "unsupported currency")) example.quiet 0%nat
                     Herr))
    as (w' & Hcall & _ & _ & _ & Hm).
  - intros h E c args k x.
    change (Some (currencyservice.t_server_stub_convert
                    (currencyservice.mk_server_stub example.currency_impl)) = Some h) in E.
    injection E as <-. reflexivity.
  - change (fits_string "USD"). fits_tac.
  - fits_tac.
  - change (fits_string "USD"). fits_tac.
  - reflexivity.
  - exists w'. split; [exact Hcall|]. rewrite Hm. reflexivity.
Defined.

Lemma productcatalogservice_end_to_end_witness :
  let srv := productcatalogservice.mk_server_stub example.catalog_impl in
  let ps :=
    example.catalog_client
      (example.in_process productcatalogservice.methods
         (productcatalogservice.t_server_stub_GetStubFn srv)) in
  exists w',
    productcatalogservice.t_client_stub_ListProducts example.clock ps example.traced
      example.quiet
    = (Ret (Some [example.a_product], None), w')
    /\ ErrorCount (metrics w' (productcatalogservice.listProductsMetrics ps)) = 0.
Proof.
  cbv zeta.
  destruct (proj1 (proj2 (productcatalogservice_end_to_end example.clock
                     (example.catalog_client
                        (example.in_process productcatalogservice.methods
                           (productcatalogservice.t_server_stub_GetStubFn
                              (productcatalogservice.mk_server_stub example.catalog_impl))))
                     (productcatalogservice.mk_server_stub example.catalog_impl)
                     example.traced "sun" example.a_product (Some [example.a_product])
                     None example.quiet 0%nat I)))
    as (w' & Hcall & _ & _ & _ & Hm).
  - intros h E c args k x.
    change (Some (productcatalogservice.t_server_stub_listProducts
                    (productcatalogservice.mk_server_stub example.catalog_impl)) = Some h)
      in E.
    injection E as <-. reflexivity.
  - split; [vm_compute; discriminate|]. repeat constructor; apply a_product_fits.
  - reflexivity.
  - exists w'. split; [exact Hcall|]. rewrite Hm. reflexivity.
Defined.

(** ** Client stubs: what the other methods record *)

Section MoreClientMetrics.

Context {Ext : Type} (clock : Ext -> Z).
Context {money_T : Type} `{AutoMarshal money_T}.

(** X13.  Sequences of calls through [Convert], [GetSupportedCurrencies] and
    [SearchProducts] of the client stubs all return; the invocation
    counter of the method goes up by the number of calls, its error
    counter by the number of calls that returned an error, its latency
    distribution takes one sample for each call; its request-size
    distribution takes the length of the encoded arguments of each call
    whose arguments were encoded, [0] for the method without arguments;
    its reply-size distribution takes a sample only for the calls whose
    transport invocation returned without an error. *)
Theorem client_stub_metrics_others
    (cs : currencyservice.t_client_stub) (ps : productcatalogservice.t_client_stub)
    (converts : list (Context * (money_T * string))) (lists : list Context)
    (searches : list (Context * string)) (w : World Ext) :
  (exists outs w',
     calls (fun i => currencyservice.t_client_stub_Convert clock cs (fst i)
                       (fst (snd i)) (snd (snd i)))
       converts w = (Ret outs, w')
     /\ List.length outs = List.length converts
     /\ recorded (currencyservice.convertMetrics cs) w w' (List.length converts) outs
          (flat_map (fun i : Context * (money_T * string) =>
                       request_of (encoded (WeaverMarshal (fst (snd i)) ;;
                                            enc_String (snd (snd i)))))
             converts))
  /\
  (exists outs w',
     calls (fun ctx => currencyservice.t_client_stub_GetSupportedCurrencies clock cs ctx)
       lists w = (Ret outs, w')
     /\ List.length outs = List.length lists
     /\ recorded (currencyservice.getSupportedCurrenciesMetrics cs) w w'
          (List.length lists) outs (replicate (List.length lists) 0))
  /\
  (Forall (fun i => fits_string (snd i)) searches ->
   exists outs w',
     calls (fun i => productcatalogservice.t_client_stub_SearchProducts clock ps
                       (fst i) (snd i))
       searches w = (Ret outs, w')
     /\ List.length outs = List.length searches
     /\ recorded (productcatalogservice.searchProductsMetrics ps) w w'
          (List.length searches) outs
          (map (fun i => 4 + len_string (snd i)) searches)).
Proof.
  split; [|split].
  - rewrite (calls_ext _ _ converts
               (fun i s => Convert_shape clock cs (fst i) (fst (snd i)) (snd (snd i)) s)).
    exact (calls_recorded clock (currencyservice.convertMetrics cs)
             "currencyservice.T.Convert" (currencyservice.stub cs) 0 zero fst
             (fun i : Context * (money_T * string) =>
                encoded (WeaverMarshal (fst (snd i)) ;; enc_String (snd (snd i))))
             unmarshal_r0 (@unmarshal_r0_keeps_err _ _) converts w).
  - rewrite (calls_ext _ _ lists
               (fun ctx s => GetSupportedCurrencies_shape clock cs ctx s)).
    destruct (calls_recorded clock (currencyservice.getSupportedCurrenciesMetrics cs)
                "currencyservice.T.GetSupportedCurrencies" (currencyservice.stub cs) 1
                None (fun ctx => ctx) (fun _ : Context => Ret [])
                (v <- on_dec serviceweaver_dec_slice_string_4af10117 ;; set_r0 v)
                (read_r0_keeps_err _) lists w)
      as (outs & w' & Hcalls & Hlen & Hrec).
    exists outs, w'. split; [exact Hcalls|]. split; [exact Hlen|].
    replace (replicate (List.length lists) 0)
      with (flat_map (fun _ : Context => request_of (Ret [])) lists); [exact Hrec|].
    clear. induction lists as [|ctx lists IH]; [reflexivity|].
    cbn [flat_map List.length replicate]. now rewrite IH.
  - intros Hfits.
    rewrite (calls_ext _ _ searches
               (fun i s => SearchProducts_shape clock ps (fst i) (snd i) s)).
    destruct (calls_recorded clock (productcatalogservice.searchProductsMetrics ps)
                "productcatalogservice.T.SearchProducts" (productcatalogservice.stub ps) 2
                None fst
                (fun i => encoded (productcatalogservice.enc_Reset
                                     (0 + (4 + len_string (snd i))) ;; enc_String (snd i)))
                (v <- on_dec productcatalogservice.serviceweaver_dec_slice_Product_3e9d9e07 ;;
                 set_r0 v)
                (read_r0_keeps_err _) searches w)
      as (outs & w' & Hcalls & Hlen & Hrec).
    exists outs, w'. split; [exact Hcalls|]. split; [exact Hlen|].
    replace (map (fun i => 4 + len_string (snd i)) searches)
      with (flat_map (fun i : Context * string =>
                        request_of (encoded (productcatalogservice.enc_Reset
                                               (0 + (4 + len_string (snd i))) ;;
                                             enc_String (snd i)))) searches);
      [exact Hrec|].
    clear -Hfits. induction Hfits as [|i searches Hi _ IH]; [reflexivity|].
    cbn [flat_map map]. rewrite IH, (encoded_GetProduct _ Hi). cbn [request_of app].
    f_equal. unfold bytes_String, len. rewrite length_app, length_list_byte_of_string.
    unfold len_string.
    change (List.length (bytes_Int32 (Z.of_nat (String.length (snd i))))) with 4%nat. lia.
Qed.

(** X14.  The span of a call through [GetSupportedCurrencies], [GetProduct],
    [ListProducts] or [SearchProducts] of the client stubs, whether the
    call succeeds, returns an error or recovers a panic: under a valid
    parent span the call starts exactly one span and ends exactly one;
    under no valid parent span it starts none, and still applies exactly
    one [End]; every span operation of the call is applied to the one
    span the call goes on with. *)
Theorem client_stub_span_lifecycle_others
    (cs : currencyservice.t_client_stub) (ps : productcatalogservice.t_client_stub)
    ctx (a0 : string) (w : World Ext) :
  let lifecycle name (w' : World Ext) :=
    exists evs,
      trace w' = trace w ++ evs
      /\ count is_start evs = (if IsValid (SpanFromContext ctx) then 1%nat else 0%nat)
      /\ count is_end evs = 1%nat
      /\ forall ev span, In ev evs -> span_of ev = Some span -> span = call_span name ctx in
  lifecycle "currencyservice.T.GetSupportedCurrencies"%string
    (snd (currencyservice.t_client_stub_GetSupportedCurrencies clock cs ctx w))
  /\ lifecycle "productcatalogservice.T.GetProduct"%string
       (snd (productcatalogservice.t_client_stub_GetProduct clock ps ctx a0 w))
  /\ lifecycle "productcatalogservice.T.ListProducts"%string
       (snd (productcatalogservice.t_client_stub_ListProducts clock ps ctx w))
  /\ lifecycle "productcatalogservice.T.SearchProducts"%string
       (snd (productcatalogservice.t_client_stub_SearchProducts clock ps ctx a0 w)).
Proof.
  cbv zeta. split; [|split; [|split]].
  - rewrite GetSupportedCurrencies_shape.
    destruct (client_call_summary clock (currencyservice.getSupportedCurrenciesMetrics cs)
                "currencyservice.T.GetSupportedCurrencies" (currencyservice.stub cs) 1 None
                (Ret []) (v <- on_dec serviceweaver_dec_slice_string_4af10117 ;; set_r0 v)
                (read_r0_keeps_err _) ctx w)
      as (out & w' & evs & replies & -> & Htr & Hs & He & Hsp & _).
    exists evs. auto.
  - rewrite GetProduct_shape.
    destruct (client_call_summary clock (productcatalogservice.getProductMetrics ps)
                "productcatalogservice.T.GetProduct" (productcatalogservice.stub ps) 0
                (zero : productcatalogservice.Product)
                (encoded (productcatalogservice.enc_Reset (0 + (4 + len_string a0)) ;;
                          enc_String a0))
                unmarshal_r0 (@unmarshal_r0_keeps_err _ _) ctx w)
      as (out & w' & evs & replies & -> & Htr & Hs & He & Hsp & _).
    exists evs. auto.
  - rewrite ListProducts_shape.
    destruct (client_call_summary clock (productcatalogservice.listProductsMetrics ps)
                "productcatalogservice.T.ListProducts" (productcatalogservice.stub ps) 1
                None (Ret [])
                (v <- on_dec productcatalogservice.serviceweaver_dec_slice_Product_3e9d9e07 ;;
                 set_r0 v)
                (read_r0_keeps_err _) ctx w)
      as (out & w' & evs & replies & -> & Htr & Hs & He & Hsp & _).
    exists evs. auto.
  - rewrite SearchProducts_shape.
    destruct (client_call_summary clock (productcatalogservice.searchProductsMetrics ps)
                "productcatalogservice.T.SearchProducts" (productcatalogservice.stub ps) 2
                None
                (encoded (productcatalogservice.enc_Reset (0 + (4 + len_string a0)) ;;
                          enc_String a0))
                (v <- on_dec productcatalogservice.serviceweaver_dec_slice_Product_3e9d9e07 ;;
                 set_r0 v)
                (read_r0_keeps_err _) ctx w)
      as (out & w' & evs & replies & -> & Htr & Hs & He & Hsp & _).
    exists evs. auto.
Qed.

End MoreClientMetrics.

Lemma client_stub_metrics_others_witness :
  Forall (fun i : Context * string => fits_string (snd i))
    [(example.traced, "sun"%string); (example.untraced, "mug"%string)]
  /\ exists outs w',
       calls (fun i => productcatalogservice.t_client_stub_SearchProducts example.clock
                         (example.catalog_client example.refusing) (fst i) (snd i))
         [(example.traced, "sun"%string); (example.untraced, "mug"%string)]
         example.quiet
       = (Ret outs, w')
       /\ List.length outs = 2%nat
       /\ recorded
            (productcatalogservice.searchProductsMetrics
               (example.catalog_client example.refusing))
            example.quiet w' 2 outs [7; 7].
Proof.
  assert (Hfits : Forall (fun i : Context * string => fits_string (snd i))
            [(example.traced, "sun"%string); (example.untraced, "mug"%string)]).
  { repeat apply List.Forall_cons; try apply List.Forall_nil; cbn [snd]; fits_tac. }
  split; [exact Hfits|].
  exact (proj2 (proj2 (client_stub_metrics_others example.clock
                         (example.currency_client example.refusing)
                         (example.catalog_client example.refusing)
                         [] [] _ example.quiet)) Hfits).
Defined.

Lemma client_stub_span_lifecycle_others_witness :
  exists evs,
    trace (snd (productcatalogservice.t_client_stub_ListProducts example.clock
                  (example.catalog_client example.refusing) example.untraced
                  example.quiet))
    = trace example.quiet ++ evs
    /\ count is_start evs = 0%nat
    /\ count is_end evs = 1%nat
    /\ forall ev span, In ev evs -> span_of ev = Some span -> span = inherited false.
Proof.
  exact (proj1 (proj2 (proj2 (client_stub_span_lifecycle_others example.clock
                                (example.currency_client example.refusing)
                                (example.catalog_client example.refusing)
                                example.untraced "sun" example.quiet)))).
Defined.

(** ** A reply that breaks off *)

Lemma dec_slice_string_below (n : Z) (tl : list byte) :
  - 2 ^ 31 <= n < -1 ->
  serviceweaver_dec_slice_string_4af10117 (NewDecoder (bytes_Int32 n ++ tl))
  = (Panicked (Fault "makeslice: len out of range"), NewDecoder tl).
Proof.
  intros Hn. unfold serviceweaver_dec_slice_string_4af10117.
  erewrite bind_Ret by (apply reads_dec_Len; lia).
  destruct (Z.eqb_spec n (-1)); [lia|].
  unfold make, bind, panic. destruct (Z.ltb_spec n 0); [reflexivity | lia].
Qed.

Section ShapeBrokenReply.

Context {Ext : Type} (clock : Ext -> Z) {R : Type}.
Variable methodMetrics : MethodLabels.
Variable name : string.
Variable stub : Stub Ext.
Variable method : Z.
Variable init : R.
Variable args : Res (list byte).
Variable decode_results : M (Named R) unit.

Hypothesis decode_keeps_err :
  forall n r n', decode_results n = (r, n') -> err n' = err n.

Lemma client_call_broken_reply ctx w data results x' f n :
  args = Ret data ->
  Run stub (call_ctx name ctx) method data 0 (ext w) = (Ret (results, None), x') ->
  decode_results (mkNamed init None (NewDecoder results)) = (Panicked f, n) ->
  returned clock methodMetrics w (r0 n, recovered f) x'
    (call_starts name ctx ++ [evRun method data 0 false]
     ++ call_ends name ctx (recovered f))
    true [len data] [len results]
    (client_call clock methodMetrics name stub method init args decode_results ctx w).
Proof using decode_keeps_err.
  intros Hargs HRun Hdec.
  pose proof (client_call_spec clock methodMetrics name stub method init args
                decode_results decode_keeps_err ctx w) as S.
  unfold client_spec in S. rewrite Hargs in S |- *. rewrite HRun, Hdec in S.
  exact S.
Qed.

End ShapeBrokenReply.

Section PartialResult.

Context {Ext : Type} (clock : Ext -> Z).
Context {money_T : Type} `{Lawful money_T}.

#[local] Abbreviation Product := (@productcatalogservice.Product money_T).

Opaque bytes_String bytes_Int32.

Lemma Product_fields_break (x0 : Product) (i n d p : string) (m : money_T) (k : Z) tl :
  fits_string i -> fits_string n -> fits_string d -> fits_string p -> fits m ->
  - 2 ^ 31 <= k < -1 ->
  productcatalogservice.Product_fields
    (x0, NewDecoder (bytes_String i ++ bytes_String n ++ bytes_String d ++ bytes_String p
                     ++ wire m ++ bytes_Int32 k ++ tl))
  = (Panicked (Fault "makeslice: len out of range"),
     (productcatalogservice.mkProduct i n d p m (productcatalogservice.Categories x0),
      NewDecoder tl)).
Proof.
  intros Hi Hn Hd Hp Hm Hk.
  destruct x0 as [i0 n0 d0 p0 m0 c0].
  unfold productcatalogservice.Product_fields. simpl.
  repeat (erewrite bind_Ret; [|apply read_reads, reads_dec_String; eassumption];
          erewrite bind_Ret; [|reflexivity]; simpl).
  erewrite bind_Ret.
  2:{ unfold zoom. simpl. rewrite unmarshal_reads by assumption. reflexivity. }
  simpl.
  erewrite bind_Panicked; [reflexivity|].
  unfold productcatalogservice.read, zoom. simpl.
  now rewrite dec_slice_string_below.
Qed.

Transparent bytes_String bytes_Int32.

(** X15.  A reply that decodes up to a point: when [GetProduct] of the client
    stub gets a reply whose first five fields decode and whose sequence of
    categories announces a length below [-1], the panic of the decoder is
    recovered and returned as an error that wraps the sentinel, and the
    product returned with it is not the zero value: it holds the fields
    decoded before the panic.  The call is counted as an error. *)
Theorem GetProduct_partial_result (ps : productcatalogservice.t_client_stub)
    ctx (a0 : string) (w : World Ext) (x' : Ext)
    (i n d p : string) (m : money_T) (k : Z) (tl : list byte) :
  fits_string a0 ->
  fits_string i -> fits_string n -> fits_string d -> fits_string p -> fits m ->
  - 2 ^ 31 <= k < -1 ->
  Run (productcatalogservice.stub ps) (call_ctx "productcatalogservice.T.GetProduct" ctx)
    0 (bytes_String a0) 0 (ext w)
  = (Ret (bytes_String i ++ bytes_String n ++ bytes_String d ++ bytes_String p
          ++ wire m ++ bytes_Int32 k ++ tl, None), x') ->
  exists w',
    productcatalogservice.t_client_stub_GetProduct clock ps ctx a0 w
    = (Ret (productcatalogservice.mkProduct i n d p m None,
            Some (joinError [weaver.RemoteCallError;
                             errorString "makeslice: len out of range"])), w')
    /\ ext w' = x'
    /\ ErrorCount (metrics w' (productcatalogservice.getProductMetrics ps))
       = ErrorCount (metrics w (productcatalogservice.getProductMetrics ps)) + 1.
Proof.
  intros Ha0 Hi Hn Hd Hp Hm Hk HRun. rewrite GetProduct_shape.
  destruct (client_call_broken_reply clock
              (productcatalogservice.getProductMetrics ps)
              "productcatalogservice.T.GetProduct" (productcatalogservice.stub ps) 0
              (zero : Product)
              (encoded (productcatalogservice.enc_Reset (0 + (4 + len_string a0)) ;;
                        enc_String a0))
              unmarshal_r0 (@unmarshal_r0_keeps_err _ _) ctx w (bytes_String a0) _ x'
              (Fault "makeslice: len out of range")
              (mkNamed (productcatalogservice.mkProduct i n d p m None) None
                 (NewDecoder tl))
              (encoded_GetProduct a0 Ha0) HRun)
    as (w' & Hcall & Hext & _ & _ & Hmet).
  - unfold unmarshal_r0, zoom. cbn [r0 dec err].
    cbn [WeaverUnmarshal productcatalogservice.Product_AutoMarshal].
    unfold zoom, productcatalogservice.Product_WeaverUnmarshal. cbn [fst snd].
    rewrite (Product_fields_break _ i n d p m k tl Hi Hn Hd Hp Hm Hk). reflexivity.
  - exists w'. split; [exact Hcall|]. split; [exact Hext|]. rewrite Hmet. reflexivity.
Qed.

End PartialResult.

Lemma GetProduct_partial_result_witness :
  let reply :=
    bytes_String "OLJCESPC7Z" ++ bytes_String "Sunglasses" ++ bytes_String ""
    ++ bytes_String "" ++ bytes_String "USD" ++ bytes_Int32 (-2) ++ [] in
  exists w',
    productcatalogservice.t_client_stub_GetProduct example.clock
      (example.catalog_client (example.replying reply)) example.traced "OLJCESPC7Z"
      example.quiet
    = (Ret (productcatalogservice.mkProduct "OLJCESPC7Z" "Sunglasses" "" ""
              (example.mkMoney "USD") None,
            Some (joinError [weaver.RemoteCallError;
                             errorString "makeslice: len out of range"])), w').
Proof.
  cbv zeta.
  destruct (GetProduct_partial_result example.clock
              (example.catalog_client
                 (example.replying
                    (bytes_String "OLJCESPC7Z" ++ bytes_String "Sunglasses"
                     ++ bytes_String "" ++ bytes_String "" ++ bytes_String "USD"
                     ++ bytes_Int32 (-2) ++ [])))
              example.traced "OLJCESPC7Z" example.quiet 1%nat
              "OLJCESPC7Z" "Sunglasses" "" "" (example.mkMoney "USD") (-2) [])
    as (w' & Hcall & _).
  - fits_tac.
  - fits_tac.
  - fits_tac.
  - fits_tac.
  - fits_tac.
  - change (fits_string "USD"). fits_tac.
  - lia.
  - reflexivity.
  - exists w'. exact Hcall.
Defined.

(** ** Server stubs: how much of a request a handler reads *)

Section TrailingBytes.

Context {Ext : Type}.
Context {money_T : Type} `{Lawful money_T}.

(** X16.  A handler reads its arguments off the front of the request and never
    looks at what follows them: bytes after the encoded arguments change
    nothing of what the handler does.  The handler of a method without
    arguments never looks at the request at all. *)
Theorem server_stub_ignores_trailing_bytes
    (s : currencyservice.t_server_stub) (c : productcatalogservice.t_server_stub)
    ctx (a0 : money_T) (a1 : string) (junk args : list byte) (x : Ext) :
  (fits a0 -> fits_string a1 ->
   currencyservice.t_server_stub_convert s ctx (wire a0 ++ bytes_String a1 ++ junk) x
   = currencyservice.t_server_stub_convert s ctx (wire a0 ++ bytes_String a1) x)
  /\ currencyservice.t_server_stub_getSupportedCurrencies s ctx args x
     = currencyservice.t_server_stub_getSupportedCurrencies s ctx [] x
  /\ (fits_string a1 ->
      productcatalogservice.t_server_stub_getProduct c ctx (bytes_String a1 ++ junk) x
      = productcatalogservice.t_server_stub_getProduct c ctx (bytes_String a1) x)
  /\ productcatalogservice.t_server_stub_listProducts c ctx args x
     = productcatalogservice.t_server_stub_listProducts c ctx [] x
  /\ (fits_string a1 ->
      productcatalogservice.t_server_stub_searchProducts c ctx (bytes_String a1 ++ junk) x
      = productcatalogservice.t_server_stub_searchProducts c ctx (bytes_String a1) x).
Proof.
  split; [|split; [|split; [|split]]].
  - intros Ha0 Ha1.
    assert (H1 : (a0' <- unmarshal_var ;; a1' <- dec_String ;; ret (a0', a1'))
                   (NewDecoder (wire a0 ++ bytes_String a1 ++ junk))
                 = (Ret (a0, a1), NewDecoder junk)).
    { erewrite bind_Ret by (apply unmarshal_var_reads; exact Ha0).
      erewrite bind_Ret by (apply reads_dec_String; exact Ha1).
      reflexivity. }
    assert (H2 : (a0' <- unmarshal_var ;; a1' <- dec_String ;; ret (a0', a1'))
                   (NewDecoder (wire a0 ++ bytes_String a1))
                 = (Ret (a0, a1), NewDecoder [])).
    { erewrite bind_Ret by (apply unmarshal_var_reads; exact Ha0).
      erewrite bind_Ret by (apply reads_nil, reads_dec_String; exact Ha1).
      reflexivity. }
    unfold currencyservice.t_server_stub_convert,
      currencyservice.t_server_stub_convert_body.
    revert H1 H2.
    generalize (a0' <- unmarshal_var ;; a1' <- dec_String ;; ret (a0', a1')).
    intros mdec H1 H2. run. rewrite H1, H2. reflexivity.
  - reflexivity.
  - intros Ha1.
    unfold productcatalogservice.t_server_stub_getProduct,
      productcatalogservice.t_server_stub_getProduct_body.
    run. rewrite (reads_dec_String a1 Ha1 junk), (reads_nil _ _ _ (reads_dec_String a1 Ha1)).
    reflexivity.
  - reflexivity.
  - intros Ha1.
    unfold productcatalogservice.t_server_stub_searchProducts,
      productcatalogservice.t_server_stub_searchProducts_body.
    run. rewrite (reads_dec_String a1 Ha1 junk), (reads_nil _ _ _ (reads_dec_String a1 Ha1)).
    reflexivity.
Qed.

End TrailingBytes.

Lemma server_stub_ignores_trailing_bytes_witness :
  productcatalogservice.t_server_stub_getProduct
    (productcatalogservice.mk_server_stub example.catalog_impl) example.untraced
    (bytes_String "OLJCESPC7Z" ++ [x2a; x2a]) 0%nat
  = productcatalogservice.t_server_stub_getProduct
      (productcatalogservice.mk_server_stub example.catalog_impl) example.untraced
      (bytes_String "OLJCESPC7Z") 0%nat.
Proof.
  refine (proj1 (proj2 (proj2 (server_stub_ignores_trailing_bytes
                                 (currencyservice.mk_server_stub example.currency_impl)
                                 (productcatalogservice.mk_server_stub example.catalog_impl)
                                 example.untraced (example.mkMoney "USD") "OLJCESPC7Z"
                                 [x2a; x2a] [] 0%nat))) _).
  fits_tac.
Defined.

(** ** The transaction cache: the other methods *)

Section TransactionHistory.

Context {Transaction : Type}.
Variable load : string -> list Transaction + error.
Variable FromAccountNum : Transaction -> string.
Variable FromRoutingNum : Transaction -> string.
Variable ToAccountNum : Transaction -> string.
Variable ToRoutingNum : Transaction -> string.

#[local] Abbreviation impl := (@transactionhistory.impl Transaction).
#[local] Abbreviation limit_of i :=
  (transactionhistory.HistoryLimit (transactionhistory.Config i)).

(** On an account whose transactions are in the cache, under a history
    limit that is not negative. *)
Lemma processTransactionForAcct_cached (i : impl) accountID transaction old :
  transactionhistory.txnCache i !! accountID = Some old ->
  0 <= limit_of i ->
  exists lg,
    transactionhistory.processTransactionForAcct load accountID transaction i
    = (Ret tt,
       transactionhistory.mkImpl (transactionhistory.Config i)
         (<[accountID := take (Z.to_nat (limit_of i)) (transaction :: old)]>
            (transactionhistory.txnCache i))
         lg).
Proof.
  destruct i as [cfg cache lg].
  cbn [transactionhistory.Config transactionhistory.txnCache].
  intros Hold Hlim. set (limit := transactionhistory.HistoryLimit cfg) in *.
  unfold transactionhistory.processTransactionForAcct.
  erewrite bind_Ret by reflexivity.
  erewrite bind_Ret.
  2:{ unfold transactionhistory.c_Get. cbn [transactionhistory.txnCache].
      rewrite Hold. reflexivity. }
  cbn beta iota. erewrite bind_Ret by reflexivity.
  cbn [transactionhistory.Config]. fold limit.
  change ([transaction] ++ old) with (transaction :: old).
  destruct (Z.ltb_spec limit (len (transaction :: old))) as [Hlt|Hge].
  - erewrite bind_Ret.
    2:{ erewrite bind_Ret by reflexivity. unfold transactionhistory.slice_to.
        destruct (Z.ltb_spec limit 0) as [Hneg|_]; [lia|]. reflexivity. }
    eexists. reflexivity.
  - erewrite bind_Ret by reflexivity.
    rewrite take_ge by (unfold len in Hge; lia).
    eexists. reflexivity.
Qed.

(** X17.  The history limit, on an account whose transactions are in the cache,
    whatever their number.  Under a limit that is not negative the call
    returns and leaves in the cache the first [HistoryLimit] entries of
    the new transaction followed by the previous ones, never more than
    [HistoryLimit] of them.  Under a negative limit the call panics, on
    the slice bound, and the cache is left as it was. *)
Theorem processTransactionForAcct_limit (i : impl) (accountID : string)
    (transaction : Transaction) (old : list Transaction) :
  transactionhistory.txnCache i !! accountID = Some old ->
  (0 <= limit_of i ->
   exists i',
     transactionhistory.processTransactionForAcct load accountID transaction i
     = (Ret tt, i')
     /\ transactionhistory.txnCache i' !! accountID
        = Some (take (Z.to_nat (limit_of i)) (transaction :: old))
     /\ len (take (Z.to_nat (limit_of i)) (transaction :: old)) <= limit_of i)
  /\
  (limit_of i < 0 ->
   exists i',
     transactionhistory.processTransactionForAcct load accountID transaction i
     = (Panicked (Fault "slice bounds out of range"), i')
     /\ transactionhistory.txnCache i' = transactionhistory.txnCache i).
Proof.
  intros Hold. split.
  - intros Hlim.
    destruct (processTransactionForAcct_cached i accountID transaction old Hold Hlim)
      as (lg & ->).
    eexists. split; [reflexivity|]. cbn [transactionhistory.txnCache].
    split; [apply lookup_insert_eq|].
    unfold len. rewrite length_take. lia.
  - destruct i as [cfg cache lg].
    cbn [transactionhistory.Config transactionhistory.txnCache] in *.
    intros Hneg. set (limit := transactionhistory.HistoryLimit cfg) in *.
    unfold transactionhistory.processTransactionForAcct.
    erewrite bind_Ret by reflexivity.
    erewrite bind_Ret.
    2:{ unfold transactionhistory.c_Get. cbn [transactionhistory.txnCache].
        rewrite Hold. reflexivity. }
    cbn beta iota. erewrite bind_Ret by reflexivity.
    cbn [transactionhistory.Config]. fold limit.
    pose proof (len_nonneg ([transaction] ++ old)) as H0.
    destruct (Z.ltb_spec limit (len ([transaction] ++ old))) as [_|Hge]; [|lia].
    erewrite bind_Panicked.
    2:{ erewrite bind_Ret by reflexivity. unfold transactionhistory.slice_to.
        destruct (Z.ltb_spec limit 0) as [_|Hge]; [|lia]. reflexivity. }
    eexists. split; reflexivity.
Qed.

(** X18.  What [processTransactionForAcct] puts in the cache is what
    [GetTransactions] returns next, without an error and without a
    request to the repository. *)
Theorem GetTransactions_after_processTransactionForAcct (i : impl) ctx
    (accountID : string) (transaction : Transaction) (old : list Transaction)
    (load' : string -> list Transaction + error) :
  transactionhistory.txnCache i !! accountID = Some old ->
  0 <= limit_of i ->
  exists i',
    (transactionhistory.processTransactionForAcct load accountID transaction ;;
     transactionhistory.GetTransactions load' ctx accountID) i
    = (Ret (take (Z.to_nat (limit_of i)) (transaction :: old), None), i').
Proof.
  intros Hold Hlim.
  destruct (processTransactionForAcct_cached i accountID transaction old Hold Hlim)
    as (lg & Hrun).
  erewrite bind_Ret by exact Hrun.
  unfold transactionhistory.GetTransactions.
  erewrite bind_Ret.
  2:{ unfold transactionhistory.c_Get. cbn [transactionhistory.txnCache].
      rewrite lookup_insert_eq. reflexivity. }
  eexists. reflexivity.
Qed.

#[local] Abbreviation ProcessTransaction :=
  (transactionhistory.ProcessTransaction load FromAccountNum FromRoutingNum ToAccountNum
     ToRoutingNum).

(** One side of [ProcessTransaction]: the account is looked at only when
    the routing number is the local one, and changed only when it is in
    the cache. *)
Lemma ProcessTransaction_side (i : impl) routing accountID transaction :
  0 <= limit_of i ->
  exists lg,
    (if String.eqb routing (transactionhistory.LocalRoutingNum (transactionhistory.Config i))
     then
       '(_, ok) <- transactionhistory.c_GetIfPresent accountID ;;
       if ok then transactionhistory.processTransactionForAcct load accountID transaction
       else ret tt
     else ret tt) i
    = (Ret tt,
       transactionhistory.mkImpl (transactionhistory.Config i)
         (if String.eqb routing
               (transactionhistory.LocalRoutingNum (transactionhistory.Config i))
          then with_transaction (limit_of i) transaction accountID
                 (transactionhistory.txnCache i)
          else transactionhistory.txnCache i)
         lg).
Proof.
  intros Hlim.
  destruct (String.eqb routing _).
  - unfold with_transaction, bind, transactionhistory.c_GetIfPresent.
    destruct (transactionhistory.txnCache i !! accountID) as [old|] eqn:Hold.
    + apply (processTransactionForAcct_cached i accountID transaction old Hold Hlim).
    + destruct i as [cfg cache lg]. exists lg. reflexivity.
  - destruct i as [cfg cache lg]. exists lg. reflexivity.
Qed.

Lemma ProcessTransaction_spec (i : impl) transaction :
  0 <= limit_of i ->
  let local := transactionhistory.LocalRoutingNum (transactionhistory.Config i) in
  let side routing accountID cache :=
    if String.eqb routing local
    then with_transaction (limit_of i) transaction accountID cache
    else cache in
  exists lg,
    ProcessTransaction transaction i
    = (Ret tt,
       transactionhistory.mkImpl (transactionhistory.Config i)
         (side (ToRoutingNum transaction) (ToAccountNum transaction)
            (side (FromRoutingNum transaction) (FromAccountNum transaction)
               (transactionhistory.txnCache i)))
         lg).
Proof.
  intros Hlim. cbv zeta. unfold transactionhistory.ProcessTransaction.
  erewrite bind_Ret by reflexivity.
  destruct (ProcessTransaction_side i (FromRoutingNum transaction)
              (FromAccountNum transaction) transaction Hlim) as (lg1 & H1).
  erewrite bind_Ret by exact H1.
  erewrite bind_Ret by reflexivity. cbn [transactionhistory.Config].
  match goal with
  | |- context [_ ?j = _] =>
      match j with
      | transactionhistory.mkImpl _ _ lg1 =>
          destruct (ProcessTransaction_side j (ToRoutingNum transaction)
                      (ToAccountNum transaction) transaction Hlim) as (lg2 & H2)
      end
  end.
  cbn [transactionhistory.Config transactionhistory.txnCache] in H2.
  exists lg2. exact H2.
Qed.

Lemma with_transaction_is_Some (limit : Z) (t : Transaction) a b
    (m : gmap string (list Transaction)) :
  is_Some (with_transaction limit t a m !! b) <-> is_Some (m !! b).
Proof.
  unfold with_transaction. destruct (m !! a) as [old|] eqn:Ha; [|reflexivity].
  destruct (decide (a = b)) as [<-|Hne].
  - rewrite lookup_insert_eq, Ha. split; eauto.
  - now rewrite lookup_insert_ne.
Qed.

Lemma with_transaction_eq (limit : Z) (t : Transaction) a
    (m : gmap string (list Transaction)) old :
  m !! a = Some old ->
  with_transaction limit t a m !! a = Some (take (Z.to_nat limit) (t :: old)).
Proof.
  intros Ha. unfold with_transaction. rewrite Ha. apply lookup_insert_eq.
Qed.

Lemma with_transaction_other (limit : Z) (t : Transaction) a b
    (m : gmap string (list Transaction)) :
  b <> a -> with_transaction limit t a m !! b = m !! b.
Proof.
  intros Hne. unfold with_transaction. destruct (m !! a); [|reflexivity].
  now apply lookup_insert_ne.
Qed.

Lemma with_transaction_bound (limit : Z) (t : Transaction) a
    (m : gmap string (list Transaction)) :
  0 <= limit ->
  (forall b l, m !! b = Some l -> len l <= limit) ->
  forall b l, with_transaction limit t a m !! b = Some l -> len l <= limit.
Proof.
  intros Hlim Hm b l. unfold with_transaction.
  destruct (m !! a) as [old|] eqn:Ha; [|apply Hm].
  destruct (decide (a = b)) as [<-|Hne].
  - rewrite lookup_insert_eq. intros [= <-]. unfold len. rewrite length_take. lia.
  - rewrite lookup_insert_ne by exact Hne. apply Hm.
Qed.

(** X19.  [ProcessTransaction] keeps the accounts of the cache: under a history
    limit that is not negative it returns, and the accounts in the cache
    are those that were in it, none added and none dropped; the lists of
    the accounts the transaction does not name are as they were; and when
    no list was longer than [HistoryLimit], none is. *)
Theorem ProcessTransaction_keeps_accounts (i : impl) (transaction : Transaction) :
  0 <= limit_of i ->
  exists i',
    ProcessTransaction transaction i = (Ret tt, i')
    /\ transactionhistory.Config i' = transactionhistory.Config i
    /\ (forall a, is_Some (transactionhistory.txnCache i' !! a)
                  <-> is_Some (transactionhistory.txnCache i !! a))
    /\ (forall a, a <> FromAccountNum transaction -> a <> ToAccountNum transaction ->
                  transactionhistory.txnCache i' !! a = transactionhistory.txnCache i !! a)
    /\ ((forall a l, transactionhistory.txnCache i !! a = Some l -> len l <= limit_of i) ->
        forall a l, transactionhistory.txnCache i' !! a = Some l -> len l <= limit_of i).
Proof.
  intros Hlim. destruct (ProcessTransaction_spec i transaction Hlim) as (lg & ->).
  eexists. split; [reflexivity|].
  cbn [transactionhistory.Config transactionhistory.txnCache].
  split; [reflexivity|].
  destruct (String.eqb (FromRoutingNum transaction) _),
           (String.eqb (ToRoutingNum transaction) _).
  all: split; [|split].
  all: try (intros a; rewrite ?with_transaction_is_Some; reflexivity).
  all: try (intros a Hf Ht; rewrite ?with_transaction_other by assumption; reflexivity).
  all: intros Hm; eauto using with_transaction_bound.
Qed.

(** X20.  [ProcessTransaction] leaves the component as it was, cache and log,
    when on each side of the transaction the routing number is not the
    local one or the account is not in the cache; it does not ask the
    repository for an account that is not cached. *)
Theorem ProcessTransaction_skips (i : impl) (transaction : Transaction) :
  (FromRoutingNum transaction
   <> transactionhistory.LocalRoutingNum (transactionhistory.Config i)
   \/ transactionhistory.txnCache i !! FromAccountNum transaction = None) ->
  (ToRoutingNum transaction
   <> transactionhistory.LocalRoutingNum (transactionhistory.Config i)
   \/ transactionhistory.txnCache i !! ToAccountNum transaction = None) ->
  ProcessTransaction transaction i = (Ret tt, i).
Proof.
  intros Hfrom Hto. unfold transactionhistory.ProcessTransaction.
  assert (Hside : forall routing accountID,
            (routing <> transactionhistory.LocalRoutingNum (transactionhistory.Config i)
             \/ transactionhistory.txnCache i !! accountID = None) ->
            (if String.eqb routing
                  (transactionhistory.LocalRoutingNum (transactionhistory.Config i))
             then
               '(_, ok) <- transactionhistory.c_GetIfPresent accountID ;;
               if ok
               then transactionhistory.processTransactionForAcct load accountID transaction
               else ret tt
             else ret tt) i = (Ret tt, i)).
  { intros routing accountID Hside.
    destruct (String.eqb_spec routing
                (transactionhistory.LocalRoutingNum (transactionhistory.Config i)))
      as [Heq|Hne]; [|reflexivity].
    destruct Hside as [Hne|Hnone]; [contradiction|].
    unfold bind, transactionhistory.c_GetIfPresent. now rewrite Hnone. }
  erewrite bind_Ret by reflexivity.
  erewrite bind_Ret by (apply Hside; exact Hfrom).
  erewrite bind_Ret by reflexivity.
  apply Hside; exact Hto.
Qed.

(** X21.  A transfer inside the bank, both accounts in the cache: the
    transaction is put in front of both lists, each cut at
    [HistoryLimit].  When the two accounts are one and the same, its list
    takes the transaction twice. *)
Theorem ProcessTransaction_transfer (i : impl) (transaction : Transaction)
    (sent received : list Transaction) :
  0 <= limit_of i ->
  FromRoutingNum transaction
  = transactionhistory.LocalRoutingNum (transactionhistory.Config i) ->
  ToRoutingNum transaction
  = transactionhistory.LocalRoutingNum (transactionhistory.Config i) ->
  transactionhistory.txnCache i !! FromAccountNum transaction = Some sent ->
  transactionhistory.txnCache i !! ToAccountNum transaction = Some received ->
  exists i',
    ProcessTransaction transaction i = (Ret tt, i')
    /\ if decide (FromAccountNum transaction = ToAccountNum transaction)
       then transactionhistory.txnCache i' !! ToAccountNum transaction
            = Some (take (Z.to_nat (limit_of i))
                      (transaction
                       :: take (Z.to_nat (limit_of i)) (transaction :: sent)))
       else transactionhistory.txnCache i' !! FromAccountNum transaction
            = Some (take (Z.to_nat (limit_of i)) (transaction :: sent))
            /\ transactionhistory.txnCache i' !! ToAccountNum transaction
               = Some (take (Z.to_nat (limit_of i)) (transaction :: received)).
Proof.
  intros Hlim Hfrom Hto Hsent Hreceived.
  destruct (ProcessTransaction_spec i transaction Hlim) as (lg & ->).
  eexists. split; [reflexivity|].
  cbn [transactionhistory.Config transactionhistory.txnCache].
  rewrite Hfrom, Hto, String.eqb_refl.
  pose proof (with_transaction_eq (limit_of i) transaction _ _ _ Hsent) as Hm1.
  destruct (decide (FromAccountNum transaction = ToAccountNum transaction)) as [E|Hne].
  - rewrite <- E. now apply with_transaction_eq.
  - split.
    + now rewrite with_transaction_other.
    + apply with_transaction_eq. rewrite with_transaction_other; [exact Hreceived|].
      intros E. apply Hne. now symmetry.
Qed.

End TransactionHistory.

Lemma processTransactionForAcct_limit_witness :
  let i := example.history (-1) ["t1"]%string in
  transactionhistory.txnCache i !! "1011226111"%string = Some ["t1"]%string
  /\ transactionhistory.HistoryLimit (transactionhistory.Config i) < 0
  /\ exists i',
       transactionhistory.processTransactionForAcct example.no_repository
         "1011226111" "t2"%string i
       = (Panicked (Fault "slice bounds out of range"), i')
       /\ transactionhistory.txnCache i' = transactionhistory.txnCache i.
Proof.
  cbv zeta.
  assert (Hold : transactionhistory.txnCache (example.history (-1) ["t1"]%string)
                 !! "1011226111"%string = Some ["t1"]%string)
    by apply lookup_singleton_eq.
  assert (Hneg : transactionhistory.HistoryLimit
                   (transactionhistory.Config (example.history (-1) ["t1"]%string)) < 0)
    by reflexivity.
  split; [exact Hold|]. split; [exact Hneg|].
  exact (proj2 (processTransactionForAcct_limit example.no_repository
                  (example.history (-1) ["t1"]%string) "1011226111" "t2"%string
                  ["t1"]%string Hold) Hneg).
Defined.

Lemma GetTransactions_after_processTransactionForAcct_witness :
  let i := example.history 2 ["t2"; "t1"]%string in
  exists i',
    (transactionhistory.processTransactionForAcct example.no_repository
       "1011226111" "t3"%string ;;
     transactionhistory.GetTransactions example.no_repository example.untraced
       "1011226111") i
    = (Ret (["t3"; "t2"]%string, None), i').
Proof.
  cbv zeta.
  assert (Hold : transactionhistory.txnCache (example.history 2 ["t2"; "t1"]%string)
                 !! "1011226111"%string = Some ["t2"; "t1"]%string)
    by apply lookup_singleton_eq.
  assert (Hlim : 0 <= transactionhistory.HistoryLimit
                        (transactionhistory.Config (example.history 2 ["t2"; "t1"]%string)))
    by (vm_compute; discriminate).
  exact (GetTransactions_after_processTransactionForAcct example.no_repository
           (example.history 2 ["t2"; "t1"]%string) example.untraced
           "1011226111" "t3"%string ["t2"; "t1"]%string example.no_repository Hold Hlim).
Defined.

Lemma ProcessTransaction_keeps_accounts_witness :
  let i := example.ledger 2 {["1011226111"%string := [example.earlier]]} in
  exists i',
    transactionhistory.ProcessTransaction example.no_ledger example.FromAccountNum
      example.FromRoutingNum example.ToAccountNum example.ToRoutingNum example.to_self i
    = (Ret tt, i')
    /\ forall a, is_Some (transactionhistory.txnCache i' !! a)
                 <-> is_Some (transactionhistory.txnCache i !! a).
Proof.
  cbv zeta.
  assert (Hlim : 0 <= transactionhistory.HistoryLimit
                        (transactionhistory.Config
                           (example.ledger 2 {["1011226111"%string := [example.earlier]]})))
    by (vm_compute; discriminate).
  destruct (ProcessTransaction_keeps_accounts example.no_ledger example.FromAccountNum
              example.FromRoutingNum example.ToAccountNum example.ToRoutingNum
              (example.ledger 2 {["1011226111"%string := [example.earlier]]})
              example.to_self Hlim)
    as (i' & Hrun & _ & Hsame & _).
  exists i'. split; [exact Hrun | exact Hsame].
Defined.

Lemma ProcessTransaction_skips_witness :
  let i := example.ledger 2 {["1011226111"%string := [example.earlier]]} in
  transactionhistory.ProcessTransaction example.no_ledger example.FromAccountNum
    example.FromRoutingNum example.ToAccountNum example.ToRoutingNum example.abroad i
  = (Ret tt, i).
Proof.
  cbv zeta.
  apply (ProcessTransaction_skips example.no_ledger example.FromAccountNum
           example.FromRoutingNum example.ToAccountNum example.ToRoutingNum
           (example.ledger 2 {["1011226111"%string := [example.earlier]]})
           example.abroad).
  - left. vm_compute. discriminate.
  - left. vm_compute. discriminate.
Defined.

Lemma ProcessTransaction_transfer_witness :
  let i := example.ledger 3 {["1011226111"%string := [example.earlier]]} in
  exists i',
    transactionhistory.ProcessTransaction example.no_ledger example.FromAccountNum
      example.FromRoutingNum example.ToAccountNum example.ToRoutingNum example.to_self i
    = (Ret tt, i')
    /\ transactionhistory.txnCache i' !! "1011226111"%string
       = Some [example.to_self; example.to_self; example.earlier].
Proof.
  cbv zeta.
  assert (Hlim : 0 <= transactionhistory.HistoryLimit
                        (transactionhistory.Config
                           (example.ledger 3 {["1011226111"%string := [example.earlier]]})))
    by (vm_compute; discriminate).
  assert (Hold : transactionhistory.txnCache
                   (example.ledger 3 {["1011226111"%string := [example.earlier]]})
                 !! "1011226111"%string = Some [example.earlier])
    by apply lookup_singleton_eq.
  destruct (ProcessTransaction_transfer example.no_ledger example.FromAccountNum
              example.FromRoutingNum example.ToAccountNum example.ToRoutingNum
              (example.ledger 3 {["1011226111"%string := [example.earlier]]})
              example.to_self [example.earlier] [example.earlier]
              Hlim eq_refl eq_refl Hold Hold)
    as (i' & Hrun & Hcache).
  exists i'. split; [exact Hrun|].
  destruct (decide (example.FromAccountNum example.to_self
                    = example.ToAccountNum example.to_self)) as [_|Hne];
    [exact Hcache | now contradiction Hne].
Defined.
